(** * GD cert device controller (gd/cert/gd_device.py): lifecycle model

    A shallow embedding of the controller that starts, supervises and tears
    down the backing process of a GD cert device, together with the
    properties of its start-up handshake, output drain, teardown escalation
    and port-mapping retries.

    The Python code talks to the operating system, to adb and to gRPC.  Every
    such call is an [Action] appended to a chronological trace; what the call
    answers is decided by a [World], a deterministic environment that sees the
    whole history.  Methods are programs of a small state-and-exception monad
    over that trace.

    Modelled: [create] and its helpers, the three constructors, [setup] of the
    three classes, [teardown] of the base class and of the Android device, the
    port mappings, the reboot, and the logging loop; and, over a second trace
    that also records files and tools, the teardown of the host-only device
    with its coverage report, [wait_channel_ready] and [destroy].  Left out:
    [get_crash_snippet_and_log_tail], which hands the log file to a library
    function. *)

From Stdlib Require Import ZArith List String Ascii Bool Lia DecimalString.
Import ListNotations.
Local Open Scope string_scope.
Local Open Scope Z_scope.

(** ** Python values and helpers *)

(** The dynamically typed values adb calls and configuration entries hold. *)
Inductive PyVal :=
| PyNone
| PyBool (b : bool)
| PyInt (z : Z)
| PyStr (s : string).

(** Python truthiness ([if v:], [not v], [bool(v)]). *)
Definition truthy (v : PyVal) : bool :=
  match v with
  | PyNone => false
  | PyBool b => b
  | PyInt z => negb (z =? 0)
  | PyStr s => negb (s =? EmptyString)%string
  end.

(** [isinstance(v, int)]; [bool] is a subclass of [int]. *)
Definition isinstance_int (v : PyVal) : bool :=
  match v with
  | PyInt _ | PyBool _ => true
  | _ => false
  end.

(** ["%d" % z] *)
Definition fmt_d (z : Z) : string := NilZero.string_of_int (Z.to_int z).

(** [pat in s] on strings. *)
Fixpoint contains (pat s : string) : bool :=
  String.prefix pat s ||
  match s with
  | EmptyString => false
  | String _ rest => contains pat rest
  end.

(** [sep.join(l)] *)
Fixpoint join (sep : string) (l : list string) : string :=
  match l with
  | [] => EmptyString
  | [x] => x
  | x :: rest => (x ++ sep ++ join sep rest)%string
  end.

(** [x in l] on integers. *)
Definition in_list (x : Z) (l : list Z) : bool := existsb (Z.eqb x) l.

(** ** Signals, exceptions, actions *)

Inductive Signal := SIGINT | SIGKILL.

(** [signal.SIGINT] and [signal.SIGKILL] as integers (Linux). *)
Definition signum (s : Signal) : Z :=
  match s with
  | SIGINT => 2
  | SIGKILL => 9
  end.

Inductive ChannelId := grpc_channel_id | grpc_root_server_channel_id.

(** Reasons given to [asserts.assert_true] and [asserts.fail]. *)
Inductive Failure :=
| SignalPortUnavailable          (* "[%s] Failed to make signal port available" *)
| BackingPortsUnavailable        (* "[%s] Failed to make backing process ports available" *)
| StoppedImmediately             (* "backing_process stopped immediately after running ..." *)
| ArgumentsEmpty                 (* "All arguments to GdDeviceBase must not be None nor empty" *)
| CmdComponentEmpty              (* "cmd list should not have None nor empty component" *)
| SerialNumberEmpty              (* "serial_number must not be None nor empty" *)
| CannotRunAsRoot                (* "device %s cannot run as root" *)
| CannotRunAsRootAfterVerity     (* "device %s cannot run as root after enabling verity" *)
| CommandReturnedOutput          (* "command returned something when it shouldn't: %s" *)
| UnablePush (src dst : string)  (* "Unable to push file %s to %s due to %s" *)
| UnableForward (host_port device_port : Z) (* "Unable to forward host port %d to device port %d, error %s" *)
| UnableReverse (device_port host_port : Z) (* "Unable to reverse device port %d to host port %d, error %s" *)
| BootTimedOut.                  (* "Device %s booting process timed out." *)

Inductive Exn :=
| Exception (msg : string)       (* raise Exception(msg) *)
| TestFailure (why : Failure)    (* raised by asserts.assert_true / asserts.fail *)
| AdbError
| AttributeError (attr : string)
| KeyError (key : string)
| TypeError
| ValueError
| OSError
| OverflowError                  (* socket.bind on a port outside 0..65535 *)
| TestSignalError                (* acts.signals: the extras of a test signal are not JSON *)
| TimeoutExpired                 (* subprocess.TimeoutExpired *)
| FutureTimeoutError             (* concurrent.futures.TimeoutError *)
| TaskError.                     (* an exception raised inside a submitted task *)

Inductive Level := ERROR | WARNING | INFO | DEBUG.

Inductive LogMsg :=
| SigintFailed (label : string)  (* "[%s] Failed to interrupt backing process via SIGINT, sending SIGKILL" *)
| KillFailed                     (* "Failed to kill backing process" *)
| StoppedWithCode (label : string) (code : Z) (* "backing process %s stopped with code: %d" *)
| LoggingThreadError             (* "backing process logging thread produced an error when executing: %s" *)
| LoggingThreadLate              (* "backing process logging thread failed to finish on time" *)
| AlreadyForwarded (host_port : Z)  (* "host port %d was already forwarded" *)
| AlreadyReversed (device_port : Z) (* "device port %d was already reversed" *)
| ForwardRetry (label : string) (host_port device_port : Z) (left : Z)
| ReverseRetry (label : string) (device_port host_port : Z) (left : Z)
| DisablingVerity (serial : string) (* "Disabling verity and remount for %s" *)
| Rebooting (serial : string)    (* "Rebooting %s" *)
| DebugArg (arg : string).       (* logging.debug(arg) *)

(** Calls on the [AdbProxy] of a device. *)
Inductive AdbCall :=
| adb_ensure_root
| adb_getprop (name : string)
| adb_disable_verity
| adb_reboot
| adb_remount
| adb_wait_for_device (timeout : Z)
| adb_get_state
| adb_shell (command : string)
| adb_remove_tcp_forward (host_port : Z)
| adb_reverse (args : string)
| adb_tcp_forward (host_port device_port : Z)
| adb_push (args : string) (timeout : Z)
| adb_pull (args : string).

Inductive AdbReply :=
| AdbOut (v : PyVal)
| AdbRaise.                      (* the call raises AdbError *)

(** One interaction of the controller with its environment, in the order of
    the source.  Timeouts are in seconds as in the source; [None] is a call
    made without a timeout.  The flag of [SendSignal] tells whether the
    call was passed on by the process object, which does nothing once it
    holds a return code; it does not tell whether the signal reached a
    process that was still alive. *)
Inductive Action :=
| MakePortsAvailable (ports : list Z) (ok : bool)
| SocketBindListen (port : Z) (ok : bool)
| SocketAccept (timeout : option Z) (connected : bool)
| SocketClose
| Spawn (cmd : list string) (ok : bool)
| IsSubprocessAlive (alive : bool)
| ExecutorSubmit
| ExecutorShutdown (wait : bool)
| FutureResult (timeout : option Z) (done : bool)
| InsecureChannel (c : ChannelId) (port : Z)
| ChannelClose (c : ChannelId)
| SendSignal (sig : Signal) (passed_on : bool)
| ProcWait (timeout : option Z) (returncode : option Z)
| Logging (lvl : Level) (m : LogMsg)
| PrintConfigs (count : nat)
| Sleep (ms : Z)
| Adb (serial : string) (call : AdbCall) (reply : AdbReply).

(** ** The environment *)

(** How a submitted task ends. *)
Inductive TaskEnd :=
| TaskReturned (result : PyVal)
| TaskRaised.

(** The environment's answers; each sees the history so far.  Delays are in
    milliseconds, [None] means the awaited event never happens. *)
Record World := {
  (* cert.os_utils.make_ports_available *)
  ports_available : list Action -> list Z -> bool;
  (* does bind()/listen() on the signal port succeed *)
  bind_ok : list Action -> bool;
  (* does subprocess.Popen start the command *)
  spawn_ok : list Action -> bool;
  (* cert.os_utils.is_subprocess_alive *)
  subprocess_alive : list Action -> bool;
  (* when the backing process connects to the signal port *)
  connect_after : list Action -> option Z;
  (* when the backing process exits, and its Popen return code *)
  exit_after : list Action -> option (Z * Z);
  (* when the logging task finishes, and how *)
  task_after : list Action -> option (Z * TaskEnd);
  (* answers of adb for the device with this serial number *)
  adb_reply : list Action -> string -> AdbCall -> AdbReply;
  (* how long that adb call takes, in milliseconds (negative counts as 0) *)
  adb_elapsed : list Action -> string -> AdbCall -> Z;
  (* the builtin int() on a string; None is ValueError *)
  int_of_str : string -> option Z;
  (* time.strftime("%m%d%H%M%Y.%S") *)
  strftime : list Action -> string;
  (* cert.os_utils.get_gd_root() *)
  gd_root : string;
  (* get_current_context().get_full_output_path() *)
  full_output_path : string;
  (* get_current_context().get_base_output_path() *)
  base_output_path : string;
  (* os.environ *)
  os_environ : list (string * string)
}.

(** ** The monad: trace, clock, exceptions, blocking *)

Record Sys := { trace : list Action; clock : Z }.

Definition sys0 : Sys := {| trace := []; clock := 0 |}.

Inductive Outcome (A : Type) :=
| Returned (a : A)
| Raised (e : Exn)
| Blocked.                       (* the call never comes back *)

Arguments Returned {A} a.
Arguments Raised {A} e.
Arguments Blocked {A}.

Definition M (A : Type) : Type := Sys -> Outcome A * Sys.

Definition ret {A} (a : A) : M A := fun s => (Returned a, s).

Definition bind {A B} (m : M A) (k : A -> M B) : M B :=
  fun s =>
    match m s with
    | (Returned a, s') => k a s'
    | (Raised e, s') => (Raised e, s')
    | (Blocked, s') => (Blocked, s')
    end.

Definition raise {A} (e : Exn) : M A := fun s => (Raised e, s).

Declare Scope py_scope.
Delimit Scope py_scope with py.
Notation "x <- m ;; k" := (bind m (fun x => k))
  (at level 100, m at next level, right associativity) : py_scope.
Notation "m ;; k" := (bind m (fun _ => k))
  (at level 100, right associativity) : py_scope.
Local Open Scope py_scope.

(** [try: m except <handles>: h] *)
Definition try_except {A} (m : M A) (handles : Exn -> bool) (h : Exn -> M A) : M A :=
  fun s =>
    match m s with
    | (Raised e, s') => if handles e then h e s' else (Raised e, s')
    | r => r
    end.

(** [with ... :] / [finally]: the exit action runs on return and on raise. *)
Definition finally {A} (m : M A) (exit : M unit) : M A :=
  fun s =>
    match m s with
    | (Returned a, s') => (_ <- exit ;; ret a) s'
    | (Raised e, s') => (_ <- exit ;; raise e) s'
    | (Blocked, s') => (Blocked, s')
    end.

(** Append an action; [dt] milliseconds pass. *)
Definition emit (a : Action) (dt : Z) : M unit :=
  fun s => (Returned tt, {| trace := trace s ++ [a]; clock := clock s + dt |}).

Definition do (a : Action) : M unit := emit a 0.

Definition history : M (list Action) := fun s => (Returned (trace s), s).

(** [time.time()], in milliseconds. *)
Definition time_time : M Z := fun s => (Returned (clock s), s).

(** [time.sleep] *)
Definition time_sleep (ms : Z) : M unit := emit (Sleep ms) ms.

Definition logging (lvl : Level) (m : LogMsg) : M unit := do (Logging lvl m).

(** [asserts.assert_true(cond, msg)] *)
Definition assert_true (cond : bool) (why : Failure) : M unit :=
  if cond then ret tt else raise (TestFailure why).

(** [asserts.fail(msg)] *)
Definition asserts_fail {A} (why : Failure) : M A := raise (TestFailure why).

(** [asserts.fail(msg, extras=e)] with an exception as [extras]: the test
    signal checks its extras with [json.dumps] when it is built, and no
    exception object is JSON serialisable, so TestSignalError is raised in
    place of the test failure. *)
Definition asserts_fail_extras {A} (why : Failure) (extras : Exn) : M A :=
  raise TestSignalError.

(** [self.attr] for an attribute that only exists once it was assigned. *)
Definition getattr {A} (attr : option A) (name : string) : M A :=
  match attr with
  | Some a => ret a
  | None => raise (AttributeError name)
  end.

(** A blocking call: the awaited event comes after [d] ms or never, the
    caller waits at most [timeout] seconds, or for ever without one. *)
Inductive Waited (A : Type) :=
| Came (d : Z) (a : A)
| GaveUp (d : Z)
| Forever.

Arguments Came {A} d a.
Arguments GaveUp {A} d.
Arguments Forever {A}.

Definition wait_for {A} (event : option (Z * A)) (timeout : option Z) : Waited A :=
  match event, timeout with
  | Some (d, a), None => Came d a
  | Some (d, a), Some t => if d <=? 1000 * t then Came d a else GaveUp (1000 * t)
  | None, Some t => GaveUp (1000 * t)
  | None, None => Forever
  end.

Definition block {A} : M A := fun s => (Blocked, s).

Definition is_TimeoutExpired (e : Exn) : bool :=
  match e with TimeoutExpired => true | _ => false end.

Definition is_FutureTimeoutError (e : Exn) : bool :=
  match e with FutureTimeoutError => true | _ => false end.

Definition is_AdbError (e : Exn) : bool :=
  match e with AdbError => true | _ => false end.

(** ** Objects the controller holds *)

(** [subprocess.Popen]: the return code is cached once the exit was seen. *)
Record Popen := { returncode : option Z }.

Record Channel := { target_port : Z; closed : bool }.

(** The future of the logging task, with the executor it was submitted to:
    [setup] assigns both attributes together. *)
Inductive Future := LoggingFuture.

Inductive TerminalColor := BLUE | YELLOW.

(** The attributes [setup] assigns; absent until then. *)
Record Runtime := {
  rt_backing_process : option Popen;
  rt_logging_future : option Future;
  rt_grpc_root_server_channel : option Channel;
  rt_grpc_channel : option Channel
}.

Definition not_started : Runtime :=
  {| rt_backing_process := None; rt_logging_future := None;
     rt_grpc_root_server_channel := None; rt_grpc_channel := None |}.

(** The attributes of a [GdDeviceBase] instance. *)
Record Device := {
  verbose_mode : bool;
  grpc_root_server_port : Z;
  grpc_port : Z;
  signal_port : Z;
  name : string;
  type_identifier : string;
  label : string;
  log_path_base : string;
  test_runner_base_path : string;
  backing_process_log_path : string;
  cmd : list string;
  environment : list (string * string);
  terminal_color : TerminalColor;
  runtime : Runtime
}.

Definition backing_process (self : Device) := rt_backing_process (runtime self).
Definition backing_process_logging_future (self : Device) := rt_logging_future (runtime self).
Definition grpc_root_server_channel (self : Device) := rt_grpc_root_server_channel (runtime self).
Definition grpc_channel (self : Device) := rt_grpc_channel (runtime self).

Definition with_runtime (self : Device) (r : Runtime) : Device :=
  {| verbose_mode := verbose_mode self;
     grpc_root_server_port := grpc_root_server_port self;
     grpc_port := grpc_port self;
     signal_port := signal_port self;
     name := name self;
     type_identifier := type_identifier self;
     label := label self;
     log_path_base := log_path_base self;
     test_runner_base_path := test_runner_base_path self;
     backing_process_log_path := backing_process_log_path self;
     cmd := cmd self;
     environment := environment self;
     terminal_color := terminal_color self;
     runtime := r |}.

Definition set_backing_process (self : Device) (p : Popen) : Device :=
  with_runtime self
    {| rt_backing_process := Some p;
       rt_logging_future := rt_logging_future (runtime self);
       rt_grpc_root_server_channel := rt_grpc_root_server_channel (runtime self);
       rt_grpc_channel := rt_grpc_channel (runtime self) |}.

Definition set_logging_future (self : Device) (f : Future) : Device :=
  with_runtime self
    {| rt_backing_process := rt_backing_process (runtime self);
       rt_logging_future := Some f;
       rt_grpc_root_server_channel := rt_grpc_root_server_channel (runtime self);
       rt_grpc_channel := rt_grpc_channel (runtime self) |}.

Definition set_grpc_root_server_channel (self : Device) (c : Channel) : Device :=
  with_runtime self
    {| rt_backing_process := rt_backing_process (runtime self);
       rt_logging_future := rt_logging_future (runtime self);
       rt_grpc_root_server_channel := Some c;
       rt_grpc_channel := rt_grpc_channel (runtime self) |}.

Definition set_grpc_channel (self : Device) (c : Channel) : Device :=
  with_runtime self
    {| rt_backing_process := rt_backing_process (runtime self);
       rt_logging_future := rt_logging_future (runtime self);
       rt_grpc_root_server_channel := rt_grpc_root_server_channel (runtime self);
       rt_grpc_channel := Some c |}.

(** ** Calls into the operating system and libraries *)

(** The ports a socket address can hold. *)
Definition port_in_range (port : Z) : bool := (0 <=? port) && (port <=? 65535).

Section Primitives.
Variable w : World.

(** [cert.os_utils.make_ports_available(ports)] *)
Definition make_ports_available (ports : list Z) : M bool :=
  h <- history ;;
  let ok := ports_available w h ports in
  do (MakePortsAvailable ports ok) ;;
  ret ok.

(** [setsockopt], [bind] and [listen(1)] on localhost.  [bind] takes a
    port from 0 to 65535; for any other it raises OverflowError and asks
    the system nothing. *)
Definition socket_bind_listen (port : Z) : M unit :=
  if port_in_range port then
    h <- history ;;
    let ok := bind_ok w h in
    do (SocketBindListen port ok) ;;
    if ok then ret tt else raise OSError
  else
    do (SocketBindListen port false) ;;
    raise OverflowError.

(** [socket.accept()] on a socket whose timeout is [timeout]; a socket
    is created blocking, that is with no timeout. *)
Definition socket_accept (timeout : option Z) : M unit :=
  h <- history ;;
  match wait_for (option_map (fun d => (d, tt)) (connect_after w h)) timeout with
  | Came d _ => emit (SocketAccept timeout true) d
  | GaveUp d => emit (SocketAccept timeout false) d ;; raise OSError
  | Forever => do (SocketAccept timeout false) ;; block
  end.

(** [subprocess.Popen(cmd, ...)] *)
Definition subprocess_Popen (cmd : list string) : M Popen :=
  h <- history ;;
  let ok := spawn_ok w h in
  do (Spawn cmd ok) ;;
  if ok then ret {| returncode := None |} else raise OSError.

(** [cert.os_utils.is_subprocess_alive(process)] *)
Definition is_subprocess_alive : M bool :=
  h <- history ;;
  let alive := subprocess_alive w h in
  do (IsSubprocessAlive alive) ;;
  ret alive.

(** [Popen.send_signal(sig)]: the call does nothing on an object that
    holds a return code, and is passed on otherwise.  What happens then is
    between the library and the system: since Python 3.9 the library polls
    first and sends nothing to a process that has exited in the meantime,
    whose return code the next [wait] then gives at once, as [exit_after]
    of the environment has it. *)
Definition Popen_send_signal (p : Popen) (sig : Signal) : M unit :=
  match returncode p with
  | None => do (SendSignal sig true)
  | Some _ => do (SendSignal sig false)
  end.

(** [Popen.kill()] *)
Definition Popen_kill (p : Popen) : M unit := Popen_send_signal p SIGKILL.

(** [Popen.wait(timeout)]: the return code, and the process object with
    the code cached; raises [TimeoutExpired]. *)
Definition Popen_wait (p : Popen) (timeout : option Z) : M (Z * Popen) :=
  match returncode p with
  | Some rc => do (ProcWait timeout (Some rc)) ;; ret (rc, p)
  | None =>
      h <- history ;;
      match wait_for (exit_after w h) timeout with
      | Came d rc =>
          emit (ProcWait timeout (Some rc)) d ;;
          ret (rc, {| returncode := Some rc |})
      | GaveUp d => emit (ProcWait timeout None) d ;; raise TimeoutExpired
      | Forever => do (ProcWait timeout None) ;; block
      end
  end.

(** [Future.result(timeout)]: the task's value, the task's exception
    raised again, or [concurrent.futures.TimeoutError]. *)
Definition Future_result (f : Future) (timeout : option Z) : M PyVal :=
  h <- history ;;
  match wait_for (task_after w h) timeout with
  | Came d (TaskReturned v) => emit (FutureResult timeout true) d ;; ret v
  | Came d TaskRaised => emit (FutureResult timeout true) d ;; raise TaskError
  | GaveUp d => emit (FutureResult timeout false) d ;; raise FutureTimeoutError
  | Forever => do (FutureResult timeout false) ;; block
  end.

(** [grpc.insecure_channel("localhost:%d" % port)] *)
Definition insecure_channel (c : ChannelId) (port : Z) : M Channel :=
  do (InsecureChannel c port) ;;
  ret {| target_port := port; closed := false |}.

(** [Channel.close()] *)
Definition Channel_close (c : ChannelId) (ch : Channel) : M Channel :=
  do (ChannelClose c) ;;
  ret {| target_port := target_port ch; closed := true |}.

(** A call on [self.adb]; raises [AdbError]. *)
Definition adb (serial : string) (call : AdbCall) : M PyVal :=
  h <- history ;;
  let r := adb_reply w h serial call in
  emit (Adb serial call r) (Z.max 0 (adb_elapsed w h serial call)) ;;
  match r with
  | AdbOut v => ret v
  | AdbRaise => raise AdbError
  end.
End Primitives.

(** ** class GdDeviceBase *)

Module GdDeviceBase.
Definition WAIT_CHANNEL_READY_TIMEOUT_SECONDS : Z := 10.

Section Methods.
Variable w : World.

(** [GdDeviceBase.setup] *)
Definition setup (self : Device) : M Device :=
  (* Ensure signal port is available *)
  ok <- make_ports_available w [signal_port self] ;;
  assert_true ok SignalPortUnavailable ;;
  (* with socket.socket(...) as signal_socket: *)
  self <- finally
    (socket_bind_listen w (signal_port self) ;;
     p <- subprocess_Popen w (cmd self) ;;
     let self := set_backing_process self p in
     (* assert_true(self.backing_process, ...) holds: a Popen object is truthy *)
     alive <- is_subprocess_alive w ;;
     assert_true alive StoppedImmediately ;;
     (* Wait for process to be ready *)
     socket_accept w None ;;
     ret self)
    (do SocketClose) ;;
  do ExecutorSubmit ;;
  let self := set_logging_future self LoggingFuture in
  (* Setup gRPC management channels *)
  root <- insecure_channel grpc_root_server_channel_id (grpc_root_server_port self) ;;
  let self := set_grpc_root_server_channel self root in
  main <- insecure_channel grpc_channel_id (grpc_port self) ;;
  let self := set_grpc_channel self main in
  (* the facade stubs are built over the two channels *)
  ret self.

(** [teardown], the stop-signal block: from [stop_signal = signal.SIGINT]
    to the end of the outer [try]; gives [stop_signal], [return_code]
    and the process object as they are when the block is left. *)
Definition teardown_stop (self : Device) (p : Popen) : M (Signal * (Z * Popen)) :=
  let stop_signal := SIGINT in
  Popen_send_signal p stop_signal ;;
  try_except
    (rp <- Popen_wait w p (Some WAIT_CHANNEL_READY_TIMEOUT_SECONDS) ;;
     ret (stop_signal, rp))
    is_TimeoutExpired
    (fun _ =>
       logging ERROR (SigintFailed (label self)) ;;
       let stop_signal := SIGKILL in
       Popen_kill p ;;
       try_except
         (rp <- Popen_wait w p (Some WAIT_CHANNEL_READY_TIMEOUT_SECONDS) ;;
          ret (stop_signal, rp))
         is_TimeoutExpired
         (fun _ =>
            logging ERROR KillFailed ;;
            let return_code := -65536 in
            ret (stop_signal, (return_code, p)))).

(** [teardown], the rest: the check of [return_code], the join of the
    logging future and the shutdown of its executor. *)
Definition teardown_join (self : Device) (stop_signal : Signal) (return_code : Z)
    : M unit :=
  (if negb (in_list return_code [- signum stop_signal; 0])
   then logging ERROR (StoppedWithCode (label self) return_code)
   else ret tt) ;;
  try_except
    (f <- getattr (backing_process_logging_future self)
            "backing_process_logging_future" ;;
     result <- Future_result w f (Some WAIT_CHANNEL_READY_TIMEOUT_SECONDS) ;;
     if truthy result then logging ERROR LoggingThreadError else ret tt)
    is_FutureTimeoutError
    (fun _ => logging ERROR LoggingThreadLate) ;;
  getattr (backing_process_logging_future self) "backing_process_logging_executor" ;;
  do (ExecutorShutdown false).

(** [GdDeviceBase.teardown] *)
Definition teardown (self : Device) : M Device :=
  main <- getattr (grpc_channel self) "grpc_channel" ;;
  main <- Channel_close grpc_channel_id main ;;
  let self := set_grpc_channel self main in
  root <- getattr (grpc_root_server_channel self) "grpc_root_server_channel" ;;
  root <- Channel_close grpc_root_server_channel_id root ;;
  let self := set_grpc_root_server_channel self root in
  p <- getattr (backing_process self) "backing_process" ;;
  r <- teardown_stop self p ;;
  let '(stop_signal, (return_code, p)) := r in
  let self := set_backing_process self p in
  teardown_join self stop_signal return_code ;;
  ret self.
End Methods.
End GdDeviceBase.

(** ** Paths and string replacement *)

Definition starts_with (pre s : string) : bool := String.prefix pre s.

Fixpoint ends_with_slash (s : string) : bool :=
  match s with
  | EmptyString => false
  | String c EmptyString => Ascii.eqb c "/"
  | String _ rest => ends_with_slash rest
  end.

(** One step of [os.path.join] (posixpath). *)
Definition path_join2 (path b : string) : string :=
  if starts_with "/" b then b
  else if (path =? EmptyString)%string || ends_with_slash path then (path ++ b)%string
  else (path ++ "/" ++ b)%string.

(** [os.path.join(a, *p)] *)
Definition path_join (a : string) (p : list string) : string :=
  fold_left path_join2 p a.

(** [pathlib.Path] on a POSIX host: the root, which is empty, ["/"] or
    ["//"], and the names after it.  Parsing drops empty names and ["."],
    so a path object holds no doubled and no trailing slash. *)
Record Path := { path_root : string; path_names : list string }.

(** [s.split("/")] *)
Fixpoint split_slash (s : string) : list string :=
  match s with
  | EmptyString => [EmptyString]
  | String c rest =>
      if Ascii.eqb c "/" then EmptyString :: split_slash rest
      else
        match split_slash rest with
        | name :: names => String c name :: names
        | [] => [String c EmptyString]
        end
  end.

(** [s.lstrip("/")] *)
Fixpoint lstrip_slash (s : string) : string :=
  match s with
  | String c rest => if Ascii.eqb c "/" then lstrip_slash rest else s
  | EmptyString => s
  end.

(** [splitroot] of the POSIX flavour: exactly two leading slashes are a
    root of their own, any other number of them is the root ["/"]. *)
Definition splitroot (part : string) : string * string :=
  if starts_with "/" part then
    let stripped_part := lstrip_slash part in
    if Nat.eqb (String.length part - String.length stripped_part) 2
    then ("//", stripped_part)
    else ("/", stripped_part)
  else (EmptyString, part).

(** A name that parsing keeps. *)
Definition is_name (x : string) : bool :=
  negb (x =? EmptyString)%string && negb (x =? ".")%string.

(** [pathlib.Path(s)] *)
Definition pathlib_Path (s : string) : Path :=
  let (root, rel) := splitroot s in
  {| path_root := root; path_names := filter is_name (split_slash rel) |}.

(** [path.joinpath(other)]: a rooted [other] replaces the path. *)
Definition joinpath (path : Path) (other : string) : Path :=
  let o := pathlib_Path other in
  if (path_root o =? EmptyString)%string
  then {| path_root := path_root path; path_names := (path_names path ++ path_names o)%list |}
  else o.

(** [str(path)], which is also what the system is handed for the path. *)
Definition Path_str (path : Path) : string :=
  match path_root path, path_names path with
  | EmptyString, [] => "."
  | root, names => (root ++ join "/" names)%string
  end.

(** [s.replace(old, new)] for a non-empty [old]: occurrences are replaced
    left to right without overlap; [skip] characters of a matched
    occurrence are still to be dropped. *)
Fixpoint replace_from (skip : nat) (old new s : string) : string :=
  match s with
  | EmptyString => EmptyString
  | String c rest =>
      match skip with
      | S k => replace_from k old new rest
      | O =>
          if String.prefix old s
          then (new ++ replace_from (String.length old - 1) old new rest)%string
          else String c (replace_from 0 old new rest)
      end
  end.

Definition str_replace (s old new : string) : string := replace_from 0 old new s.

(** ** class GdAndroidDevice *)

Record AndroidDevice := {
  android_base : Device;
  serial_number : string
}.

Definition py_eq_str (v : PyVal) (s : string) : bool :=
  match v with
  | PyStr t => (t =? s)%string
  | _ => false
  end.

Module GdAndroidDevice.
Definition WAIT_FOR_DEVICE_TIMEOUT_SECONDS : Z := 180.

Section Methods.
Variable w : World.

(** The [while] loop of [wait_for_boot_completion]; [true] when the
    [return] inside the loop was taken.  Every round sleeps 5 s, so
    [fuel] rounds suffice when [5000 * fuel] covers the time left. *)
Fixpoint boot_completion_loop (fuel : nat) (serial : string) (deadline : Z) : M bool :=
  now <- time_time ;;
  if now <? deadline then
    match fuel with
    | O => block
    | S fuel' =>
        returned <- try_except
          (completed <- adb w serial (adb_getprop "sys.boot_completed") ;;
           ret (py_eq_str completed "1"))
          is_AdbError
          (fun _ => ret false) ;;
        if returned : bool then ret true
        else (time_sleep 5000 ;; boot_completion_loop fuel' serial deadline)
    end
  else ret false.

(** [wait_for_boot_completion(timeout_minutes)], the timeout carried in
    milliseconds. *)
Definition wait_for_boot_completion (self : AndroidDevice) (timeout_ms : Z) : M unit :=
  timeout_start <- time_time ;;
  let timeout := timeout_ms in
  adb w (serial_number self) (adb_wait_for_device WAIT_FOR_DEVICE_TIMEOUT_SECONDS) ;;
  now <- time_time ;;
  returned <- boot_completion_loop
                (Z.to_nat ((timeout_start + timeout - now) / 5000 + 1))
                (serial_number self) (timeout_start + timeout) ;;
  if returned : bool then ret tt else asserts_fail BootTimedOut.

(** The [while] loop of [reboot]: leaves when the device is gone
    ([AdbError]) or the time is over. *)
Fixpoint reboot_loop (fuel : nat) (serial : string) (deadline : Z) : M unit :=
  now <- time_time ;;
  if now <? deadline then
    match fuel with
    | O => block
    | S fuel' =>
        broke <- try_except
          (adb w serial adb_get_state ;; time_sleep 100 ;; ret false)
          is_AdbError
          (fun _ => ret true) ;;
        if broke : bool then ret tt else reboot_loop fuel' serial deadline
    end
  else ret tt.

(** [reboot(timeout_minutes=15.0)], the timeout carried in milliseconds. *)
Definition reboot (self : AndroidDevice) (timeout_ms : Z) : M unit :=
  logging DEBUG (Rebooting (serial_number self)) ;;
  adb w (serial_number self) adb_reboot ;;
  timeout_start <- time_time ;;
  let timeout := timeout_ms in
  reboot_loop (Z.to_nat (timeout / 100 + 1)) (serial_number self)
    (timeout_start + timeout) ;;
  now <- time_time ;;
  let left := timeout_ms - (now - timeout_start) in
  wait_for_boot_completion self left.

Definition reboot_default_timeout_ms : Z := 15 * 60 * 1000.

(** [ensure_verity_disabled] *)
Definition ensure_verity_disabled (self : AndroidDevice) : M unit :=
  logging DEBUG (DisablingVerity (serial_number self)) ;;
  root <- adb w (serial_number self) adb_ensure_root ;;
  assert_true (truthy root) CannotRunAsRoot ;;
  system_verity <- adb w (serial_number self) (adb_getprop "partition.system.verified") ;;
  vendor_verity <- adb w (serial_number self) (adb_getprop "partition.vendor.verified") ;;
  (if truthy system_verity || truthy vendor_verity
   then adb w (serial_number self) adb_disable_verity ;;
        reboot self reboot_default_timeout_ms
   else ret tt) ;;
  adb w (serial_number self) adb_remount ;;
  adb w (serial_number self) (adb_wait_for_device WAIT_FOR_DEVICE_TIMEOUT_SECONDS) ;;
  ret tt.

(** [ensure_no_output(result)] *)
Definition ensure_no_output (result : PyVal) : M unit :=
  match result with
  | PyNone => assert_true true CommandReturnedOutput
  | PyStr s => assert_true (String.length s =? 0)%nat CommandReturnedOutput
  | _ => raise TypeError
  end.

(** [push_or_die(src_file_path, dst_file_path, push_timeout=300)] *)
Definition push_or_die (self : AndroidDevice) (src_file_path dst_file_path : string)
    (push_timeout : Z) : M unit :=
  try_except
    (adb w (serial_number self) adb_ensure_root ;;
     ensure_verity_disabled self ;;
     out <- adb w (serial_number self)
              (adb_push (src_file_path ++ " " ++ dst_file_path)%string push_timeout) ;;
     match out with
     | PyStr s =>
         if contains "error" s
         then asserts_fail (UnablePush src_file_path dst_file_path)
         else ret tt
     | _ => raise TypeError
     end)
    (fun _ => true)
    (fun e => asserts_fail_extras (UnablePush src_file_path dst_file_path) e).

(** [tcp_forward_or_die(host_port, device_port, num_retry=1)] *)
Fixpoint tcp_forward_or_die (self : AndroidDevice) (host_port device_port : Z)
    (num_retry : nat) : M PyVal :=
  error_or_port <- adb w (serial_number self) (adb_tcp_forward host_port device_port) ;;
  if negb (truthy error_or_port) then
    logging DEBUG (AlreadyForwarded host_port) ;;
    ret (PyInt host_port)
  else if negb (isinstance_int error_or_port) then
    match num_retry with
    | S num_retry =>
        (* If requested, reboot an retry *)
        logging WARNING (ForwardRetry (label (android_base self)) host_port device_port
                           (Z.of_nat num_retry)) ;;
        reboot self reboot_default_timeout_ms ;;
        tcp_forward_or_die self host_port device_port num_retry
    | O => asserts_fail (UnableForward host_port device_port)
    end
  else ret error_or_port.

(** The builtin [int(v)]. *)
Definition py_int (v : PyVal) : M Z :=
  match v with
  | PyInt z => ret z
  | PyBool b => ret (if b then 1 else 0)
  | PyStr s =>
      match int_of_str w s with
      | Some z => ret z
      | None => raise ValueError
      end
  | PyNone => raise TypeError
  end.

Definition is_ValueError (e : Exn) : bool :=
  match e with ValueError => true | _ => false end.

(** [tcp_reverse_or_die(device_port, host_port, num_retry=1)] *)
Fixpoint tcp_reverse_or_die (self : AndroidDevice) (device_port host_port : Z)
    (num_retry : nat) : M PyVal :=
  error_or_port <- adb w (serial_number self)
    (adb_reverse ("tcp:" ++ fmt_d device_port ++ " tcp:" ++ fmt_d host_port)%string) ;;
  if negb (truthy error_or_port) then
    logging DEBUG (AlreadyReversed device_port) ;;
    ret (PyInt device_port)
  else
    try_except
      (z <- py_int error_or_port ;; ret (PyInt z))
      is_ValueError
      (fun _ =>
         match num_retry with
         | S num_retry =>
             (* If requested, reboot an retry *)
             logging WARNING (ReverseRetry (label (android_base self)) device_port host_port
                                (Z.of_nat num_retry)) ;;
             reboot self reboot_default_timeout_ms ;;
             tcp_reverse_or_die self device_port host_port num_retry
         | O => asserts_fail (UnableReverse device_port host_port)
         end).

Definition with_base (self : AndroidDevice) (b : Device) : AndroidDevice :=
  {| android_base := b; serial_number := serial_number self |}.

(** [GdAndroidDevice.setup], the statements before [super().setup()]:
    what is done on the device and through adb. *)
Definition setup_on_device (self : AndroidDevice) : M unit :=
  let b := android_base self in
  let sn := serial_number self in
  ensure_verity_disabled self ;;
  root <- adb w sn adb_ensure_root ;;
  assert_true (truthy root) CannotRunAsRootAfterVerity ;;
  h <- history ;;
  adb w sn (adb_shell ("date " ++ strftime w h)%string) ;;
  (* Try freeing ports and ignore results *)
  adb w sn (adb_remove_tcp_forward (grpc_port b)) ;;
  adb w sn (adb_remove_tcp_forward (grpc_root_server_port b)) ;;
  adb w sn (adb_reverse ("--remove tcp:" ++ fmt_d (signal_port b))%string) ;;
  (* Set up port forwarding or reverse or die *)
  tcp_forward_or_die self (grpc_port b) (grpc_port b) 1 ;;
  tcp_forward_or_die self (grpc_root_server_port b) (grpc_root_server_port b) 1 ;;
  tcp_reverse_or_die self (signal_port b) (signal_port b) 1 ;;
  (* Push test binaries *)
  push_or_die self (path_join (gd_root w) ["target"; "bluetooth_stack_with_facade"])
    "system/bin" 300 ;;
  push_or_die self (path_join (gd_root w) ["target"; "libbluetooth_gd.so"])
    "system/lib64" 300 ;;
  push_or_die self (path_join (gd_root w) ["target"; "libgrpc++_unsecure.so"])
    "system/lib64" 300 ;;
  out <- adb w sn (adb_shell "logcat -c") ;;
  ensure_no_output out ;;
  adb w sn (adb_shell "rm /data/misc/bluetooth/logs/btsnoop_hci.log") ;;
  out <- adb w sn (adb_shell "svc bluetooth disable") ;;
  ensure_no_output out.

(** [GdAndroidDevice.setup] *)
Definition setup (self : AndroidDevice) : M AndroidDevice :=
  setup_on_device self ;;
  b <- GdDeviceBase.setup w (android_base self) ;;
  ret (with_base self b).

(** [GdAndroidDevice.teardown] *)
Definition teardown (self : AndroidDevice) : M AndroidDevice :=
  let sn := serial_number self in
  b <- GdDeviceBase.teardown w (android_base self) ;;
  adb w sn (adb_remove_tcp_forward (grpc_port b)) ;;
  adb w sn (adb_remove_tcp_forward (grpc_root_server_port b)) ;;
  adb w sn (adb_reverse ("--remove tcp:" ++ fmt_d (signal_port b))%string) ;;
  adb w sn (adb_shell "logcat -d -f /data/misc/bluetooth/logs/system_log") ;;
  adb w sn (adb_pull ("/data/misc/bluetooth/logs/btsnoop_hci.log " ++
                      path_join (log_path_base b) [(label b ++ "_btsnoop_hci.log")%string])%string) ;;
  adb w sn (adb_pull ("/data/misc/bluetooth/logs/system_log " ++
                      path_join (log_path_base b) [(label b ++ "_system_log")%string])%string) ;;
  ret (with_base self b).
End Methods.
End GdAndroidDevice.

(** ** class GdHostOnlyDevice *)

Record HostOnlyDevice := {
  host_base : Device;
  backing_process_profraw_path : Path
}.

Module GdHostOnlyDevice.
Section Methods.
Variable w : World.

(** [GdHostOnlyDevice.setup] *)
Definition setup (self : HostOnlyDevice) : M HostOnlyDevice :=
  let b := host_base self in
  (* Ensure ports are available; only check on host only test *)
  ok <- make_ports_available w [grpc_port b; grpc_root_server_port b] ;;
  assert_true ok BackingPortsUnavailable ;;
  b <- GdDeviceBase.setup w b ;;
  ret {| host_base := b;
         backing_process_profraw_path := backing_process_profraw_path self |}.
End Methods.
End GdHostOnlyDevice.

(** ** Constructors *)

Definition ACTS_CONTROLLER_CONFIG_NAME : string := "GdDevice".
Definition ACTS_CONTROLLER_REFERENCE_NAME : string := "gd_devices".

(** [d[key] = value] on a dict kept as an association list. *)
Fixpoint dict_set (d : list (string * string)) (key value : string) : list (string * string) :=
  match d with
  | [] => [(key, value)]
  | (k, v) :: rest =>
      if (k =? key)%string then (k, value) :: rest else (k, v) :: dict_set rest key value
  end.

Section Constructors.
Variable w : World.

(** [int(s)] on a string argument. *)
Definition int_str (s : string) : M Z :=
  match int_of_str w s with
  | Some z => ret z
  | None => raise ValueError
  end.

Definition nonempty (s : string) : bool := negb (s =? EmptyString)%string.

(** [GdDeviceBase.__init__] *)
Definition GdDeviceBase_init (grpc_port grpc_root_server_port signal_port : string)
    (cmd : list string) (label type_identifier name : string) (verbose_mode : bool)
    : M Device :=
  (* all(arguments): self, the three ports, cmd, label, type_identifier, name *)
  assert_true
    (nonempty grpc_port && nonempty grpc_root_server_port && nonempty signal_port &&
     negb (Nat.eqb (List.length cmd) 0) && nonempty label && nonempty type_identifier &&
     nonempty name)
    ArgumentsEmpty ;;
  assert_true (forallb nonempty cmd) CmdComponentEmpty ;;
  root_port <- int_str grpc_root_server_port ;;
  main_port <- int_str grpc_port ;;
  sig_port <- int_str signal_port ;;
  let log_path_base := full_output_path w in
  let cmd :=
    if negb (contains "--btsnoop=" (join " " cmd))
    then (cmd ++ [("--btsnoop=" ++
                   path_join log_path_base [(label ++ "_btsnoop_hci.log")%string])%string])%list
    else cmd in
  ret {| verbose_mode := verbose_mode;
         grpc_root_server_port := root_port;
         grpc_port := main_port;
         signal_port := sig_port;
         name := name;
         type_identifier := type_identifier;
         label := label;
         log_path_base := log_path_base;
         test_runner_base_path := base_output_path w;
         backing_process_log_path :=
           path_join log_path_base
             [(type_identifier ++ "_" ++ label ++ "_backing_logs.txt")%string];
         cmd := cmd;
         environment := os_environ w;
         terminal_color := if contains "cert" label then BLUE else YELLOW;
         runtime := not_started |}.

Definition with_environment (self : Device) (env : list (string * string)) : Device :=
  {| verbose_mode := verbose_mode self;
     grpc_root_server_port := grpc_root_server_port self;
     grpc_port := grpc_port self;
     signal_port := signal_port self;
     name := name self;
     type_identifier := type_identifier self;
     label := label self;
     log_path_base := log_path_base self;
     test_runner_base_path := test_runner_base_path self;
     backing_process_log_path := backing_process_log_path self;
     cmd := cmd self;
     environment := env;
     terminal_color := terminal_color self;
     runtime := runtime self |}.

(** [GdHostOnlyDevice.__init__]: the type identifier handed to the base
    class is always ACTS_CONTROLLER_CONFIG_NAME. *)
Definition GdHostOnlyDevice_init (grpc_port' grpc_root_server_port' signal_port' : string)
    (cmd' : list string) (label' type_identifier' name' : string) (verbose_mode' : bool)
    : M HostOnlyDevice :=
  b <- GdDeviceBase_init grpc_port' grpc_root_server_port' signal_port' cmd' label'
         ACTS_CONTROLLER_CONFIG_NAME name' verbose_mode' ;;
  (* Enable LLVM code coverage output for host only tests *)
  let profraw :=
    joinpath (pathlib_Path (log_path_base b))
      (type_identifier b ++ "_" ++ label b ++ "_backing_coverage.profraw")%string in
  ret {| host_base :=
           with_environment b
             (dict_set (environment b) "LLVM_PROFILE_FILE" (Path_str profraw));
         backing_process_profraw_path := profraw |}.

(** [GdAndroidDevice.__init__] *)
Definition GdAndroidDevice_init (grpc_port' grpc_root_server_port' signal_port' : string)
    (cmd' : list string) (label' type_identifier' name' serial_number' : string)
    (verbose_mode' : bool) : M AndroidDevice :=
  b <- GdDeviceBase_init grpc_port' grpc_root_server_port' signal_port' cmd' label'
         type_identifier' name' verbose_mode' ;;
  assert_true (nonempty serial_number') SerialNumberEmpty ;;
  ret {| android_base := b; serial_number := serial_number' |}.
End Constructors.

(** ** Module functions: create and its helpers *)

(** One entry of the controller configuration, a dict with string values;
    [None] is an absent key. *)
Record Config := {
  cfg_cmd : option (list string);
  cfg_grpc_port : option string;
  cfg_grpc_root_server_port : option string;
  cfg_signal_port : option string;
  cfg_label : option string;
  cfg_name : option string;
  cfg_serial_number : option string;
  cfg_rootcanal_port : option string;
  cfg_verbose_mode : option PyVal
}.

(** What a caller can hand to [create]: a list of configuration entries, or
    some value that is not a list. *)
Inductive Configs :=
| ConfigList (l : list Config)
| NotAList (v : PyVal).

Definition configs_truthy (configs : Configs) : bool :=
  match configs with
  | ConfigList l => negb (Nat.eqb (List.length l) 0)
  | NotAList v => truthy v
  end.

Definition isinstance_list (configs : Configs) : bool :=
  match configs with
  | ConfigList _ => true
  | NotAList _ => false
  end.

(** A device built by [get_instances_with_configs]. *)
Inductive GdDevice :=
| HostOnly (d : HostOnlyDevice)
| Android (d : AndroidDevice).

Section ModuleFunctions.
Variable w : World.

(** [config[key]] *)
Definition getitem {A} (entry : option A) (key : string) : M A :=
  match entry with
  | Some a => ret a
  | None => raise (KeyError key)
  end.

(** [s.replace(old, config.get(key))]: the replacement must be a string. *)
Definition replace_with (s old : string) (new : option string) : M string :=
  match new with
  | Some n => ret (str_replace s old n)
  | None => raise TypeError
  end.

(** [replace_vars(string, config)] *)
Definition replace_vars (s : string) (config : Config) : M string :=
  let serial_number :=
    match cfg_serial_number config with Some x => x | None => EmptyString end in
  let rootcanal_port :=
    match cfg_rootcanal_port config with Some x => x | None => EmptyString end in
  if (serial_number =? "DUT")%string || (serial_number =? "CERT")%string
  then raise (Exception "Did you forget to configure the serial number?")
  else
    let s := str_replace s "$GD_ROOT" (gd_root w) in
    s <- replace_with s "$(grpc_port)" (cfg_grpc_port config) ;;
    s <- replace_with s "$(grpc_root_server_port)" (cfg_grpc_root_server_port config) ;;
    let s := str_replace s "$(rootcanal_port)" rootcanal_port in
    s <- replace_with s "$(signal_port)" (cfg_signal_port config) ;;
    ret (str_replace s "$(serial_number)" serial_number).

(** The inner loop of [get_instances_with_configs] over [config["cmd"]]. *)
Fixpoint resolve_cmd (args : list string) (config : Config) : M (list string) :=
  match args with
  | [] => ret []
  | arg :: rest =>
      logging DEBUG (DebugArg arg) ;;
      r <- replace_vars arg config ;;
      rs <- resolve_cmd rest config ;;
      ret (r :: rs)
  end.

(** The body of the loop of [get_instances_with_configs] for one entry. *)
Definition instance_with_config (config : Config) : M GdDevice :=
  args <- getitem (cfg_cmd config) "cmd" ;;
  resolved_cmd <- resolve_cmd args config ;;
  let verbose_mode :=
    truthy (match cfg_verbose_mode config with Some v => v | None => PyBool false end) in
  if match cfg_serial_number config with Some sn => nonempty sn | None => false end then
    grpc_port <- getitem (cfg_grpc_port config) "grpc_port" ;;
    grpc_root_server_port <-
      getitem (cfg_grpc_root_server_port config) "grpc_root_server_port" ;;
    signal_port <- getitem (cfg_signal_port config) "signal_port" ;;
    label <- getitem (cfg_label config) "label" ;;
    name <- getitem (cfg_name config) "name" ;;
    serial_number <- getitem (cfg_serial_number config) "serial_number" ;;
    device <- GdAndroidDevice_init w grpc_port grpc_root_server_port signal_port
                resolved_cmd label ACTS_CONTROLLER_CONFIG_NAME name serial_number
                verbose_mode ;;
    device <- GdAndroidDevice.setup w device ;;
    ret (Android device)
  else
    grpc_port <- getitem (cfg_grpc_port config) "grpc_port" ;;
    grpc_root_server_port <-
      getitem (cfg_grpc_root_server_port config) "grpc_root_server_port" ;;
    signal_port <- getitem (cfg_signal_port config) "signal_port" ;;
    label <- getitem (cfg_label config) "label" ;;
    name <- getitem (cfg_name config) "name" ;;
    device <- GdHostOnlyDevice_init w grpc_port grpc_root_server_port signal_port
                resolved_cmd label ACTS_CONTROLLER_CONFIG_NAME name verbose_mode ;;
    device <- GdHostOnlyDevice.setup w device ;;
    ret (HostOnly device).

(** The [for config in configs] loop; [devices] is the list built so far. *)
Fixpoint instances_loop (configs : list Config) (devices : list GdDevice)
    : M (list GdDevice) :=
  match configs with
  | [] => ret devices
  | config :: rest =>
      device <- instance_with_config config ;;
      instances_loop rest (devices ++ [device])%list
  end.

(** [get_instances_with_configs(configs)] *)
Definition get_instances_with_configs (configs : list Config) : M (list GdDevice) :=
  do (PrintConfigs (List.length configs)) ;;
  instances_loop configs [].

(** [create(configs)] *)
Definition create (configs : Configs) : M (list GdDevice) :=
  if negb (configs_truthy configs) then
    raise (Exception "Configuration is empty")
  else if negb (isinstance_list configs) then
    raise (Exception "Configuration should be a list")
  else
    match configs with
    | ConfigList l => get_instances_with_configs l
    | NotAList _ => raise TypeError
    end.

(** [get_info(devices)] *)
Definition get_info (devices : list GdDevice) : list PyVal := [].
End ModuleFunctions.

(** ** The logging loop of the backing process

    [__backing_process_logging_loop] runs on the executor thread.  It is
    modelled on its own: the lines the process prints until end of stream
    are its input, the log file object and the terminal are its state.

    A file opened with [open(path, 'w')] is not line buffered: [write]
    puts the text in the file object's buffer, and the I/O layer alone
    decides how much of the buffer it writes through.  [written_through]
    is that decision, the number of leading characters of the buffer that
    go to the file after a write. *)

Record LogFile := {
  on_disk : string;              (* what the file holds *)
  pending : string;              (* written by the program, still in the buffer *)
  is_open : bool
}.

Fixpoint take (n : nat) (s : string) : string :=
  match n, s with
  | S k, String c rest => String c (take k rest)
  | _, _ => EmptyString
  end.

Fixpoint drop (n : nat) (s : string) : string :=
  match n, s with
  | S k, String _ rest => drop k rest
  | _, _ => s
  end.

Section LoggingLoop.
Variable written_through : string -> nat.
(* str.strip() *)
Variable strip : string -> string.
(* "%s" of a TerminalColor and of TerminalColor.END (cert.os_utils) *)
Variable color_text : TerminalColor -> string.
Variable color_end : string.

(** [open(path, 'w')]: the file is truncated. *)
Definition open_w : LogFile :=
  {| on_disk := EmptyString; pending := EmptyString; is_open := true |}.

(** [f.write(text)] *)
Definition file_write (f : LogFile) (text : string) : LogFile :=
  let buffer := (pending f ++ text)%string in
  let n := written_through buffer in
  {| on_disk := (on_disk f ++ take n buffer)%string;
     pending := drop n buffer;
     is_open := is_open f |}.

(** [f.flush()] *)
Definition file_flush (f : LogFile) : LogFile :=
  {| on_disk := (on_disk f ++ pending f)%string; pending := EmptyString; is_open := is_open f |}.

(** [f.close()], at the end of the [with] block. *)
Definition file_close (f : LogFile) : LogFile :=
  {| on_disk := (on_disk f ++ pending f)%string; pending := EmptyString; is_open := false |}.

(** The state of the loop: the log file object and what was printed. *)
Record Drain := {
  backing_process_log : LogFile;
  terminal : list string
}.

(** The body of [for line in self.backing_process.stdout]. *)
Definition logging_loop_body (self : Device) (st : Drain) (line : string) : Drain :=
  let f := file_write (backing_process_log st) line in
  if verbose_mode self
  then {| backing_process_log := f;
          terminal := (terminal st ++
            [("[" ++ color_text (terminal_color self) ++ label self ++ color_end ++ "] " ++
              strip line)%string])%list |}
  else {| backing_process_log := f; terminal := terminal st |}.

(** The loop after it has read [lines], the stream not yet at its end. *)
Definition logging_loop_reading (self : Device) (lines : list string) : Drain :=
  fold_left (logging_loop_body self) lines
    {| backing_process_log := open_w; terminal := [] |}.

(** [__backing_process_logging_loop] on a stream that ends after [lines]:
    leaving the [with] block closes the file. *)
Definition backing_process_logging_loop (self : Device) (lines : list string) : Drain :=
  let st := logging_loop_reading self lines in
  {| backing_process_log := file_close (backing_process_log st);
     terminal := terminal st |}.
End LoggingLoop.

(** The buffering of a regular file: full buffering with a buffer of
    [io.DEFAULT_BUFFER_SIZE] characters, written through once it is exceeded. *)
Definition DEFAULT_BUFFER_SIZE : nat := 8 * 1024.

Definition full_buffering (buffer : string) : nat :=
  if Nat.ltb DEFAULT_BUFFER_SIZE (String.length buffer) then String.length buffer else O.

(** ** States of a device and observations on runs *)

(** [setup] has assigned the four attributes [teardown] reads. *)
Definition set_up (self : Device) : bool :=
  match backing_process self, backing_process_logging_future self,
        grpc_root_server_channel self, grpc_channel self with
  | Some _, Some _, Some _, Some _ => true
  | _, _, _, _ => false
  end.

(** Set up, and the exit of the backing process has not been observed. *)
Definition running (self : Device) : bool :=
  set_up self &&
  match backing_process self with
  | Some p => match returncode p with None => true | Some _ => false end
  | None => false
  end.

Definition outcome {A} (r : Outcome A * Sys) : Outcome A := fst r.
Definition final {A} (r : Outcome A * Sys) : Sys := snd r.

Definition returned {A} (r : Outcome A * Sys) : bool :=
  match fst r with Returned _ => true | _ => false end.

Definition raised {A} (r : Outcome A * Sys) : bool :=
  match fst r with Raised _ => true | _ => false end.

Definition blocked {A} (r : Outcome A * Sys) : bool :=
  match fst r with Blocked => true | _ => false end.

Definition is_signal (a : Action) : bool :=
  match a with SendSignal _ _ => true | _ => false end.

Definition is_kill (a : Action) : bool :=
  match a with SendSignal SIGKILL _ => true | _ => false end.

Definition is_spawn (a : Action) : bool :=
  match a with Spawn _ _ => true | _ => false end.

Definition is_channel_close (c : ChannelId) (a : Action) : bool :=
  match a, c with
  | ChannelClose grpc_channel_id, grpc_channel_id => true
  | ChannelClose grpc_root_server_channel_id, grpc_root_server_channel_id => true
  | _, _ => false
  end.

Definition is_stopped_with_code (a : Action) : bool :=
  match a with Logging _ (StoppedWithCode _ _) => true | _ => false end.


(** The ports whose availability was checked, in order. *)
Fixpoint ports_checked (h : list Action) : list Z :=
  match h with
  | [] => []
  | MakePortsAvailable ports _ :: rest => (ports ++ ports_checked rest)%list
  | _ :: rest => ports_checked rest
  end.

(** An action of the base class's [setup]. *)
Definition is_base_setup (a : Action) : bool :=
  match a with
  | MakePortsAvailable _ _ | SocketBindListen _ _ | SocketAccept _ _ | SocketClose
  | Spawn _ _ | IsSubprocessAlive _ | ExecutorSubmit | InsecureChannel _ _ => true
  | _ => false
  end.

Definition is_forward_attempt (host_port device_port : Z) (a : Action) : bool :=
  match a with
  | Adb _ (adb_tcp_forward h d) _ => (h =? host_port) && (d =? device_port)
  | _ => false
  end.

Definition is_reverse_attempt (args : string) (a : Action) : bool :=
  match a with
  | Adb _ (adb_reverse x) _ => (x =? args)%string
  | _ => false
  end.

Definition is_reboot (a : Action) : bool :=
  match a with
  | Adb _ adb_reboot _ => true
  | _ => false
  end.

Definition count (f : Action -> bool) (h : list Action) : nat :=
  List.length (filter f h).

(** ** Sample environments and devices *)

Definition is_digit (c : ascii) : bool :=
  (Nat.leb 48 (nat_of_ascii c)) && (Nat.leb (nat_of_ascii c) 57).

Fixpoint parse_digits (acc : Z) (s : string) : option Z :=
  match s with
  | EmptyString => Some acc
  | String c rest =>
      if is_digit c
      then parse_digits (10 * acc + (Z.of_nat (nat_of_ascii c) - 48)) rest
      else None
  end.

(** Decimal numerals with an optional sign, the part of [int(str)] the
    sample environments need. *)
Definition parse_decimal (s : string) : option Z :=
  match s with
  | EmptyString => None
  | String "-" (String c rest) => option_map Z.opp (parse_digits 0 (String c rest))
  | String "+" (String c rest) => parse_digits 0 (String c rest)
  | _ => parse_digits 0 s
  end.

(** A call of [send_signal(sig)] was passed on. *)
Definition signalled (sig : Signal) (h : list Action) : bool :=
  existsb (fun a => match a, sig with
                    | SendSignal SIGINT true, SIGINT => true
                    | SendSignal SIGKILL true, SIGKILL => true
                    | _, _ => false
                    end) h.

Definition last_is_sleep (h : list Action) : bool :=
  match rev h with
  | Sleep _ :: _ => true
  | _ => false
  end.

(** A healthy device on a healthy host: ports are free, the process starts,
    connects after 50 ms, exits 20 ms after SIGINT as killed by it, the
    logging task ends with the stream, adb does what it is asked; a
    rebooting device is gone at the second probe of its state and has
    booted when its properties are read. *)
Definition calm_adb (h : list Action) (serial : string) (call : AdbCall) : AdbReply :=
  match call with
  | adb_ensure_root => AdbOut (PyBool true)
  | adb_getprop name =>
      if (name =? "sys.boot_completed")%string then AdbOut (PyStr "1") else AdbOut (PyStr EmptyString)
  | adb_tcp_forward host_port _ => AdbOut (PyInt host_port)
  | adb_push _ _ => AdbOut (PyStr "1 file pushed.")
  | adb_get_state => if last_is_sleep h then AdbRaise else AdbOut (PyStr "device")
  | adb_disable_verity | adb_reboot | adb_remount | adb_wait_for_device _ => AdbOut PyNone
  | adb_shell _ | adb_remove_tcp_forward _ | adb_reverse _ | adb_pull _ => AdbOut (PyStr EmptyString)
  end.

Definition calm : World :=
  {| ports_available := fun _ _ => true;
     bind_ok := fun _ => true;
     spawn_ok := fun _ => true;
     subprocess_alive := fun _ => true;
     connect_after := fun _ => Some 50;
     exit_after := fun h =>
       if signalled SIGKILL h then Some (5, -9)
       else if signalled SIGINT h then Some (20, -2) else None;
     task_after := fun _ => Some (5, TaskReturned PyNone);
     adb_reply := calm_adb;
     adb_elapsed := fun _ _ _ => 10;
     int_of_str := parse_decimal;
     strftime := fun _ => "010112002020.00";
     gd_root := "/gd";
     full_output_path := "/logs/run";
     base_output_path := "/logs";
     os_environ := [("PATH", "/usr/bin")] |}.

Definition with_connect_after (w : World) (f : list Action -> option Z) : World :=
  {| ports_available := ports_available w; bind_ok := bind_ok w; spawn_ok := spawn_ok w;
     subprocess_alive := subprocess_alive w; connect_after := f;
     exit_after := exit_after w; task_after := task_after w; adb_reply := adb_reply w;
     adb_elapsed := adb_elapsed w; int_of_str := int_of_str w; strftime := strftime w;
     gd_root := gd_root w; full_output_path := full_output_path w;
     base_output_path := base_output_path w; os_environ := os_environ w |}.

Definition with_exit_after (w : World) (f : list Action -> option (Z * Z)) : World :=
  {| ports_available := ports_available w; bind_ok := bind_ok w; spawn_ok := spawn_ok w;
     subprocess_alive := subprocess_alive w; connect_after := connect_after w;
     exit_after := f; task_after := task_after w; adb_reply := adb_reply w;
     adb_elapsed := adb_elapsed w; int_of_str := int_of_str w; strftime := strftime w;
     gd_root := gd_root w; full_output_path := full_output_path w;
     base_output_path := base_output_path w; os_environ := os_environ w |}.

Definition with_adb_reply (w : World) (f : list Action -> string -> AdbCall -> AdbReply)
    : World :=
  {| ports_available := ports_available w; bind_ok := bind_ok w; spawn_ok := spawn_ok w;
     subprocess_alive := subprocess_alive w; connect_after := connect_after w;
     exit_after := exit_after w; task_after := task_after w; adb_reply := f;
     adb_elapsed := adb_elapsed w; int_of_str := int_of_str w; strftime := strftime w;
     gd_root := gd_root w; full_output_path := full_output_path w;
     base_output_path := base_output_path w; os_environ := os_environ w |}.

(** The backing process connects to the signal port only after 15 s. *)
Definition slow_start : World := with_connect_after calm (fun _ => Some 15000).

(** The backing process never connects to the signal port. *)
Definition never_ready : World := with_connect_after calm (fun _ => None).

(** The log directory of the test run is given with a doubled and a
    trailing slash. *)
Definition untidy_log_dir : World :=
  {| ports_available := ports_available calm; bind_ok := bind_ok calm;
     spawn_ok := spawn_ok calm; subprocess_alive := subprocess_alive calm;
     connect_after := connect_after calm; exit_after := exit_after calm;
     task_after := task_after calm; adb_reply := adb_reply calm;
     adb_elapsed := adb_elapsed calm; int_of_str := int_of_str calm;
     strftime := strftime calm; gd_root := gd_root calm;
     full_output_path := "/logs//run/";
     base_output_path := base_output_path calm; os_environ := os_environ calm |}.

(** The backing process ignores SIGINT and dies of SIGKILL. *)
Definition stubborn : World :=
  with_exit_after calm (fun h => if signalled SIGKILL h then Some (5, -9) else None).

(** The backing process survives both signals. *)
Definition unkillable : World := with_exit_after calm (fun _ => None).



Definition sample_device : Device :=
  {| verbose_mode := false;
     grpc_root_server_port := 8898;
     grpc_port := 8899;
     signal_port := 8895;
     name := "dut";
     type_identifier := "GdDevice";
     label := "dut";
     log_path_base := "/logs/run";
     test_runner_base_path := "/logs";
     backing_process_log_path := "/logs/run/GdDevice_dut_backing_logs.txt";
     cmd := ["/gd/bluetooth_stack_with_facade"; "--grpc-port=8899";
             "--root-server-port=8898"; "--signal-port=8895";
             "--btsnoop=/logs/run/dut_btsnoop_hci.log"];
     environment := [("PATH", "/usr/bin")];
     terminal_color := YELLOW;
     runtime := not_started |}.

(** [sample_device] as [setup] leaves it. *)
Definition sample_running : Device :=
  with_runtime sample_device
    {| rt_backing_process := Some {| returncode := None |};
       rt_logging_future := Some LoggingFuture;
       rt_grpc_root_server_channel := Some {| target_port := 8898; closed := false |};
       rt_grpc_channel := Some {| target_port := 8899; closed := false |} |}.

(** [sample_device] as a teardown leaves it when the process has died of
    SIGINT. *)
Definition sample_stopped : Device :=
  with_runtime sample_device
    {| rt_backing_process := Some {| returncode := Some (-2) |};
       rt_logging_future := Some LoggingFuture;
       rt_grpc_root_server_channel := Some {| target_port := 8898; closed := true |};
       rt_grpc_channel := Some {| target_port := 8899; closed := true |} |}.

Definition sample_android : AndroidDevice :=
  {| android_base := sample_device; serial_number := "HT7A1" |}.

Definition sample_host_only : HostOnlyDevice :=
  {| host_base := sample_device;
     backing_process_profraw_path :=
       pathlib_Path "/logs/run/GdDevice_dut_backing_coverage.profraw" |}.

(** The state [s] after the actions [new], which took [dt] milliseconds. *)
Definition after (s : Sys) (new : list Action) (dt : Z) : Sys :=
  {| trace := (trace s ++ new)%list; clock := clock s + dt |}.

(** The exit code check of [teardown]: is [return_code] one of the two
    accepted ones for [stop_signal]. *)
Definition accepted_exit (stop_signal : Signal) (return_code : Z) : bool :=
  in_list return_code [- signum stop_signal; 0].

(** The device [teardown] returns: both channels closed, the process
    object as the stop-signal block left it. *)
Definition torn_down (self : Device) (m r : Channel) (p : Popen) : Device :=
  set_backing_process
    (set_grpc_root_server_channel
       (set_grpc_channel self {| target_port := target_port m; closed := true |})
       {| target_port := target_port r; closed := true |}) p.

(** Pieces of the trace of a teardown. *)
Definition closes : list Action :=
  [ChannelClose grpc_channel_id; ChannelClose grpc_root_server_channel_id].

Definition graceful : list Action := [SendSignal SIGINT true].

Definition forceful (self : Device) : list Action :=
  [ProcWait (Some 10) None; Logging ERROR (SigintFailed (label self));
   SendSignal SIGKILL true].

Definition exit_warning (self : Device) (stop_signal : Signal) (return_code : Z)
    : list Action :=
  if accepted_exit stop_signal return_code then []
  else [Logging ERROR (StoppedWithCode (label self) return_code)].

(** The actions of [setup] up to the spawn of a process that is alive. *)
Definition start_actions (self : Device) : list Action :=
  [MakePortsAvailable [signal_port self] true; SocketBindListen (signal_port self) true;
   Spawn (cmd self) true; IsSubprocessAlive true].

(** The environment lets [setup] reach the wait for the handshake: the
    signal port is free and bound, the process is spawned and alive. *)
Definition starts (w : World) (self : Device) (s : Sys) : bool :=
  ports_available w (trace s) [signal_port self] &&
  port_in_range (signal_port self) &&
  bind_ok w (trace s ++ firstn 1 (start_actions self)) &&
  spawn_ok w (trace s ++ firstn 2 (start_actions self)) &&
  subprocess_alive w (trace s ++ firstn 3 (start_actions self)).

(** The actions of [setup] after the handshake. *)
Definition ready_actions (self : Device) : list Action :=
  [SocketAccept None true; SocketClose; ExecutorSubmit;
   InsecureChannel grpc_root_server_channel_id (grpc_root_server_port self);
   InsecureChannel grpc_channel_id (grpc_port self)].

(** ** Reading traces *)

(** Every action [m] adds to the trace satisfies [P]. *)
Definition emits {A} (P : Action -> bool) (m : M A) : Prop :=
  forall s, exists new,
    trace (final (m s)) = (trace s ++ new)%list /\ forallb P new = true.

(** [m] comes back, and with no other exception than those of [E]. *)
Definition ends_in {A} (E : Exn -> bool) (r : Outcome A * Sys) : Prop :=
  match outcome r with
  | Returned _ => True
  | Raised e => E e = true
  | Blocked => False
  end.

(** What is done on the device or logged: adb calls, sleeps, log lines. *)
Definition is_device_side (a : Action) : bool :=
  match a with
  | Adb _ _ _ | Sleep _ | Logging _ _ => true
  | _ => false
  end.

(** The polling of a rebooting device. *)
Definition is_poll (a : Action) : bool :=
  match a with
  | Sleep _ => true
  | Adb _ adb_get_state _ | Adb _ (adb_getprop _) _ | Adb _ (adb_wait_for_device _) _ => true
  | _ => false
  end.

(** The exceptions a reboot can end with. *)
Definition reboot_error (e : Exn) : bool :=
  match e with
  | AdbError | TestFailure BootTimedOut => true
  | _ => false
  end.

(** A port mapping answered with a non-numeric error value: what
    [tcp_forward_or_die] takes as a failure of [adb.tcp_forward] ... *)
Definition forward_error (v : PyVal) : bool :=
  truthy v && negb (isinstance_int v).

(** ... and what [tcp_reverse_or_die] takes as a failure of [adb.reverse]:
    a non-empty text that [int()] rejects. *)
Definition reverse_error (w : World) (v : PyVal) : bool :=
  match v with
  | PyStr s =>
      negb (s =? EmptyString)%string &&
      match int_of_str w s with None => true | Some _ => false end
  | _ => false
  end.

(** The value of the builtin [int(v)], when it has one. *)
Definition int_value (w : World) (v : PyVal) : option Z :=
  match v with
  | PyInt z => Some z
  | PyBool b => Some (if b then 1 else 0)
  | PyStr s => int_of_str w s
  | PyNone => None
  end.

(** The argument of [adb.reverse] for a mapping. *)
Definition reverse_args (device_port host_port : Z) : string :=
  ("tcp:" ++ fmt_d device_port ++ " tcp:" ++ fmt_d host_port)%string.

Definition is_unable_forward (host_port device_port : Z) (e : Exn) : bool :=
  match e with
  | TestFailure (UnableForward h d) => (h =? host_port) && (d =? device_port)
  | _ => false
  end.

Definition is_unable_reverse (device_port host_port : Z) (e : Exn) : bool :=
  match e with
  | TestFailure (UnableReverse d h) => (d =? device_port) && (h =? host_port)
  | _ => false
  end.

(** The actions before the first one that satisfies [f]. *)
Fixpoint before (f : Action -> bool) (h : list Action) : list Action :=
  match h with
  | [] => []
  | a :: rest => if f a then [] else a :: before f rest
  end.

(** Every availability check of [h] found its ports available. *)
Definition checks_passed (h : list Action) : bool :=
  forallb (fun a => match a with MakePortsAvailable _ ok => ok | _ => true end) h.

(** The exceptions the base class's [setup] can end with. *)
Definition base_setup_error (e : Exn) : bool :=
  match e with
  | TestFailure SignalPortUnavailable | TestFailure StoppedImmediately | OSError
  | OverflowError => true
  | _ => false
  end.




(** The end of a line of output. *)
Definition newline : string := String (ascii_of_nat 10) EmptyString.

(** ** Further observations on configurations and constructed devices *)

(** [d.get(key)] on a dict kept as an association list. *)
Fixpoint dict_get (d : list (string * string)) (key : string) : option string :=
  match d with
  | [] => None
  | (k, v) :: rest => if (k =? key)%string then Some v else dict_get rest key
  end.

(** The variables [replace_vars] substitutes with the values it reads for
    them, in the order of its [replace] calls; [None] is a value that is
    not a string. *)
Definition variables (w : World) (config : Config) : list (string * option string) :=
  [("$GD_ROOT", Some (gd_root w));
   ("$(grpc_port)", cfg_grpc_port config);
   ("$(grpc_root_server_port)", cfg_grpc_root_server_port config);
   ("$(rootcanal_port)",
    Some match cfg_rootcanal_port config with Some x => x | None => EmptyString end);
   ("$(signal_port)", cfg_signal_port config);
   ("$(serial_number)",
    Some match cfg_serial_number config with Some x => x | None => EmptyString end)].

(** The serial number [replace_vars] refuses: a placeholder left in the
    configuration. *)
Definition placeholder_serial (config : Config) : bool :=
  match cfg_serial_number config with
  | Some x => (x =? "DUT")%string || (x =? "CERT")%string
  | None => false
  end.

(** A host-only entry of a configuration and an entry for a device. *)
Definition sample_config : Config :=
  {| cfg_cmd := Some ["$GD_ROOT/bluetooth_stack_with_facade"; "--grpc-port=$(grpc_port)";
                      "--root-server-port=$(grpc_root_server_port)";
                      "--signal-port=$(signal_port)"];
     cfg_grpc_port := Some "8899";
     cfg_grpc_root_server_port := Some "8898";
     cfg_signal_port := Some "8895";
     cfg_label := Some "dut";
     cfg_name := Some "Cert Device";
     cfg_serial_number := None;
     cfg_rootcanal_port := Some "6402";
     cfg_verbose_mode := None |}.

Definition with_serial_number (config : Config) (serial : option string) : Config :=
  {| cfg_cmd := cfg_cmd config;
     cfg_grpc_port := cfg_grpc_port config;
     cfg_grpc_root_server_port := cfg_grpc_root_server_port config;
     cfg_signal_port := cfg_signal_port config;
     cfg_label := cfg_label config;
     cfg_name := cfg_name config;
     cfg_serial_number := serial;
     cfg_rootcanal_port := cfg_rootcanal_port config;
     cfg_verbose_mode := cfg_verbose_mode config |}.

Definition without_grpc_port (config : Config) : Config :=
  {| cfg_cmd := cfg_cmd config;
     cfg_grpc_port := None;
     cfg_grpc_root_server_port := cfg_grpc_root_server_port config;
     cfg_signal_port := cfg_signal_port config;
     cfg_label := cfg_label config;
     cfg_name := cfg_name config;
     cfg_serial_number := cfg_serial_number config;
     cfg_rootcanal_port := cfg_rootcanal_port config;
     cfg_verbose_mode := cfg_verbose_mode config |}.

(** The device as [setup] returns it: the process object fresh from
    [Popen], the logging future, and the two channels, open, to the ports
    of the device. *)
Definition started (self : Device) : Device :=
  with_runtime self
    {| rt_backing_process := Some {| returncode := None |};
       rt_logging_future := Some LoggingFuture;
       rt_grpc_root_server_channel :=
         Some {| target_port := grpc_root_server_port self; closed := false |};
       rt_grpc_channel := Some {| target_port := grpc_port self; closed := false |} |}.



(** The entry asks for a device behind adb: its serial number is there and
    not empty ([config.get("serial_number")] is truthy). *)
Definition wants_android (config : Config) : bool :=
  match cfg_serial_number config with
  | Some sn => nonempty sn
  | None => false
  end.

(** The attributes of the base class in a device of either class. *)
Definition base_of (d : GdDevice) : Device :=
  match d with
  | HostOnly h => host_base h
  | Android a => android_base a
  end.

(** The configuration entry holds the text of a port. *)
Definition port_from (w : World) (entry : option string) (port : Z) : Prop :=
  exists text, entry = Some text /\ int_of_str w text = Some port.

(** The device is what [get_instances_with_configs] builds from the entry,
    set up and running. *)
Definition built_from (w : World) (config : Config) (d : GdDevice) : Prop :=
  running (base_of d) = true /\
  cfg_label config = Some (label (base_of d)) /\
  cfg_name config = Some (name (base_of d)) /\
  type_identifier (base_of d) = ACTS_CONTROLLER_CONFIG_NAME /\
  port_from w (cfg_grpc_port config) (grpc_port (base_of d)) /\
  port_from w (cfg_grpc_root_server_port config) (grpc_root_server_port (base_of d)) /\
  port_from w (cfg_signal_port config) (signal_port (base_of d)) /\
  match d with
  | Android a =>
      wants_android config = true /\ cfg_serial_number config = Some (serial_number a)
  | HostOnly _ => wants_android config = false
  end.

(** What a teardown does to the process, the channels and the logging
    task. *)
Definition is_teardown_action (a : Action) : bool :=
  match a with
  | ChannelClose _ | SendSignal _ _ | ProcWait _ _ | FutureResult _ _
  | ExecutorShutdown _ => true
  | _ => false
  end.

(** What the construction and the set-up of devices do. *)
Definition is_start_up (a : Action) : bool :=
  is_base_setup a || is_device_side a ||
  match a with PrintConfigs _ => true | _ => false end.

(** The read of the property that tells that the device has booted. *)
Definition reads_boot_completed (a : Action) : bool :=
  match a with
  | Adb _ (adb_getprop prop) _ => (prop =? "sys.boot_completed")%string
  | _ => false
  end.

(** The device answers every probe of its state: it is never seen gone. *)
Definition always_present : World :=
  with_adb_reply calm (fun h serial call =>
    match call with
    | adb_get_state => AdbOut (PyStr "device")
    | _ => calm_adb h serial call
    end).

(** The calls [GdAndroidDevice.teardown] makes on adb once the teardown of
    the base class has returned, in their order. *)
Definition cleanup_calls (b : Device) : list AdbCall :=
  [adb_remove_tcp_forward (grpc_port b);
   adb_remove_tcp_forward (grpc_root_server_port b);
   adb_reverse ("--remove tcp:" ++ fmt_d (signal_port b))%string;
   adb_shell "logcat -d -f /data/misc/bluetooth/logs/system_log";
   adb_pull ("/data/misc/bluetooth/logs/btsnoop_hci.log " ++
             path_join (log_path_base b) [(label b ++ "_btsnoop_hci.log")%string])%string;
   adb_pull ("/data/misc/bluetooth/logs/system_log " ++
             path_join (log_path_base b) [(label b ++ "_system_log")%string])%string].

(** The adb calls of a trace, in order, with what they answered. *)
Fixpoint adb_calls (serial : string) (h : list Action) : list (AdbCall * AdbReply) :=
  match h with
  | [] => []
  | Adb sn call reply :: rest =>
      if (sn =? serial)%string then (call, reply) :: adb_calls serial rest
      else adb_calls serial rest
  | _ :: rest => adb_calls serial rest
  end.

Definition is_adb (a : Action) : bool :=
  match a with Adb _ _ _ => true | _ => false end.

Definition adb_raised (r : AdbCall * AdbReply) : bool :=
  match snd r with AdbRaise => true | AdbOut _ => false end.

(** What [ensure_verity_disabled] does when it finds verity on: it has
    it disabled and reboots the device. *)
Definition is_verity_change (a : Action) : bool :=
  match a with
  | Adb _ adb_disable_verity _ | Adb _ adb_reboot _ => true
  | _ => false
  end.

(** A read of one of the two properties that verity sets, with a truthy
    answer. *)
Definition found_verified (a : Action) : bool :=
  match a with
  | Adb _ (adb_getprop prop) (AdbOut v) =>
      ((prop =? "partition.system.verified")%string ||
       (prop =? "partition.vendor.verified")%string) && truthy v
  | _ => false
  end.

(** The exceptions [ensure_verity_disabled] can end with. *)
Definition verity_error (e : Exn) : bool :=
  match e with
  | TestFailure CannotRunAsRoot => true
  | _ => reboot_error e
  end.

(** The device reports that verity is on for its system partition. *)
Definition verified : World :=
  with_adb_reply calm (fun h serial call =>
    match call with
    | adb_getprop prop =>
        if (prop =? "partition.system.verified")%string then AdbOut (PyStr "1")
        else calm_adb h serial call
    | _ => calm_adb h serial call
    end).

(** ** The host side of a test run

    The coverage report of the host-only teardown, [wait_channel_ready]
    and [destroy] touch files, run tools and log in ways the lifecycle
    trace above has no actions for.  They
    are programs of a second monad of the same shape over a trace of
    [HostAction]s, which holds the actions of the lifecycle as one of its
    kinds; a program of the lifecycle runs in it through [lift]. *)

(** The lines [generate_coverage_report] logs. *)
Inductive CoverageNote :=
| SkipNoProfraw            (* "Skip coverage report as there is no profraw file at %s" *)
| SkipProfrawEmpty         (* "Skip coverage report as profraw file is empty at %s" *)
| SkipProfrawInaccessible  (* "Skip coverage report as profraw file is inaccessible at %s" *)
| SkipNoProfdataTool       (* "Skip coverage report as llvm-profdata is not found at %s" *)
| SkipNoCovTool            (* "Skip coverage report as llvm-cov is not found at %s" *)
| GeneratingReport         (* "Generating coverage report" *)
| FailedIndex              (* "Failed to index profdata, cmd result: %r" *)
| FailedReport             (* "Failed to generated coverage report, cmd result: %r" *)
| FailedSummary.           (* "Failed to generated coverage summary, cmd result: %r" *)

(** How a tool started with [subprocess.run] ends; the call has no
    timeout. *)
Inductive RunEnd :=
| Exited (returncode : Z)
| NotStarted               (* run raises OSError *)
| NeverExits.

Inductive HostAction :=
| OfLifecycle (a : Action)
| IsFile (path : string) (result : bool)               (* Path.is_file() *)
| StatSize (path : string) (st_size : option Z)        (* Path.stat().st_size; None: OSError *)
| Run (args : list string) (stdout : option string) (ended : RunEnd)
| Unlink (path : string) (ok : bool)                   (* Path.unlink(missing_ok=True) *)
| Move (src dst : string) (ok : bool)                  (* shutil.move *)
| OpenWrite (path : string) (ok : bool)                (* Path.open("w") *)
| CloseFile (path : string)
| LogCoverage (lvl : Level) (label : string) (note : CoverageNote)
| LogException (label : string)                        (* "[%s] Failed to clean up properly due to" *)
| ChannelReady (timeout : Z) (ready : bool).           (* channel_ready_future(...).result(timeout) *)

(** What the host answers; each answer sees the history so far. *)
Record HostWorld := {
  is_file : list HostAction -> string -> bool;
  st_size : list HostAction -> string -> option Z;
  run_end : list HostAction -> list string -> RunEnd;
  unlink_ok : list HostAction -> string -> bool;
  move_ok : list HostAction -> string -> string -> bool;
  open_ok : list HostAction -> string -> bool;
  (* when the gRPC channel becomes ready, in milliseconds *)
  channel_ready_after : list HostAction -> option Z
}.

Inductive HostFailure :=
| ChannelReadyTimeout (label : string).  (* "[%s] wait channel ready timeout" *)

Inductive HostExn :=
| Lifecycle (e : Exn)                    (* an exception of the lifecycle, or OSError *)
| IndexError
| HostTestFailure (why : HostFailure).   (* raised by asserts.fail *)

Record HostSys := { events : list HostAction; host_clock : Z }.

Definition host0 : HostSys := {| events := []; host_clock := 0 |}.

Inductive HostOutcome (A : Type) :=
| Done (a : A)
| Failed (e : HostExn)
| Hung.

Arguments Done {A} a.
Arguments Failed {A} e.
Arguments Hung {A}.

Definition HM (A : Type) : Type := HostSys -> HostOutcome A * HostSys.

Module Host.
Definition ret {A} (a : A) : HM A := fun s => (Done a, s).

Definition bind {A B} (m : HM A) (k : A -> HM B) : HM B :=
  fun s =>
    match m s with
    | (Done a, s') => k a s'
    | (Failed e, s') => (Failed e, s')
    | (Hung, s') => (Hung, s')
    end.

Definition raise {A} (e : HostExn) : HM A := fun s => (Failed e, s).

Definition hang {A} : HM A := fun s => (Hung, s).

(** [try: m except <handles>: h] *)
Definition try_except {A} (m : HM A) (handles : HostExn -> bool) (h : HostExn -> HM A)
    : HM A :=
  fun s =>
    match m s with
    | (Failed e, s') => if handles e then h e s' else (Failed e, s')
    | r => r
    end.

(** [with ... :]: the exit action runs on return and on raise. *)
Definition finally {A} (m : HM A) (exit : HM unit) : HM A :=
  fun s =>
    match m s with
    | (Done a, s') => bind exit (fun _ => ret a) s'
    | (Failed e, s') => bind exit (fun _ => raise e) s'
    | (Hung, s') => (Hung, s')
    end.

Definition emit (a : HostAction) (dt : Z) : HM unit :=
  fun s => (Done tt, {| events := events s ++ [a]; host_clock := host_clock s + dt |}).

Definition do (a : HostAction) : HM unit := emit a 0.

Definition history : HM (list HostAction) := fun s => (Done (events s), s).
End Host.

Declare Scope host_scope.
Delimit Scope host_scope with host.
Notation "x <- m ;; k" := (Host.bind m (fun x => k))
  (at level 100, m at next level, right associativity) : host_scope.
Notation "m ;; k" := (Host.bind m (fun _ => k))
  (at level 100, right associativity) : host_scope.

(** The actions of the lifecycle in a history of the host. *)
Fixpoint lifecycle_of (h : list HostAction) : list Action :=
  match h with
  | [] => []
  | OfLifecycle a :: rest => a :: lifecycle_of rest
  | _ :: rest => lifecycle_of rest
  end.

(** A program of the lifecycle, run on the host: it sees the actions of
    the lifecycle so far, and what it adds to them is added to the
    history of the host. *)
Definition lift {A} (m : M A) : HM A :=
  fun hs =>
    let s := {| trace := lifecycle_of (events hs); clock := host_clock hs |} in
    let r := m s in
    (match fst r with
     | Returned a => Done a
     | Raised e => Failed (Lifecycle e)
     | Blocked => Hung
     end,
     {| events :=
          (events hs ++ map OfLifecycle (skipn (List.length (trace s)) (trace (snd r))))%list;
        host_clock := clock (snd r) |}).

Definition is_host_OSError (e : HostExn) : bool :=
  match e with Lifecycle OSError => true | _ => false end.

Section HostCalls.
Variable hw : HostWorld.
Local Open Scope host_scope.

(** [path.is_file()] *)
Definition Path_is_file (path : Path) : HM bool :=
  h <- Host.history ;;
  let result := is_file hw h (Path_str path) in
  Host.do (IsFile (Path_str path) result) ;;
  Host.ret result.

(** [path.stat().st_size]; raises OSError. *)
Definition Path_stat_st_size (path : Path) : HM Z :=
  h <- Host.history ;;
  let size := st_size hw h (Path_str path) in
  Host.do (StatSize (Path_str path) size) ;;
  match size with
  | Some n => Host.ret n
  | None => Host.raise (Lifecycle OSError)
  end.

(** [subprocess.run(args, stdout=...)], no timeout: the return code of
    the tool. *)
Definition subprocess_run (args : list string) (stdout : option string) : HM Z :=
  h <- Host.history ;;
  let ended := run_end hw h args in
  Host.do (Run args stdout ended) ;;
  match ended with
  | Exited returncode => Host.ret returncode
  | NotStarted => Host.raise (Lifecycle OSError)
  | NeverExits => Host.hang
  end.

(** [path.unlink(missing_ok=True)] *)
Definition Path_unlink (path : Path) : HM unit :=
  h <- Host.history ;;
  let ok := unlink_ok hw h (Path_str path) in
  Host.do (Unlink (Path_str path) ok) ;;
  if ok then Host.ret tt else Host.raise (Lifecycle OSError).

(** [shutil.move(src, dst)] on two path objects *)
Definition shutil_move (src dst : Path) : HM unit :=
  h <- Host.history ;;
  let ok := move_ok hw h (Path_str src) (Path_str dst) in
  Host.do (Move (Path_str src) (Path_str dst) ok) ;;
  if ok then Host.ret tt else Host.raise (Lifecycle OSError).

(** [with path.open("w") as f: body]: the file is closed when the block
    is left, by return or by exception. *)
Definition with_open_w {A} (path : Path) (body : HM A) : HM A :=
  h <- Host.history ;;
  let ok := open_ok hw h (Path_str path) in
  Host.do (OpenWrite (Path_str path) ok) ;;
  if ok then Host.finally body (Host.do (CloseFile (Path_str path)))
  else Host.raise (Lifecycle OSError).

(** [xs[0]] *)
Definition getitem0 (xs : list string) : HM string :=
  match xs with
  | x :: _ => Host.ret x
  | [] => Host.raise IndexError
  end.

(** [self.attr] on the host. *)
Definition host_getattr {A} (attr : option A) (name : string) : HM A :=
  match attr with
  | Some a => Host.ret a
  | None => Host.raise (Lifecycle (AttributeError name))
  end.
End HostCalls.

(** The files of the coverage report of a host-only device. *)
Section CoveragePaths.
Variable w : World.
Variable self : HostOnlyDevice.

Definition llvm_binutils : Path :=
  joinpath (joinpath (pathlib_Path (gd_root w)) "llvm_binutils") "bin".
Definition llvm_profdata : Path := joinpath llvm_binutils "llvm-profdata".
Definition llvm_cov : Path := joinpath llvm_binutils "llvm-cov".

(** [pathlib.Path(self.test_runner_base_path).joinpath("%s_%s<suffix>" %
    (self.type_identifier, self.label))] *)
Definition coverage_file (suffix : string) : Path :=
  joinpath (pathlib_Path (test_runner_base_path (host_base self)))
    (type_identifier (host_base self) ++ "_" ++ label (host_base self) ++ suffix)%string.

Definition profdata_path : Path := coverage_file "_backing_process_coverage.profdata".
Definition profdata_path_tmp : Path :=
  coverage_file "_backing_process_coverage_tmp.profdata".
Definition coverage_result_path : Path := coverage_file "_backing_process_coverage.json".
Definition coverage_summary_path : Path :=
  coverage_file "_backing_process_coverage_summary.txt".
End CoveragePaths.

Section HostMethods.
Variable w : World.
Variable hw : HostWorld.
Local Open Scope host_scope.

(** [GdDeviceBase.wait_channel_ready] *)
Definition GdDeviceBase_wait_channel_ready (self : Device) : HM unit :=
  host_getattr (grpc_channel self) "grpc_channel" ;;
  h <- Host.history ;;
  match wait_for (option_map (fun d => (d, tt)) (channel_ready_after hw h))
          (Some GdDeviceBase.WAIT_CHANNEL_READY_TIMEOUT_SECONDS) with
  | Came d _ =>
      Host.emit (ChannelReady GdDeviceBase.WAIT_CHANNEL_READY_TIMEOUT_SECONDS true) d
  | _ =>
      Host.emit (ChannelReady GdDeviceBase.WAIT_CHANNEL_READY_TIMEOUT_SECONDS false)
        (1000 * GdDeviceBase.WAIT_CHANNEL_READY_TIMEOUT_SECONDS) ;;
      Host.raise (HostTestFailure (ChannelReadyTimeout (label self)))
  end.

(** [GdHostOnlyDevice.generate_coverage_report] *)
Definition GdHostOnlyDevice_generate_coverage_report (self : HostOnlyDevice) : HM unit :=
  let b := host_base self in
  let profraw := backing_process_profraw_path self in
  let info := LogCoverage INFO (label b) in
  let warning := LogCoverage WARNING (label b) in
  present <- Path_is_file hw profraw ;;
  if negb present then Host.do (info SkipNoProfraw)
  else
    usable <- Host.try_except
      (size <- Path_stat_st_size hw profraw ;;
       if size <=? 0 then Host.do (info SkipProfrawEmpty) ;; Host.ret false
       else Host.ret true)
      is_host_OSError
      (fun _ => Host.do (info SkipProfrawInaccessible) ;; Host.ret false) ;;
    if negb usable then Host.ret tt
    else
      found <- Path_is_file hw (llvm_profdata w) ;;
      if negb found then Host.do (info SkipNoProfdataTool)
      else
        found <- Path_is_file hw (llvm_cov w) ;;
        if negb found then Host.do (info SkipNoCovTool)
        else
          Host.do (info GeneratingReport) ;;
          (* Merge with existing profdata if possible *)
          merged_before <- Path_is_file hw (profdata_path self) ;;
          let profdata_cmd :=
            ([Path_str (llvm_profdata w); "merge"; "-sparse"; Path_str profraw] ++
             (if merged_before then [Path_str (profdata_path self)] else []) ++
             ["-o"; Path_str (profdata_path_tmp self)])%list in
          returncode <- subprocess_run hw profdata_cmd None ;;
          if negb (returncode =? 0) then
            Host.do (warning FailedIndex) ;;
            Path_unlink hw (profdata_path self)
          else
            shutil_move hw (profdata_path_tmp self) (profdata_path self) ;;
            returncode <- with_open_w hw (coverage_result_path self)
              (binary <- getitem0 (cmd b) ;;
               (* the path objects among the arguments go to the tool as their text *)
               subprocess_run hw
                 [Path_str (llvm_cov w); "export"; "--format=text"; "--instr-profile";
                  Path_str (profdata_path self); binary]
                 (Some (Path_str (coverage_result_path self)))) ;;
            if negb (returncode =? 0) then
              Host.do (warning FailedReport) ;;
              Path_unlink hw (coverage_result_path self)
            else
              returncode <- with_open_w hw (coverage_summary_path self)
                (binary <- getitem0 (cmd b) ;;
                 subprocess_run hw
                   [Path_str (llvm_cov w); "report"; "--instr-profile";
                    Path_str (profdata_path self); binary]
                   (Some (Path_str (coverage_summary_path self)))) ;;
              if negb (returncode =? 0) then
                Host.do (warning FailedSummary) ;;
                Path_unlink hw (coverage_summary_path self)
              else Host.ret tt.

(** [GdHostOnlyDevice.teardown] *)
Definition GdHostOnlyDevice_teardown (self : HostOnlyDevice) : HM HostOnlyDevice :=
  b <- lift (GdDeviceBase.teardown w (host_base self)) ;;
  let self := {| host_base := b;
                 backing_process_profraw_path := backing_process_profraw_path self |} in
  GdHostOnlyDevice_generate_coverage_report self ;;
  Host.ret self.

(** [device.teardown()], by the class of the device. *)
Definition GdDevice_teardown (device : GdDevice) : HM GdDevice :=
  match device with
  | HostOnly d => d <- GdHostOnlyDevice_teardown d ;; Host.ret (HostOnly d)
  | Android d => d <- lift (GdAndroidDevice.teardown w d) ;; Host.ret (Android d)
  end.

(** [destroy(devices)]: the bare [except:] takes every exception. *)
Fixpoint destroy (devices : list GdDevice) : HM unit :=
  match devices with
  | [] => Host.ret tt
  | device :: rest =>
      Host.try_except
        (GdDevice_teardown device ;; Host.ret tt)
        (fun _ => true)
        (fun _ => Host.do (LogException (label (base_of device)))) ;;
      destroy rest
  end.
End HostMethods.

(** ** Observations on runs of the host *)

Definition host_outcome {A} (r : HostOutcome A * HostSys) : HostOutcome A := fst r.
Definition host_final {A} (r : HostOutcome A * HostSys) : HostSys := snd r.

(** The host state [hs] after the actions [new], which took [dt] ms. *)
Definition host_after (hs : HostSys) (new : list HostAction) (dt : Z) : HostSys :=
  {| events := (events hs ++ new)%list; host_clock := host_clock hs + dt |}.


Definition is_run (a : HostAction) : bool :=
  match a with Run _ _ _ => true | _ => false end.



(** The command that merges the raw profile into the indexed one. *)
Definition merge_command (w : World) (self : HostOnlyDevice) (merged_before : bool)
    : list string :=
  ([Path_str (llvm_profdata w); "merge"; "-sparse";
    Path_str (backing_process_profraw_path self)] ++
   (if merged_before then [Path_str (profdata_path self)] else []) ++
   ["-o"; Path_str (profdata_path_tmp self)])%list.

(** The exceptions the coverage report can end with. *)
Definition coverage_error (e : HostExn) : bool :=
  match e with
  | Lifecycle OSError | IndexError => true
  | _ => false
  end.

(** A host on which everything is in place and every tool succeeds. *)
Definition tidy : HostWorld :=
  {| is_file := fun _ _ => true;
     st_size := fun _ _ => Some 4096;
     run_end := fun _ _ => Exited 0;
     unlink_ok := fun _ _ => true;
     move_ok := fun _ _ _ => true;
     open_ok := fun _ _ => true;
     channel_ready_after := fun _ => Some 200 |}.

(** A host without coverage tools, and one whose gRPC channel never
    becomes ready. *)
Definition no_tools : HostWorld :=
  {| is_file := fun _ path => negb (contains "llvm" path);
     st_size := fun _ _ => Some 4096;
     run_end := fun _ _ => NotStarted;
     unlink_ok := fun _ _ => true;
     move_ok := fun _ _ _ => true;
     open_ok := fun _ _ => true;
     channel_ready_after := fun _ => None |}.

(** A host whose merge tool fails. *)
Definition failing_merge : HostWorld :=
  {| is_file := fun _ _ => true;
     st_size := fun _ _ => Some 4096;
     run_end := fun _ _ => Exited 1;
     unlink_ok := fun _ _ => true;
     move_ok := fun _ _ _ => true;
     open_ok := fun _ _ => true;
     channel_ready_after := fun _ => Some 200 |}.

(** [sample_host_only] as [setup] leaves it. *)
Definition sample_host_only_running : HostOnlyDevice :=
  {| host_base := sample_running;
     backing_process_profraw_path :=
       pathlib_Path "/logs/run/GdDevice_dut_backing_coverage.profraw" |}.

(** The lifecycle state a program run through [lift] starts from. *)
Definition lifecycle_state (hs : HostSys) : Sys :=
  {| trace := lifecycle_of (events hs); clock := host_clock hs |}.

Definition lifted {A} (o : Outcome A) : HostOutcome A :=
  match o with
  | Returned a => Done a
  | Raised e => Failed (Lifecycle e)
  | Blocked => Hung
  end.

(** The close of the main gRPC channel of a device, seen on the host. *)
Definition is_main_close (a : HostAction) : bool :=
  match a with
  | OfLifecycle (ChannelClose grpc_channel_id) => true
  | _ => false
  end.

Definition is_log_exception (a : HostAction) : bool :=
  match a with LogException _ => true | _ => false end.

Definition has_main_channel (d : GdDevice) : bool :=
  match grpc_channel (base_of d) with Some _ => true | None => false end.

Definition count_events (f : HostAction -> bool) (h : list HostAction) : nat :=
  List.length (filter f h).

(** The exceptions the teardown of a host-only device can end with. *)
Definition host_teardown_error (e : HostExn) : bool :=
  match e with
  | Lifecycle TaskError | Lifecycle (AttributeError _) => true
  | _ => coverage_error e
  end.

(** ** The order of the set-up of an Android device *)

(** The actions of a trace satisfy the given predicates one after the
    other, with any actions before, between and after them. *)
Inductive in_order : list (Action -> Prop) -> list Action -> Prop :=
| in_order_nil h : in_order [] h
| in_order_skip ms a h : in_order ms h -> in_order ms (a :: h)
| in_order_take (m : Action -> Prop) ms a h :
    m a -> in_order ms h -> in_order (m :: ms) (a :: h).

(** The call on adb came back, with a value that satisfies [ok]. *)
Definition answered (serial : string) (call : AdbCall) (ok : PyVal -> Prop)
    : Action -> Prop :=
  fun a => exists v, a = Adb serial call (AdbOut v) /\ ok v.

Definition any_value (v : PyVal) : Prop := True.

(** What [ensure_no_output] lets through. *)
Definition no_output (v : PyVal) : Prop := v = PyNone \/ v = PyStr EmptyString.

(** What [push_or_die] lets through. *)
Definition pushed (v : PyVal) : Prop :=
  exists out, v = PyStr out /\ contains "error" out = false.

(** What [GdAndroidDevice.setup] has done on the device when it goes on
    to the set-up of the base class, in its order. *)
Definition preparation (w : World) (self : AndroidDevice) : list (Action -> Prop) :=
  let b := android_base self in
  let sn := serial_number self in
  let target := fun file => path_join (gd_root w) ["target"; file] in
  [answered sn adb_remount any_value;
   answered sn (adb_wait_for_device 180) any_value;
   answered sn adb_ensure_root (fun v => truthy v = true);
   (fun a => exists date v, a = Adb sn (adb_shell ("date " ++ date)) (AdbOut v));
   answered sn (adb_remove_tcp_forward (grpc_port b)) any_value;
   answered sn (adb_remove_tcp_forward (grpc_root_server_port b)) any_value;
   answered sn (adb_reverse ("--remove tcp:" ++ fmt_d (signal_port b))) any_value;
   answered sn (adb_tcp_forward (grpc_port b) (grpc_port b))
     (fun v => forward_error v = false);
   answered sn (adb_tcp_forward (grpc_root_server_port b) (grpc_root_server_port b))
     (fun v => forward_error v = false);
   answered sn (adb_reverse (reverse_args (signal_port b) (signal_port b)))
     (fun v => reverse_error w v = false);
   answered sn (adb_push (target "bluetooth_stack_with_facade" ++ " " ++ "system/bin") 300)
     pushed;
   answered sn (adb_push (target "libbluetooth_gd.so" ++ " " ++ "system/lib64") 300) pushed;
   answered sn (adb_push (target "libgrpc++_unsecure.so" ++ " " ++ "system/lib64") 300)
     pushed;
   answered sn (adb_shell "logcat -c") no_output;
   answered sn (adb_shell "rm /data/misc/bluetooth/logs/btsnoop_hci.log") any_value;
   answered sn (adb_shell "svc bluetooth disable") no_output].

(** * Properties *)

(** ** Running programs of the monad *)

Lemma after_nil s : after s [] 0 = s.
Proof. destruct s; unfold after; simpl. now rewrite app_nil_r, Z.add_0_r. Qed.

Lemma after_after s a b x y : after (after s a x) b y = after s (a ++ b) (x + y).
Proof. unfold after; simpl. now rewrite app_assoc, Z.add_assoc. Qed.

Lemma run_do a s : do a s = (Returned tt, after s [a] 0).
Proof. reflexivity. Qed.

Lemma run_logging lvl m s : logging lvl m s = (Returned tt, after s [Logging lvl m] 0).
Proof. reflexivity. Qed.

Lemma run_bind_returned {A B} (m : M A) (k : A -> M B) s a s' :
  m s = (Returned a, s') -> bind m k s = k a s'.
Proof. unfold bind; now intros ->. Qed.

Lemma run_bind_raised {A B} (m : M A) (k : A -> M B) s e s' :
  m s = (Raised e, s') -> bind m k s = (Raised e, s').
Proof. unfold bind; now intros ->. Qed.

Lemma run_try_returned {A} (m : M A) hs h s a s' :
  m s = (Returned a, s') -> try_except m hs h s = (Returned a, s').
Proof. unfold try_except; now intros ->. Qed.

Lemma run_try_handled {A} (m : M A) hs h s e s' :
  m s = (Raised e, s') -> hs e = true -> try_except m hs h s = h e s'.
Proof. unfold try_except; intros -> E; now rewrite E. Qed.

Lemma run_try_passed {A} (m : M A) hs h s e s' :
  m s = (Raised e, s') -> hs e = false -> try_except m hs h s = (Raised e, s').
Proof. unfold try_except; intros -> E; now rewrite E. Qed.

(** A wait with a timeout ends: the event came in time, or the wait gave
    up when the timeout was over. *)
Lemma wait_for_bounded {A} (e : option (Z * A)) t :
  (exists d a, e = Some (d, a) /\ d <= 1000 * t /\ wait_for e (Some t) = Came d a) \/
  wait_for e (Some t) = GaveUp (1000 * t).
Proof.
  destruct e as [[d a]|]; unfold wait_for; [|now right].
  destruct (Z.leb_spec d (1000 * t)); [left|now right].
  exists d, a. auto.
Qed.

(** ** The calls of teardown *)

Section TeardownRuns.
Variable w : World.

Lemma run_Popen_wait_cached p t s rc :
  returncode p = Some rc ->
  Popen_wait w p t s = (Returned (rc, p), after s [ProcWait t (Some rc)] 0).
Proof. unfold Popen_wait; intros ->. reflexivity. Qed.

Lemma run_Popen_wait p t s :
  returncode p = None ->
  Popen_wait w p (Some t) s =
    match wait_for (exit_after w (trace s)) (Some t) with
    | Came d rc =>
        (Returned (rc, {| returncode := Some rc |}), after s [ProcWait (Some t) (Some rc)] d)
    | _ => (Raised TimeoutExpired, after s [ProcWait (Some t) None] (1000 * t))
    end.
Proof.
  unfold Popen_wait; intros ->. unfold bind, history.
  destruct (wait_for_bounded (exit_after w (trace s)) t) as [(d & a & _ & _ & E)|E];
    rewrite E; reflexivity.
Qed.

Lemma run_Future_result f t s :
  Future_result w f (Some t) s =
    match wait_for (task_after w (trace s)) (Some t) with
    | Came d (TaskReturned v) => (Returned v, after s [FutureResult (Some t) true] d)
    | Came d TaskRaised => (Raised TaskError, after s [FutureResult (Some t) true] d)
    | _ => (Raised FutureTimeoutError, after s [FutureResult (Some t) false] (1000 * t))
    end.
Proof.
  unfold Future_result, bind, history.
  destruct (wait_for_bounded (task_after w (trace s)) t) as [(d & a & _ & _ & E)|E];
    rewrite E; [destruct a|]; reflexivity.
Qed.
End TeardownRuns.

Section TeardownBlocks.
Variable w : World.
Import GdDeviceBase.

(** The stop-signal block on a process not yet known to have exited. *)
Lemma run_teardown_stop self p s :
  returncode p = None ->
  teardown_stop w self p s =
    match wait_for (exit_after w (trace s ++ graceful)) (Some 10) with
    | Came d rc =>
        (Returned (SIGINT, (rc, {| returncode := Some rc |})),
         after s (graceful ++ [ProcWait (Some 10) (Some rc)]) d)
    | _ =>
        match wait_for (exit_after w (trace s ++ graceful ++ forceful self)) (Some 10) with
        | Came d rc =>
            (Returned (SIGKILL, (rc, {| returncode := Some rc |})),
             after s (graceful ++ forceful self ++ [ProcWait (Some 10) (Some rc)])
               (10000 + d))
        | _ =>
            (Returned (SIGKILL, (-65536, p)),
             after s (graceful ++ forceful self ++
                      [ProcWait (Some 10) None; Logging ERROR KillFailed]) 20000)
        end
    end.
Proof.
  intros Hp. unfold teardown_stop, Popen_kill, Popen_send_signal.
  change WAIT_CHANNEL_READY_TIMEOUT_SECONDS with 10.
  rewrite Hp.
  rewrite (run_bind_returned _ _ _ _ _ (run_do _ s)).
  set (s1 := after s _ 0).
  assert (W1 := run_Popen_wait w p 10 s1 Hp). cbn [s1 after trace] in W1.
  fold graceful in W1.
  destruct (wait_for_bounded (exit_after w (trace s ++ graceful)) 10)
    as [(d & rc & _ & _ & E)|E]; rewrite E in *.
  - erewrite run_try_returned
      by (erewrite run_bind_returned by exact W1; reflexivity).
    f_equal. unfold s1. now rewrite after_after.
  - erewrite run_try_handled;
      [| erewrite run_bind_raised by exact W1; reflexivity | reflexivity].
    rewrite (run_bind_returned _ _ _ _ _ (run_logging _ _ _)).
    rewrite (run_bind_returned _ _ _ _ _ (run_do _ _)).
    unfold s1. rewrite !after_after. cbn [app Z.add].
    set (s2 := after s _ _).
    assert (W2 := run_Popen_wait w p 10 s2 Hp). cbn [s2 after trace] in W2.
    change (trace s ++ _)%list with (trace s ++ graceful ++ forceful self)%list in W2.
    destruct (wait_for_bounded (exit_after w (trace s ++ graceful ++ forceful self)) 10)
      as [(d & rc & _ & _ & E2)|E2]; rewrite E2 in *.
    + erewrite run_try_returned
        by (erewrite run_bind_returned by exact W2; reflexivity).
      f_equal. unfold s2. now rewrite after_after.
    + erewrite run_try_handled;
        [| erewrite run_bind_raised by exact W2; reflexivity | reflexivity].
      rewrite (run_bind_returned _ _ _ _ _ (run_logging _ _ _)).
      unfold ret, s2. rewrite !after_after. reflexivity.
Qed.

(** The stop-signal block on a process whose exit was already observed. *)
Lemma run_teardown_stop_cached self p s rc :
  returncode p = Some rc ->
  teardown_stop w self p s =
    (Returned (SIGINT, (rc, p)),
     after s [SendSignal SIGINT false; ProcWait (Some 10) (Some rc)] 0).
Proof.
  intros Hp. unfold teardown_stop, Popen_send_signal. rewrite Hp.
  rewrite (run_bind_returned _ _ _ _ _ (run_do _ s)).
  erewrite run_try_returned
    by (erewrite run_bind_returned by (apply run_Popen_wait_cached; exact Hp); reflexivity).
  now rewrite after_after.
Qed.

(** The exit-code check and the join of the logging future. *)
Lemma run_teardown_join self stop_signal return_code s f :
  backing_process_logging_future self = Some f ->
  let warn := exit_warning self stop_signal return_code in
  teardown_join w self stop_signal return_code s =
    match wait_for (task_after w (trace s ++ warn)) (Some 10) with
    | Came d (TaskReturned v) =>
        (Returned tt,
         after s (warn ++ FutureResult (Some 10) true ::
                  (if truthy v then [Logging ERROR LoggingThreadError] else []) ++
                  [ExecutorShutdown false]) d)
    | Came d TaskRaised =>
        (Raised TaskError, after s (warn ++ [FutureResult (Some 10) true]) d)
    | _ =>
        (Returned tt,
         after s (warn ++ [FutureResult (Some 10) false; Logging ERROR LoggingThreadLate;
                           ExecutorShutdown false]) 10000)
    end.
Proof.
  intros Hf warn. unfold teardown_join. rewrite Hf. cbn [getattr].
  change WAIT_CHANNEL_READY_TIMEOUT_SECONDS with 10.
  fold (accepted_exit stop_signal return_code).
  assert (W : (if negb (accepted_exit stop_signal return_code)
               then logging ERROR (StoppedWithCode (label self) return_code)
               else ret tt) s = (Returned tt, after s warn 0)).
  { unfold warn, exit_warning. destruct (accepted_exit stop_signal return_code); cbn [negb].
    - unfold ret. now rewrite after_nil.
    - reflexivity. }
  rewrite (run_bind_returned _ _ _ _ _ W).
  set (s1 := after s warn 0).
  assert (F := run_Future_result w f 10 s1). cbn [s1 after trace] in F.
  destruct (wait_for_bounded (task_after w (trace s ++ warn)) 10)
    as [(d & e & _ & _ & E)|E]; rewrite E in *; [destruct e as [v|]|].
  - assert (J : try_except
                  (f0 <- ret f ;; result <- Future_result w f0 (Some 10) ;;
                   if truthy result then logging ERROR LoggingThreadError else ret tt)
                  is_FutureTimeoutError (fun _ => logging ERROR LoggingThreadLate) s1 =
                (Returned tt,
                 after s1 (FutureResult (Some 10) true ::
                           (if truthy v then [Logging ERROR LoggingThreadError] else [])) d)).
    { apply run_try_returned. unfold bind at 1. cbn [ret].
      rewrite (run_bind_returned _ _ _ _ _ F).
      destruct (truthy v).
      - rewrite run_logging, after_after. f_equal. f_equal. lia.
      - unfold ret. reflexivity. }
    rewrite (run_bind_returned _ _ _ _ _ J).
    unfold bind at 1. cbn [ret]. rewrite run_do. unfold s1.
    rewrite !after_after. f_equal. f_equal; try lia.
    all: cbn [app]; now rewrite <- app_assoc.
  - assert (J : try_except
                  (f0 <- ret f ;; result <- Future_result w f0 (Some 10) ;;
                   if truthy result then logging ERROR LoggingThreadError else ret tt)
                  is_FutureTimeoutError (fun _ => logging ERROR LoggingThreadLate) s1 =
                (Raised TaskError, after s1 [FutureResult (Some 10) true] d)).
    { apply run_try_passed; [|reflexivity]. unfold bind at 1. cbn [ret].
      now rewrite (run_bind_raised _ _ _ _ _ F). }
    rewrite (run_bind_raised _ _ _ _ _ J). unfold s1. now rewrite after_after.
  - assert (J : try_except
                  (f0 <- ret f ;; result <- Future_result w f0 (Some 10) ;;
                   if truthy result then logging ERROR LoggingThreadError else ret tt)
                  is_FutureTimeoutError (fun _ => logging ERROR LoggingThreadLate) s1 =
                (Returned tt,
                 after s1 [FutureResult (Some 10) false; Logging ERROR LoggingThreadLate]
                   10000)).
    { erewrite run_try_handled; [| unfold bind at 1; cbn [ret];
                                   now rewrite (run_bind_raised _ _ _ _ _ F) | reflexivity].
      rewrite run_logging, after_after. f_equal. }
    rewrite (run_bind_returned _ _ _ _ _ J).
    unfold bind at 1. cbn [ret]. rewrite run_do. unfold s1.
    rewrite !after_after. f_equal.
Qed.

Lemma run_teardown_join_no_future self stop_signal return_code s :
  backing_process_logging_future self = None ->
  teardown_join w self stop_signal return_code s =
    (Raised (AttributeError "backing_process_logging_future"),
     after s (exit_warning self stop_signal return_code) 0).
Proof.
  intros Hf. unfold teardown_join. rewrite Hf. cbn [getattr].
  fold (accepted_exit stop_signal return_code).
  unfold exit_warning. destruct (accepted_exit stop_signal return_code); cbn [negb].
  - unfold bind, ret, try_except, raise. cbn. now rewrite after_nil.
  - reflexivity.
Qed.

(** [teardown] of a device with its channels and its process: the two
    closes, the stop-signal block, the join. *)
Lemma run_teardown self s p f r m :
  runtime self =
    {| rt_backing_process := Some p; rt_logging_future := f;
       rt_grpc_root_server_channel := Some r; rt_grpc_channel := Some m |} ->
  teardown w self s =
    match teardown_stop w self p (after s closes 0) with
    | (Returned (stop_signal, (return_code, p')), s1) =>
        match teardown_join w self stop_signal return_code s1 with
        | (Returned _, s2) => (Returned (torn_down self m r p'), s2)
        | (Raised e, s2) => (Raised e, s2)
        | (Blocked, s2) => (Blocked, s2)
        end
    | (Raised e, s1) => (Raised e, s1)
    | (Blocked, s1) => (Blocked, s1)
    end.
Proof.
  intros Hr. unfold teardown, grpc_channel, grpc_root_server_channel, backing_process.
  rewrite Hr. cbn [rt_grpc_channel getattr].
  unfold bind at 1. cbn [ret].
  unfold bind at 1. unfold Channel_close at 1.
  rewrite (run_bind_returned _ _ _ _ _ (run_do _ s)). cbn [ret].
  cbn [set_grpc_channel with_runtime runtime rt_grpc_root_server_channel getattr].
  rewrite Hr. cbn [rt_grpc_root_server_channel getattr].
  unfold bind at 1. cbn [ret].
  unfold bind at 1. unfold Channel_close at 1.
  rewrite (run_bind_returned _ _ _ _ _ (run_do _ _)). cbn [ret].
  cbn [set_grpc_root_server_channel set_grpc_channel with_runtime runtime
       rt_backing_process getattr].
  rewrite Hr. cbn [rt_backing_process getattr rt_logging_future rt_grpc_channel].
  unfold bind at 1. cbn [ret].
  rewrite after_after. cbn [app Z.add]. fold closes.
  unfold bind at 1.
  change (teardown_stop w _ p) with (teardown_stop w self p).
  destruct (teardown_stop w self p (after s closes 0)) as [[[sig [rc p']]|e|] s1];
    reflexivity.
Qed.
End TeardownBlocks.

(** ** What a teardown does, in general *)

Lemma set_up_inv self :
  set_up self = true ->
  exists p f r m,
    runtime self =
      {| rt_backing_process := Some p; rt_logging_future := Some f;
         rt_grpc_root_server_channel := Some r; rt_grpc_channel := Some m |}.
Proof.
  unfold set_up, backing_process, backing_process_logging_future,
    grpc_root_server_channel, grpc_channel.
  destruct (runtime self) as [[p|] [f|] [r|] [m|]]; try discriminate.
  intros _. now exists p, f, r, m.
Qed.

Lemma running_inv self :
  running self = true ->
  exists p f r m,
    runtime self =
      {| rt_backing_process := Some p; rt_logging_future := Some f;
         rt_grpc_root_server_channel := Some r; rt_grpc_channel := Some m |} /\
    returncode p = None.
Proof.
  unfold running. intros H. apply andb_prop in H as [H1 H2].
  destruct (set_up_inv _ H1) as (p & f & r & m & Hr).
  exists p, f, r, m. split; [exact Hr|].
  unfold backing_process in H2. rewrite Hr in H2. cbn in H2.
  destruct (returncode p); [discriminate|reflexivity].
Qed.

Lemma future_of_runtime self p f r m :
  runtime self =
    {| rt_backing_process := Some p; rt_logging_future := f;
       rt_grpc_root_server_channel := Some r; rt_grpc_channel := Some m |} ->
  backing_process_logging_future self = f.
Proof. unfold backing_process_logging_future. now intros ->. Qed.

(** The stop-signal block always comes back with a signal and a code: it
    sends SIGINT, waits with a timeout, and takes 20 s at most. *)
Lemma teardown_stop_shape w self p s :
  exists sig rc p' b wait rest dt,
    GdDeviceBase.teardown_stop w self p s =
      (Returned (sig, (rc, p')),
       after s (SendSignal SIGINT b :: ProcWait (Some 10) wait :: rest) dt) /\
    dt <= 20000.
Proof.
  destruct (returncode p) as [rc|] eqn:Hp.
  - rewrite (run_teardown_stop_cached w self p s rc Hp).
    exists SIGINT, rc, p, false, (Some rc), [], 0. split; [reflexivity|lia].
  - rewrite (run_teardown_stop w self p s Hp).
    destruct (wait_for_bounded (exit_after w (trace s ++ graceful)) 10)
      as [(d & rc & _ & ? & E1)|E1]; rewrite E1.
    + exists SIGINT, rc, {| returncode := Some rc |}, true, (Some rc), [], d.
      split; [reflexivity|lia].
    + destruct (wait_for_bounded
                  (exit_after w (trace s ++ graceful ++ forceful self)) 10)
        as [(d & rc & _ & ? & E2)|E2]; rewrite E2.
      * eexists SIGKILL, rc, _, true, None, _, _. split; [reflexivity|lia].
      * eexists SIGKILL, _, _, true, None, _, _. split; [reflexivity|lia].
Qed.

(** The check and the join only log, join and shut down; they take 10 s at
    most and raise nothing but what the logging task raised, or the error
    of a future that was never assigned. *)
Lemma teardown_join_shape w self sig rc s :
  exists rest dt,
    final (GdDeviceBase.teardown_join w self sig rc s) = after s rest dt /\
    existsb is_signal rest = false /\
    existsb (is_channel_close grpc_channel_id) rest = false /\
    blocked (GdDeviceBase.teardown_join w self sig rc s) = false /\
    dt <= 10000 /\
    (backing_process_logging_future self <> None ->
     (exists done, In (FutureResult (Some 10) done) rest) /\
     forall e, outcome (GdDeviceBase.teardown_join w self sig rc s) = Raised e ->
               e = TaskError) /\
    (backing_process_logging_future self = None ->
     exists e, outcome (GdDeviceBase.teardown_join w self sig rc s) = Raised e).
Proof.
  destruct (backing_process_logging_future self) as [f|] eqn:Hf.
  - rewrite (run_teardown_join w self sig rc s f Hf).
    destruct (wait_for_bounded (task_after w (trace s ++ exit_warning self sig rc)) 10)
      as [(d & e & _ & ? & E)|E]; rewrite E; [destruct e as [v|]|].
    all: unfold exit_warning; destruct (accepted_exit sig rc); try destruct (truthy v).
    all: eexists _, _; split; [reflexivity|]; cbn.
    all: repeat (split; [reflexivity || lia|]).
    all: split; [intros _; split; [eexists; eauto 10 | congruence] | discriminate].
  - rewrite (run_teardown_join_no_future w self sig rc s Hf).
    unfold exit_warning; destruct (accepted_exit sig rc).
    all: eexists _, _; split; [reflexivity|]; cbn.
    all: repeat (split; [reflexivity || lia|]).
    all: split; [congruence | eauto].
Qed.

Lemma after_eq s a b x y : a = b -> x = y -> after s a x = after s b y.
Proof. now intros -> ->. Qed.

(** A teardown of a device with its channels and its process: both
    closes, then SIGINT and a bounded wait, then the check and the join;
    it takes 30 s at most. *)
Lemma teardown_shape w self s p f r m :
  runtime self =
    {| rt_backing_process := Some p; rt_logging_future := f;
       rt_grpc_root_server_channel := Some r; rt_grpc_channel := Some m |} ->
  let res := GdDeviceBase.teardown w self s in
  exists b wait rest dt,
    final res = after s (closes ++ SendSignal SIGINT b :: ProcWait (Some 10) wait :: rest) dt /\
    blocked res = false /\
    dt <= 30000 /\
    (forall d, outcome res = Returned d -> exists p', d = torn_down self m r p' /\ f <> None) /\
    (f <> None ->
     (exists done, In (FutureResult (Some 10) done) rest) /\
     forall e, outcome res = Raised e -> e = TaskError).
Proof.
  intros Hr res. subst res. rewrite (run_teardown w self s p f r m Hr).
  destruct (teardown_stop_shape w self p (after s closes 0))
    as (sig & rc & p' & b & wait & rest & dt & -> & Hdt).
  destruct (teardown_join_shape w self sig rc
              (after (after s closes 0)
                 (SendSignal SIGINT b :: ProcWait (Some 10) wait :: rest) dt))
    as (rest' & dt' & Hfin & _ & _ & Hb & Hdt' & Hsome & Hnone).
  rewrite (future_of_runtime self p f r m Hr) in Hsome, Hnone.
  unfold final, outcome, blocked in *.
  destruct (GdDeviceBase.teardown_join w self sig rc _) as [[[]|e|] s2]; cbn [fst snd] in *;
    try discriminate; subst s2; rewrite !after_after.
  - exists b, wait, (rest ++ rest')%list, (0 + (dt + dt')).
    split; [apply after_eq; [now rewrite <- ?app_assoc | lia]|].
    split; [reflexivity|]. split; [lia|]. split.
    + intros d [= <-]. exists p'. split; [reflexivity|]. intros ->.
      destruct (Hnone eq_refl) as (e & ?). discriminate.
    + intros Hf. destruct (Hsome Hf) as [(done & Hin) _]. split; [|discriminate].
      exists done. apply in_or_app. now right.
  - exists b, wait, (rest ++ rest')%list, (0 + (dt + dt')).
    split; [apply after_eq; [now rewrite <- ?app_assoc | lia]|].
    split; [reflexivity|]. split; [lia|]. split.
    + discriminate.
    + intros Hf. destruct (Hsome Hf) as [(done & Hin) He]. split.
      * exists done. apply in_or_app. now right.
      * intros e' [= <-]. now apply He.
Qed.

Lemma set_up_process self p :
  set_up self = true ->
  backing_process self = Some p ->
  exists f r m,
    runtime self =
      {| rt_backing_process := Some p; rt_logging_future := Some f;
         rt_grpc_root_server_channel := Some r; rt_grpc_channel := Some m |}.
Proof.
  intros Hs Hp. destruct (set_up_inv self Hs) as (p' & f & r & m & Hr).
  unfold backing_process in Hp. rewrite Hr in Hp. injection Hp as ->.
  now exists f, r, m.
Qed.

Lemma running_process self :
  running self = true ->
  exists p, set_up self = true /\ backing_process self = Some p /\ returncode p = None.
Proof.
  intros H. destruct (running_inv self H) as (p & f & r & m & Hr & Hp).
  exists p. unfold running in H. apply andb_prop in H as [Hs _].
  unfold backing_process. rewrite Hr. auto.
Qed.

(** Case analysis of the join of a teardown over what the environment
    answers to it. *)
Ltac teardown_join_cases w self Hf :=
  rewrite (run_teardown_join w self _ _ _ _ Hf);
  match goal with
  | |- context [wait_for (task_after w ?h) (Some 10)] =>
      let d' := fresh "d" in let e := fresh "e" in let E3 := fresh "E3" in
      destruct (wait_for_bounded (task_after w h) 10) as [(d' & e & _ & ? & E3)|E3];
      rewrite E3; [destruct e as [?v|]|]
  end;
  rewrite ?after_after; cbn [outcome final fst snd after trace clock].

(** Case analysis of the teardown of a device that was set up, over what
    the environment answers to the two waits and to the join; [Hs] says
    that the device was set up, [Hb] names its process. *)
Ltac teardown_cases w self s p Hs Hb :=
  let f := fresh "f" in let r := fresh "r" in let m := fresh "m" in
  let Hr := fresh "Hr" in let Hp := fresh "Hp" in
  destruct (set_up_process self p Hs Hb) as (f & r & m & Hr);
  rewrite (run_teardown w self s p (Some f) r m Hr);
  let code := fresh "code" in
  destruct (returncode p) as [code|] eqn:Hp;
  [ rewrite (run_teardown_stop_cached w self p _ code Hp)
  | rewrite (run_teardown_stop w self p _ Hp);
    cbn [after trace];
    rewrite <- !app_assoc;
    let d := fresh "d" in let rc := fresh "rc" in
    let E1 := fresh "E1" in let E2 := fresh "E2" in
    destruct (wait_for_bounded (exit_after w (trace s ++ closes ++ graceful)) 10)
      as [(d & rc & ? & ? & E1)|E1]; rewrite ?E1;
    [| destruct (wait_for_bounded
                   (exit_after w (trace s ++ closes ++ graceful ++ forceful self)) 10)
         as [(d & rc & ? & ? & E2)|E2]; rewrite ?E2 ] ];
  teardown_join_cases w self (future_of_runtime self p (Some f) r m Hr).

(** The same for a device whose process is still running. *)
Ltac teardown_running w self s H :=
  let p := fresh "p" in let Hs := fresh "Hs" in
  let Hb := fresh "Hb" in let Hn := fresh "Hn" in
  destruct (running_process self H) as (p & Hs & Hb & Hn);
  teardown_cases w self s p Hs Hb;
  try discriminate Hn.

Lemma wait_for_late {A} (e : option (Z * A)) t :
  (forall d a, e = Some (d, a) -> 1000 * t < d) ->
  wait_for e (Some t) = GaveUp (1000 * t).
Proof.
  intros H. destruct (wait_for_bounded e t) as [(d & a & E & Hd & _)|E]; [|exact E].
  specialize (H d a E). lia.
Qed.

Lemma accepted_exit_spec sig rc :
  accepted_exit sig rc = true <-> rc = - signum sig \/ rc = 0.
Proof.
  unfold accepted_exit, in_list. cbn [existsb]. rewrite !orb_true_iff, !Z.eqb_eq.
  intuition discriminate.
Qed.

(** ** Teardown: the stop-signal escalation *)




(** C10. When both waits of teardown give up, the return code is the
    sentinel -65536; it is not 0 and not the negation of any stop signal, so
    the check never accepts it: "stopped with code -65536" is logged after
    "Failed to kill backing process", and the join of the logging future
    with its 10 second timeout follows all the same. *)
Theorem teardown_failed_kill (w : World) (self : Device) (s : Sys) :
  running self = true ->
  (forall d rc,
     exit_after w (trace s ++ closes ++ graceful) = Some (d, rc) -> 10000 < d) ->
  (forall d rc,
     exit_after w (trace s ++ closes ++ graceful ++ forceful self) = Some (d, rc) ->
     10000 < d) ->
  let res := GdDeviceBase.teardown w self s in
  (exists done rest,
     trace (final res) =
       (trace s ++ closes ++ graceful ++ forceful self ++
        [ProcWait (Some 10) None; Logging ERROR KillFailed;
         Logging ERROR (StoppedWithCode (label self) (-65536));
         FutureResult (Some 10) done] ++ rest)%list) /\
  (forall sig, accepted_exit sig (-65536) = false) /\
  -65536 <> 0 /\
  (forall sig, -65536 <> - signum sig) /\
  blocked res = false.
Proof.
  intros H Hlate1 Hlate2 res. subst res.
  assert (L1 := wait_for_late _ 10 Hlate1).
  assert (L2 := wait_for_late _ 10 Hlate2).
  split; [| split; [now intros [] | split; [lia | split; [intros []; cbn; lia |]]]].
  all: teardown_running w self s H.
  all: try (rewrite L1 in *; discriminate).
  all: try (rewrite L2 in *; discriminate).
  all: try destruct (truthy _).
  all: try (eexists _, _; unfold closes, graceful, forceful, exit_warning;
            cbn [app accepted_exit in_list existsb signum Z.eqb Z.opp orb]; reflexivity).
  all: reflexivity.
Qed.

(** The failed kill on a process that survives both signals. *)
Lemma teardown_failed_kill_witness :
  running sample_running = true /\
  (forall d rc,
     exit_after unkillable (trace sys0 ++ closes ++ graceful) = Some (d, rc) -> 10000 < d) /\
  (forall d rc,
     exit_after unkillable (trace sys0 ++ closes ++ graceful ++ forceful sample_running) =
       Some (d, rc) -> 10000 < d) /\
  let res := GdDeviceBase.teardown unkillable sample_running sys0 in
  (exists done rest,
     trace (final res) =
       (trace sys0 ++ closes ++ graceful ++ forceful sample_running ++
        [ProcWait (Some 10) None; Logging ERROR KillFailed;
         Logging ERROR (StoppedWithCode (label sample_running) (-65536));
         FutureResult (Some 10) done] ++ rest)%list) /\
  (forall sig, accepted_exit sig (-65536) = false) /\
  -65536 <> 0 /\
  (forall sig, -65536 <> - signum sig) /\
  blocked res = false.
Proof.
  split; [reflexivity|]. split; [discriminate|]. split; [discriminate|].
  apply (teardown_failed_kill unkillable sample_running sys0);
    [reflexivity | discriminate | discriminate].
Defined.

(** ** Teardown: the exit code check *)

(** C5. When the process exits during a teardown, its return code is
    checked against two values, the negation of the stop signal sent last
    (SIGINT, or SIGKILL after the escalation) and 0; a code cached from an
    earlier exit is checked in the same way against SIGINT.  Any other code
    makes teardown log "stopped with code" and go on to the join; a process
    that ignores SIGINT and dies of SIGKILL (code -9) logs nothing.
    Whatever the code, teardown does not block, and it raises nothing but
    an exception of the logging task itself. *)
Theorem teardown_exit_check (w : World) (self : Device) (s : Sys) (p : Popen) :
  set_up self = true ->
  backing_process self = Some p ->
  let res := GdDeviceBase.teardown w self s in
  let h0 := (trace s ++ closes ++ graceful)%list in
  let h1 := (trace s ++ closes ++ graceful ++ forceful self)%list in
  (forall rc,
     returncode p = Some rc ->
     exists done rest,
       trace (final res) =
         (trace s ++ closes ++ [SendSignal SIGINT false; ProcWait (Some 10) (Some rc)] ++
          exit_warning self SIGINT rc ++ FutureResult (Some 10) done :: rest)%list /\
       existsb is_stopped_with_code rest = false) /\
  (forall d rc,
     returncode p = None ->
     wait_for (exit_after w h0) (Some 10) = Came d rc ->
     exists done rest,
       trace (final res) =
         (trace s ++ closes ++ graceful ++ [ProcWait (Some 10) (Some rc)] ++
          exit_warning self SIGINT rc ++ FutureResult (Some 10) done :: rest)%list /\
       existsb is_stopped_with_code rest = false) /\
  (forall d rc,
     returncode p = None ->
     wait_for (exit_after w h0) (Some 10) = GaveUp 10000 ->
     wait_for (exit_after w h1) (Some 10) = Came d rc ->
     exists done rest,
       trace (final res) =
         (trace s ++ closes ++ graceful ++ forceful self ++ [ProcWait (Some 10) (Some rc)] ++
          exit_warning self SIGKILL rc ++ FutureResult (Some 10) done :: rest)%list /\
       existsb is_stopped_with_code rest = false) /\
  (forall sig rc,
     (rc = - signum sig \/ rc = 0 -> exit_warning self sig rc = []) /\
     (~ (rc = - signum sig \/ rc = 0) ->
      exit_warning self sig rc = [Logging ERROR (StoppedWithCode (label self) rc)])) /\
  exit_warning self SIGKILL (-9) = [] /\
  blocked res = false /\
  (forall e, outcome res = Raised e -> e = TaskError).
Proof.
  intros Hs Hb res h0 h1. subst res h0 h1.
  split; [| split; [| split; [| split; [| split; [reflexivity|] ] ] ] ].
  - intros rc0 C. teardown_cases w self s p Hs Hb.
    all: try discriminate C.
    all: injection C as <-.
    all: try destruct (truthy _).
    all: eexists _, _; split; [unfold closes; cbn [app]; reflexivity | reflexivity].
  - intros d0 rc0 C W. teardown_cases w self s p Hs Hb.
    all: try discriminate C.
    all: try (rewrite W in *; discriminate).
    all: match goal with E : _ = Came _ _ |- _ => rewrite W in E; injection E as <- <- end.
    all: try destruct (truthy _).
    all: eexists _, _; split; [unfold closes, graceful; cbn [app]; reflexivity | reflexivity].
  - intros d0 rc0 C W1 W2. teardown_cases w self s p Hs Hb.
    all: try discriminate C.
    all: try (rewrite W1 in *; discriminate).
    all: try (rewrite W2 in *; discriminate).
    all: match goal with E : _ = Came _ _ |- _ => rewrite W2 in E; injection E as <- <- end.
    all: try destruct (truthy _).
    all: eexists _, _; split;
      [unfold closes, graceful, forceful; cbn [app]; reflexivity | reflexivity].
  - intros sig rc. unfold exit_warning.
    destruct (accepted_exit sig rc) eqn:E.
    + apply accepted_exit_spec in E. tauto.
    + split; [|reflexivity]. intros Hacc. apply accepted_exit_spec in Hacc. congruence.
  - teardown_cases w self s p Hs Hb.
    all: split; [reflexivity | congruence].
Qed.

(** The check on a process that ignores SIGINT and dies of SIGKILL: the
    first wait gives up, the second sees -9, nothing is logged about the
    code and teardown returns. *)
Lemma teardown_exit_check_witness :
  set_up sample_running = true /\
  backing_process sample_running = Some {| returncode := None |} /\
  wait_for (exit_after stubborn (trace sys0 ++ closes ++ graceful)) (Some 10) =
    GaveUp 10000 /\
  wait_for (exit_after stubborn
              (trace sys0 ++ closes ++ graceful ++ forceful sample_running)) (Some 10) =
    Came 5 (-9) /\
  returned (GdDeviceBase.teardown stubborn sample_running sys0) = true /\
  exists done rest,
    trace (final (GdDeviceBase.teardown stubborn sample_running sys0)) =
      (trace sys0 ++ closes ++ graceful ++ forceful sample_running ++
       [ProcWait (Some 10) (Some (-9))] ++
       exit_warning sample_running SIGKILL (-9) ++ FutureResult (Some 10) done :: rest)%list /\
    existsb is_stopped_with_code rest = false.
Proof.
  split; [reflexivity|]. split; [reflexivity|]. split; [reflexivity|].
  split; [reflexivity|]. split; [reflexivity|].
  exact (proj1 (proj2 (proj2 (teardown_exit_check stubborn sample_running sys0
                                {| returncode := None |} eq_refl eq_refl)))
           5 (-9) eq_refl eq_refl eq_refl).
Defined.

(** ** Teardown: channels are closed first *)

(** C6. In every teardown, whatever the state of the device, both gRPC
    channels are closed before any signal is sent to the backing process;
    on a device that was set up the teardown starts with the close of the
    main channel, the close of the root-server channel and then SIGINT. *)
Theorem teardown_closes_channels_first (w : World) (self : Device) (s : Sys) :
  let res := GdDeviceBase.teardown w self s in
  (forall pre a post,
     trace (final res) = (trace s ++ pre ++ a :: post)%list ->
     is_signal a = true ->
     In (ChannelClose grpc_channel_id) pre /\
     In (ChannelClose grpc_root_server_channel_id) pre) /\
  (set_up self = true ->
   exists b rest,
     trace (final res) = (trace s ++ closes ++ SendSignal SIGINT b :: rest)%list).
Proof.
  intros res. subst res. split.
  - intros pre a post Ht Ha.
    destruct self as [vm rp gp sp nm ti lb lp tp bl cm en tc [[p|] f [r|] [m|]]].
    1: { match type of Ht with context [GdDeviceBase.teardown w ?d s] =>
           destruct (teardown_shape w d s p f r m eq_refl)
             as (b & wait & rest & dt & Hfin & _) end.
         rewrite Hfin in Ht. cbn [after trace] in Ht.
         apply app_inv_head in Ht. unfold closes in Ht. cbn [app] in Ht.
         destruct pre as [|x [|y pre]]; cbn [app] in Ht.
         - injection Ht as <- _. discriminate.
         - injection Ht as _ <- _. discriminate.
         - injection Ht as <- <- _. cbn. auto. }
    all: exfalso; cbn in Ht; rewrite <- ?app_assoc in Ht;
      first [ apply app_inv_head in Ht
            | rewrite <- (app_nil_r (trace s)) in Ht at 1; apply app_inv_head in Ht ];
      cbn in Ht.
    all: destruct pre as [|x [|y [|z pre]]]; try discriminate.
    all: try (injection Ht as <- _; discriminate).
    all: try (injection Ht as <-; discriminate).
    all: try (injection Ht as _ <-; discriminate).
  - intros Hs. destruct (set_up_inv self Hs) as (p & f & r & m & Hr).
    destruct (teardown_shape w self s p (Some f) r m Hr)
      as (b & wait & rest & dt & Hfin & _). rewrite Hfin.
    now exists b, (ProcWait (Some 10) wait :: rest).
Qed.

(** The order on the escalating teardown of a stubborn process: both
    closes come before SIGKILL as well. *)
Lemma teardown_closes_channels_first_witness :
  In (ChannelClose grpc_channel_id)
     (closes ++ graceful ++
      [ProcWait (Some 10) None; Logging ERROR (SigintFailed "dut")])%list /\
  In (ChannelClose grpc_root_server_channel_id)
     (closes ++ graceful ++
      [ProcWait (Some 10) None; Logging ERROR (SigintFailed "dut")])%list.
Proof.
  exact (proj1 (teardown_closes_channels_first stubborn sample_running sys0)
           (closes ++ graceful ++
      [ProcWait (Some 10) None; Logging ERROR (SigintFailed "dut")])%list
           (SendSignal SIGKILL true)
           [ProcWait (Some 10) (Some (-9)); FutureResult (Some 10) true;
            ExecutorShutdown false]
           eq_refl eq_refl).
Defined.

(** ** Teardown: a second call *)

(** C3, as the code behaves.  A second teardown of the sample device, after
    a first one that returned, raises nothing: it closes both channels
    again, calls send_signal and wait again (the process has exited, the
    cached code comes back at once), joins the logging future again and
    shuts the executor down again. *)
Lemma teardown_twice_reruns :
  let first := GdDeviceBase.teardown calm sample_running sys0 in
  outcome first = Returned sample_stopped /\
  let second := GdDeviceBase.teardown calm sample_stopped (final first) in
  raised second = false /\
  returned second = true /\
  trace (final second) =
    (trace (final first) ++
     [ChannelClose grpc_channel_id; ChannelClose grpc_root_server_channel_id;
      SendSignal SIGINT false; ProcWait (Some 10) (Some (-2));
      FutureResult (Some 10) true; ExecutorShutdown false])%list.
Proof.
  split; [vm_compute; reflexivity|]. vm_compute. auto.
Qed.

(** C3, amended.  Teardown keeps no lifecycle state and has no guard
    against a second call: on the device a teardown returned, another
    teardown runs the same sequence again, the two closes, SIGINT, the
    bounded wait and the join of the logging future; it does not block, and
    the only exception it can end with is one of the logging task. *)
Theorem teardown_has_no_state_guard (w : World) (self stopped : Device) (s : Sys) :
  let first := GdDeviceBase.teardown w self s in
  outcome first = Returned stopped ->
  let second := GdDeviceBase.teardown w stopped (final first) in
  (exists b wait rest,
     trace (final second) =
       (trace (final first) ++ closes ++
        SendSignal SIGINT b :: ProcWait (Some 10) wait :: rest)%list /\
     exists done, In (FutureResult (Some 10) done) rest) /\
  blocked second = false /\
  (forall e, outcome second = Raised e -> e = TaskError).
Proof.
  intros first Hret second.
  assert (Hs : set_up stopped = true).
  { subst first.
    destruct self as [vm rp gp sp nm ti lb lp tp bl cm en tc [[p|] f [r|] [m|]]];
      try (cbn in Hret; discriminate).
    match type of Hret with context [GdDeviceBase.teardown w ?d s] =>
      destruct (teardown_shape w d s p f r m eq_refl)
        as (b & wait & rest & dt & _ & _ & _ & Hd & _) end.
    destruct (Hd _ Hret) as (p' & -> & Hf). destruct f as [f|]; [|congruence].
    reflexivity. }
  destruct (set_up_inv stopped Hs) as (p & f & r & m & Hr).
  destruct (teardown_shape w stopped (final first) p (Some f) r m Hr)
    as (b & wait & rest & dt & Hfin & Hb & _ & _ & Hsome).
  destruct (Hsome ltac:(discriminate)) as [Hin He].
  subst second. split; [|split; assumption].
  exists b, wait, rest. rewrite Hfin. split; [reflexivity | exact Hin].
Qed.

Lemma teardown_has_no_state_guard_witness :
  let first := GdDeviceBase.teardown calm sample_running sys0 in
  outcome first = Returned sample_stopped /\
  let second := GdDeviceBase.teardown calm sample_stopped (final first) in
  (exists b wait rest,
     trace (final second) =
       (trace (final first) ++ closes ++
        SendSignal SIGINT b :: ProcWait (Some 10) wait :: rest)%list /\
     exists done, In (FutureResult (Some 10) done) rest) /\
  blocked second = false /\
  (forall e, outcome second = Raised e -> e = TaskError).
Proof.
  split; [reflexivity|].
  apply (teardown_has_no_state_guard calm sample_running sample_stopped sys0).
  reflexivity.
Defined.

(** ** Setup: the wait for the handshake *)

(** Unfolds the monad and the calls of [setup]. *)
Ltac exec :=
  cbv [bind ret raise block do emit logging history time_time time_sleep try_except finally
       getattr assert_true asserts_fail
       make_ports_available socket_bind_listen socket_accept subprocess_Popen
       is_subprocess_alive insecure_channel
       outcome final returned raised blocked fst snd trace clock after].

(** C1, amended.  [setup] waits for the handshake with [accept()] on a
    socket that has no timeout.  Once the signal port is bound and the
    process is spawned and alive, setup goes on as soon as the process
    connects, however late that is, and blocks for ever when it never
    connects.  In no run of setup is a signal sent to the process, and no
    accept of setup carries a timeout. *)
Theorem setup_waits_without_timeout (w : World) (self : Device) (s : Sys) :
  let res := GdDeviceBase.setup w self s in
  (exists new,
     trace (final res) = (trace s ++ new)%list /\
     existsb is_signal new = false /\
     forall t c, In (SocketAccept t c) new -> t = None) /\
  (starts w self s = true ->
   match connect_after w (trace s ++ start_actions self) with
   | Some d =>
       returned res = true /\
       final res = after s (start_actions self ++ ready_actions self) d
   | None =>
       outcome res = Blocked /\
       final res = after s (start_actions self ++ [SocketAccept None false]) 0
   end).
Proof.
  intros res. subst res. unfold starts, start_actions, ready_actions.
  destruct s as [h c]. cbn [firstn trace].
  unfold GdDeviceBase.setup. exec.
  destruct (ports_available w h [signal_port self]); cbn [andb].
  2: { split; [|discriminate]. eexists. split; [reflexivity|]. split; [reflexivity|].
       cbn. intros t c0 [H|[]]. discriminate. }
  destruct (port_in_range (signal_port self)); cbn [andb].
  2: { split; [|discriminate]. eexists. rewrite <- ?app_assoc.
       split; [reflexivity|]. split; [reflexivity|].
       cbn. intuition discriminate. }
  destruct (bind_ok w _); cbn [andb].
  2: { split; [|discriminate]. eexists. rewrite <- ?app_assoc.
       split; [reflexivity|]. split; [reflexivity|].
       cbn. intuition discriminate. }
  rewrite <- ?app_assoc. cbn [app].
  destruct (spawn_ok w _); cbn [andb].
  2: { split; [|discriminate]. eexists. rewrite <- ?app_assoc.
       split; [reflexivity|]. split; [reflexivity|].
       cbn. intuition discriminate. }
  rewrite <- ?app_assoc. cbn [app].
  destruct (subprocess_alive w _); cbn [andb].
  2: { split; [|discriminate]. eexists. rewrite <- ?app_assoc.
       split; [reflexivity|]. split; [reflexivity|].
       cbn. intuition discriminate. }
  rewrite <- ?app_assoc. cbn [app].
  destruct (connect_after w _) as [d|]; cbn [option_map wait_for].
  - split.
    + eexists. rewrite <- ?app_assoc. split; [reflexivity|]. split; [reflexivity|].
      cbn. intros t c0 H. repeat (destruct H as [H|H]; try discriminate; try now inversion H).
    + intros _. split; [reflexivity|]. rewrite <- ?app_assoc. cbn. f_equal. lia.
  - split.
    + eexists. rewrite <- ?app_assoc. split; [reflexivity|]. split; [reflexivity|].
      cbn. intros t c0 H. repeat (destruct H as [H|H]; try discriminate; try now inversion H).
    + intros _. split; [reflexivity|]. rewrite <- ?app_assoc. cbn [app]. f_equal. lia.
Qed.

(** C1, as the code behaves.  A backing process that connects to the
    signal port 15 s after its start, so not within 10 s: setup does not
    fail and kills nothing, it waits the 15 s and returns. *)
Lemma setup_waits_beyond_ten_seconds :
  (forall h, connect_after slow_start h = Some 15000) /\
  let res := GdDeviceBase.setup slow_start sample_device sys0 in
  returned res = true /\
  raised res = false /\
  existsb is_signal (trace (final res)) = false /\
  In (SocketAccept None true) (trace (final res)) /\
  clock (final res) = 15000.
Proof.
  split; [reflexivity|]. vm_compute. intuition.
Qed.

(** A backing process that never connects: setup blocks in accept. *)
Lemma setup_waits_without_timeout_witness :
  starts never_ready sample_device sys0 = true /\
  outcome (GdDeviceBase.setup never_ready sample_device sys0) = Blocked /\
  final (GdDeviceBase.setup never_ready sample_device sys0) =
    after sys0 (start_actions sample_device ++ [SocketAccept None false]) 0.
Proof.
  split; [reflexivity|].
  exact (proj2 (setup_waits_without_timeout never_ready sample_device sys0) eq_refl).
Defined.

(** ** What programs add to the trace *)

Section Emits.
Variable P : Action -> bool.

Lemma emits_ret {A} (a : A) : emits P (ret a).
Proof. intros s. exists []. cbn. now rewrite app_nil_r. Qed.

Lemma emits_raise {A} e : emits P (@raise A e).
Proof. intros s. exists []. cbn. now rewrite app_nil_r. Qed.

Lemma emits_block {A} : emits P (@block A).
Proof. intros s. exists []. cbn. now rewrite app_nil_r. Qed.

Lemma emits_history : emits P history.
Proof. intros s. exists []. cbn. now rewrite app_nil_r. Qed.

Lemma emits_time_time : emits P time_time.
Proof. intros s. exists []. cbn. now rewrite app_nil_r. Qed.

Lemma emits_emit a dt : P a = true -> emits P (emit a dt).
Proof. intros H s. exists [a]. cbn. now rewrite H. Qed.

Lemma emits_bind {A B} (m : M A) (k : A -> M B) :
  emits P m -> (forall a, emits P (k a)) -> emits P (bind m k).
Proof.
  intros Hm Hk s. destruct (Hm s) as (n1 & E1 & F1). unfold bind, final in *.
  destruct (m s) as [[a|e|] s1]; cbn [snd] in *.
  - destruct (Hk a s1) as (n2 & E2 & F2). exists (n1 ++ n2)%list.
    unfold final in E2. rewrite E2, E1, app_assoc, forallb_app, F1, F2. auto.
  - exists n1. auto.
  - exists n1. auto.
Qed.

Lemma emits_try_except {A} (m : M A) hs (h : Exn -> M A) :
  emits P m -> (forall e, emits P (h e)) -> emits P (try_except m hs h).
Proof.
  intros Hm Hh s. destruct (Hm s) as (n1 & E1 & F1). unfold try_except, final in *.
  destruct (m s) as [[a|e|] s1]; cbn [snd] in *.
  - exists n1. auto.
  - destruct (hs e).
    + destruct (Hh e s1) as (n2 & E2 & F2). exists (n1 ++ n2)%list.
      unfold final in E2. rewrite E2, E1, app_assoc, forallb_app, F1, F2. auto.
    + exists n1. auto.
  - exists n1. auto.
Qed.

Lemma emits_assert_true c why : emits P (assert_true c why).
Proof. destruct c; [apply emits_ret | apply emits_raise]. Qed.

Lemma emits_logging lvl m : P (Logging lvl m) = true -> emits P (logging lvl m).
Proof. apply emits_emit. Qed.

Lemma emits_time_sleep ms : P (Sleep ms) = true -> emits P (time_sleep ms).
Proof. apply emits_emit. Qed.

Lemma emits_adb w sn call :
  (forall r, P (Adb sn call r) = true) -> emits P (adb w sn call).
Proof.
  intros H. unfold adb. apply emits_bind; [apply emits_history|]. intros h.
  apply emits_bind; [apply emits_emit, H|]. intros _.
  destruct (adb_reply w h sn call); [apply emits_ret | apply emits_raise].
Qed.
End Emits.

Lemma emits_weaken {A} (P Q : Action -> bool) (m : M A) :
  (forall a, P a = true -> Q a = true) -> emits P m -> emits Q m.
Proof.
  intros H Hm s. destruct (Hm s) as (new & E & F). exists new. split; [exact E|].
  rewrite forallb_forall in *. auto.
Qed.

(** One step of an [emits] proof, along the structure of the program. *)
Ltac emits_step :=
  lazymatch goal with
  | |- emits _ (ret _) => apply emits_ret
  | |- emits _ (raise _) => apply emits_raise
  | |- emits _ (asserts_fail _) => apply emits_raise
  | |- emits _ (asserts_fail_extras _ _) => unfold asserts_fail_extras
  | |- emits _ block => apply emits_block
  | |- emits _ history => apply emits_history
  | |- emits _ time_time => apply emits_time_time
  | |- emits _ (assert_true _ _) => apply emits_assert_true
  | |- emits _ (logging _ _) => apply emits_logging; reflexivity
  | |- emits _ (time_sleep _) => apply emits_time_sleep; reflexivity
  | |- emits _ (adb _ _ _) => apply emits_adb; intros; reflexivity
  | |- emits _ (do _) => apply emits_emit; reflexivity
  | |- emits _ (emit _ _) => apply emits_emit; reflexivity
  | |- emits _ (bind _ _) => apply emits_bind; [|intros]
  | |- emits _ (try_except _ _ _) => apply emits_try_except; [|intros]
  | |- emits _ (if ?c then _ else _) => destruct c
  | |- emits _ (match ?c with _ => _ end) => destruct c
  end.

Ltac emits_auto := repeat emits_step.

Section AndroidEmits.
Variable w : World.
Import GdAndroidDevice.

Lemma emits_boot_completion_loop fuel serial deadline :
  emits is_poll (boot_completion_loop w fuel serial deadline).
Proof.
  induction fuel as [|fuel IH]; cbn [boot_completion_loop]; emits_auto. apply IH.
Qed.

Lemma emits_wait_for_boot_completion self timeout_ms :
  emits is_poll (wait_for_boot_completion w self timeout_ms).
Proof.
  unfold wait_for_boot_completion. emits_auto.
  apply emits_boot_completion_loop.
Qed.

Lemma emits_reboot_loop fuel serial deadline :
  emits is_poll (reboot_loop w fuel serial deadline).
Proof.
  induction fuel as [|fuel IH]; cbn [reboot_loop]; emits_auto. apply IH.
Qed.
End AndroidEmits.

Section AndroidRuns.
Variable w : World.
Import GdAndroidDevice.

Lemma run_adb sn call s :
  adb w sn call s =
    let dt := Z.max 0 (adb_elapsed w (trace s) sn call) in
    match adb_reply w (trace s) sn call with
    | AdbOut v => (Returned v, after s [Adb sn call (AdbOut v)] dt)
    | AdbRaise => (Raised AdbError, after s [Adb sn call AdbRaise] dt)
    end.
Proof.
  unfold adb, bind, history. cbn. destruct (adb_reply w (trace s) sn call); reflexivity.
Qed.

(** The first loop of [reboot] comes to its end: a round that does not
    leave the loop sleeps 100 ms, and the deadline is at most 100 ms times
    the rounds left away. *)
Lemma reboot_loop_returns fuel serial deadline s :
  deadline - clock s <= 100 * Z.of_nat fuel ->
  outcome (reboot_loop w fuel serial deadline s) = Returned tt.
Proof.
  revert s. induction fuel as [|fuel IH]; intros s Hf; cbn [reboot_loop].
  - unfold bind, time_time. destruct (Z.ltb_spec (clock s) deadline); [lia | reflexivity].
  - unfold bind at 1. unfold time_time.
    destruct (Z.ltb_spec (clock s) deadline); [|reflexivity].
    unfold bind at 1, try_except, bind at 1. rewrite run_adb. cbv zeta.
    destruct (adb_reply w (trace s) serial adb_get_state); cbn -[Z.mul Z.of_nat];
      [|reflexivity].
    apply IH. cbn -[Z.mul Z.of_nat]. lia.
Qed.

Lemma boot_completion_loop_returns fuel serial deadline s :
  deadline - clock s <= 5000 * Z.of_nat fuel ->
  exists b, outcome (boot_completion_loop w fuel serial deadline s) = Returned b.
Proof.
  revert s. induction fuel as [|fuel IH]; intros s Hf; cbn [boot_completion_loop].
  - unfold bind, time_time. destruct (Z.ltb_spec (clock s) deadline); [lia | now eexists].
  - unfold bind at 1. unfold time_time.
    destruct (Z.ltb_spec (clock s) deadline); [|now eexists].
    unfold bind at 1, try_except, bind at 1. rewrite run_adb. cbv zeta.
    destruct (adb_reply w (trace s) serial (adb_getprop "sys.boot_completed")) as [v|];
      cbn -[Z.mul Z.of_nat].
    + destruct (py_eq_str v "1"); [now eexists|]. apply IH. cbn -[Z.mul Z.of_nat]. lia.
    + apply IH. cbn -[Z.mul Z.of_nat]. lia.
Qed.

(** [wait_for_boot_completion] comes back: it returns, or raises the
    AdbError of [wait_for_device], or fails as timed out. *)
Lemma wait_for_boot_completion_ends self timeout_ms s :
  ends_in reboot_error (wait_for_boot_completion w self timeout_ms s).
Proof.
  unfold wait_for_boot_completion, ends_in, outcome.
  unfold bind at 1. unfold time_time at 1. unfold bind at 1. rewrite run_adb. cbv zeta.
  destruct (adb_reply w (trace s) (serial_number self) _); [|reflexivity].
  unfold bind at 1. unfold time_time at 1. cbn [clock after].
  set (s1 := after s _ _). unfold bind.
  destruct (boot_completion_loop_returns
              (Z.to_nat ((clock s + timeout_ms - clock s1) / 5000 + 1))
              (serial_number self) (clock s + timeout_ms) s1) as (b & Hb).
  { pose proof (Z.mul_succ_div_gt (clock s + timeout_ms - clock s1) 5000 ltac:(lia)).
    lia. }
  unfold outcome in Hb. destruct (boot_completion_loop w _ _ _ s1) as [o s2].
  cbn [fst] in *. subst o. destruct b; reflexivity.
Qed.

(** A reboot comes back: it returns, or ends with an AdbError or with
    the boot timeout. *)
Lemma reboot_ends self timeout_ms s :
  ends_in reboot_error (reboot w self timeout_ms s).
Proof.
  unfold reboot.
  rewrite (run_bind_returned _ _ _ _ _ (run_logging _ _ s)).
  unfold bind at 1. rewrite run_adb. cbv zeta. cbn [after trace].
  destruct (adb_reply w _ (serial_number self) adb_reboot) as [v|]; [|reflexivity].
  unfold bind at 1. unfold time_time at 1.
  set (s1 := after (after s _ 0) _ _).
  assert (L := reboot_loop_returns (Z.to_nat (timeout_ms / 100 + 1)) (serial_number self)
                 (clock s1 + timeout_ms) s1).
  unfold bind at 1. unfold outcome in L.
  destruct (reboot_loop w _ _ _ s1) as [o s2]. cbn [fst] in L.
  rewrite L.
  2: { pose proof (Z.mul_succ_div_gt timeout_ms 100 ltac:(lia)). lia. }
  unfold bind at 1. unfold time_time at 1.
  apply wait_for_boot_completion_ends.
Qed.

(** What a reboot adds to the trace: the log line, [adb reboot], polls. *)
Lemma reboot_trace self timeout_ms s :
  exists r polls,
    trace (final (reboot w self timeout_ms s)) =
      (trace s ++ Logging DEBUG (Rebooting (serial_number self)) ::
       Adb (serial_number self) adb_reboot r :: polls)%list /\
    forallb is_poll polls = true.
Proof.
  unfold reboot.
  rewrite (run_bind_returned _ _ _ _ _ (run_logging _ _ s)).
  unfold bind at 1. rewrite run_adb. cbv zeta. cbn [after trace].
  assert (K : forall v : PyVal, emits is_poll
            (fun s' => (timeout_start <- time_time ;;
              reboot_loop w (Z.to_nat (timeout_ms / 100 + 1)) (serial_number self)
                (timeout_start + timeout_ms) ;;
              now <- time_time ;;
              wait_for_boot_completion w self (timeout_ms - (now - timeout_start))) s')).
  { intros _. change (fun s' => ?m s') with m. emits_auto.
    - apply emits_reboot_loop.
    - apply emits_wait_for_boot_completion. }
  destruct (adb_reply w _ (serial_number self) adb_reboot) as [v|].
  - destruct (K v (after (after s [Logging DEBUG (Rebooting (serial_number self))] 0)
                     [Adb (serial_number self) adb_reboot (AdbOut v)]
                     (Z.max 0 (adb_elapsed w
                        (trace s ++ [Logging DEBUG (Rebooting (serial_number self))])
                        (serial_number self) adb_reboot)))) as (n & E & F).
    cbv beta in E. rewrite E. cbn [after trace]. exists (AdbOut v), n.
    rewrite <- !app_assoc. split; [reflexivity | exact F].
  - exists AdbRaise, []. cbn. rewrite <- app_assoc. split; reflexivity.
Qed.
End AndroidRuns.

Lemma count_app f a b : count f (a ++ b) = (count f a + count f b)%nat.
Proof. unfold count. now rewrite filter_app, length_app. Qed.

Lemma count_none f l :
  (forall a, In a l -> f a = false) -> count f l = 0%nat.
Proof.
  unfold count. induction l as [|x l IH]; intros H; [reflexivity|].
  cbn. rewrite (H x (or_introl eq_refl)). apply IH. intros a Ha. apply H. now right.
Qed.

Lemma polls_count f polls :
  (forall a, is_poll a = true -> f a = false) ->
  forallb is_poll polls = true -> count f polls = 0%nat.
Proof.
  intros Hf Hp. apply count_none. rewrite forallb_forall in Hp. auto.
Qed.

Lemma poll_is_device_side a : is_poll a = true -> is_device_side a = true.
Proof. destruct a; try discriminate; reflexivity. Qed.

Lemma poll_not_reboot a : is_poll a = true -> is_reboot a = false.
Proof. destruct a as [| | | | | | | | | | | | | | | |sn [] r]; try discriminate; reflexivity. Qed.

Lemma poll_not_forward h d a : is_poll a = true -> is_forward_attempt h d a = false.
Proof. destruct a as [| | | | | | | | | | | | | | | |sn [] r]; try discriminate; reflexivity. Qed.

Lemma poll_not_reverse x a : is_poll a = true -> is_reverse_attempt x a = false.
Proof. destruct a as [| | | | | | | | | | | | | | | |sn [] r]; try discriminate; reflexivity. Qed.

Lemma count_cons f a l :
  count f (a :: l) = ((if f a then 1 else 0) + count f l)%nat.
Proof. unfold count. cbn. now destruct (f a). Qed.

Lemma is_forward_attempt_refl h d sn r :
  is_forward_attempt h d (Adb sn (adb_tcp_forward h d) r) = true.
Proof. cbn. now rewrite !Z.eqb_refl. Qed.

Lemma is_reverse_attempt_refl x sn r :
  is_reverse_attempt x (Adb sn (adb_reverse x) r) = true.
Proof. cbn. now rewrite String.eqb_refl. Qed.

Lemma reboot_error_not_forward h d e :
  reboot_error e = true -> is_unable_forward h d e = false.
Proof. destruct e as [| [] | | | | | | | | | | |]; try discriminate; reflexivity. Qed.

Lemma reboot_error_not_reverse d h e :
  reboot_error e = true -> is_unable_reverse d h e = false.
Proof. destruct e as [| [] | | | | | | | | | | |]; try discriminate; reflexivity. Qed.

Section PortMapping.
Variable w : World.
Import GdAndroidDevice.

Lemma emits_reboot self timeout_ms : emits is_device_side (reboot w self timeout_ms).
Proof.
  unfold reboot. emits_auto.
  - apply (emits_weaken is_poll); [apply poll_is_device_side | apply emits_reboot_loop].
  - apply (emits_weaken is_poll);
      [apply poll_is_device_side | apply emits_wait_for_boot_completion].
Qed.

(** [tcp_forward_or_die], one attempt unfolded. *)
Lemma run_tcp_forward_or_die self host_port device_port num_retry s :
  let sn := serial_number self in
  let call := adb_tcp_forward host_port device_port in
  let dt := Z.max 0 (adb_elapsed w (trace s) sn call) in
  tcp_forward_or_die w self host_port device_port num_retry s =
    match adb_reply w (trace s) sn call with
    | AdbRaise => (Raised AdbError, after s [Adb sn call AdbRaise] dt)
    | AdbOut v =>
        if negb (truthy v) then
          (Returned (PyInt host_port),
           after s [Adb sn call (AdbOut v); Logging DEBUG (AlreadyForwarded host_port)] dt)
        else if forward_error v then
          match num_retry with
          | S retries =>
              (reboot w self reboot_default_timeout_ms ;;
               tcp_forward_or_die w self host_port device_port retries)
                (after s [Adb sn call (AdbOut v);
                          Logging WARNING (ForwardRetry (label (android_base self))
                                             host_port device_port (Z.of_nat retries))] dt)
          | O =>
              (Raised (TestFailure (UnableForward host_port device_port)),
               after s [Adb sn call (AdbOut v)] dt)
          end
        else (Returned v, after s [Adb sn call (AdbOut v)] dt)
    end.
Proof.
  cbv zeta. destruct num_retry as [|retries]; cbn [tcp_forward_or_die].
  all: unfold bind at 1; rewrite run_adb; cbv zeta.
  all: destruct (adb_reply w (trace s) (serial_number self) _) as [v|]; [|reflexivity].
  all: unfold forward_error; destruct (truthy v); cbn [negb andb].
  all: try (rewrite (run_bind_returned _ _ _ _ _ (run_logging _ _ _)); unfold ret;
            now rewrite after_after, Z.add_0_r).
  all: destruct (isinstance_int v); cbn [negb]; try reflexivity.
  rewrite (run_bind_returned _ _ _ _ _ (run_logging _ _ _)).
  now rewrite after_after, Z.add_0_r.
Qed.

(** The retries of [tcp_forward_or_die] against its budget. *)
Lemma tcp_forward_or_die_budget self host_port device_port num_retry s :
  let res := tcp_forward_or_die w self host_port device_port num_retry s in
  let attempts := count (is_forward_attempt host_port device_port) in
  ends_in (fun e => reboot_error e || is_unable_forward host_port device_port e) res /\
  exists new,
    trace (final res) = (trace s ++ new)%list /\
    forallb is_device_side new = true /\
    (attempts new <= num_retry + 1)%nat /\
    (count is_reboot new <= num_retry)%nat /\
    (attempts new <= count is_reboot new + 1)%nat /\
    (forall e, outcome res = Raised e ->
               is_unable_forward host_port device_port e = true ->
               attempts new = (num_retry + 1)%nat /\ count is_reboot new = num_retry).
Proof.
  cbv zeta. revert s. induction num_retry as [|n IH]; intros s.
  all: rewrite run_tcp_forward_or_die; cbv zeta.
  all: destruct (adb_reply w (trace s) (serial_number self) _) as [v|].
  all: try destruct (truthy v); cbn [negb]; try destruct (forward_error v).
  all: try (split; [first [exact I | unfold ends_in; cbn; now rewrite ?Z.eqb_refl]|];
            eexists; split; [reflexivity|]; split; [reflexivity|];
            rewrite !count_cons, is_forward_attempt_refl; cbn;
            repeat split; try lia;
            match goal with
            | Ho : _ = Raised _ |- _ =>
                cbv [outcome fst] in Ho; try discriminate Ho; injection Ho as <-;
                try discriminate; lia
            end).
  set (s1 := after s _ _).
  pose proof (reboot_ends w self reboot_default_timeout_ms s1) as Re.
  destruct (reboot_trace w self reboot_default_timeout_ms s1) as (r & polls & Rt & Rp).
  unfold bind, ends_in, outcome, final in *.
  destruct (reboot w self reboot_default_timeout_ms s1) as [[[]|e|] s2];
    cbn [fst snd] in *; [| |contradiction].
  - destruct (IH s2) as (He & new & Ht & Hd & Ha & Hr & Har & Hex).
    split; [exact He|].
    rewrite Ht, Rt. unfold s1. cbn [after trace]. rewrite <- !app_assoc. cbn [app].
    eexists. split; [reflexivity|].
    rewrite !count_cons, !count_app, is_forward_attempt_refl.
    rewrite (polls_count _ polls (poll_not_forward _ _) Rp),
      (polls_count _ polls poll_not_reboot Rp).
    cbn [is_forward_attempt is_reboot is_device_side forallb andb].
    rewrite forallb_app, Hd.
    rewrite (proj2 (forallb_forall _ _)
               (fun a Ha' => poll_is_device_side a
                               (proj1 (forallb_forall _ _) Rp a Ha'))).
    repeat split; try lia.
    all: match goal with
         | Ho : fst _ = Raised ?e', Hu : is_unable_forward _ _ ?e' = true |- _ =>
             destruct (Hex e' Ho Hu); lia
         end.
  - split; [now rewrite Re|].
    rewrite Rt. unfold s1. cbn [after trace]. rewrite <- !app_assoc. cbn [app].
    eexists. split; [reflexivity|].
    rewrite !count_cons, is_forward_attempt_refl.
    rewrite (polls_count _ polls (poll_not_forward _ _) Rp),
      (polls_count _ polls poll_not_reboot Rp).
    cbn [is_forward_attempt is_reboot is_device_side forallb andb].
    rewrite (proj2 (forallb_forall _ _)
               (fun a Ha' => poll_is_device_side a
                               (proj1 (forallb_forall _ _) Rp a Ha'))).
    repeat split; try lia.
    all: match goal with
         | Ho : Raised _ = Raised ?e', Hu : is_unable_forward _ _ ?e' = true |- _ =>
             injection Ho as <-; rewrite (reboot_error_not_forward _ _ _ Re) in Hu;
             discriminate
         end.
Qed.

(** [tcp_reverse_or_die], one attempt unfolded. *)
Lemma run_tcp_reverse_or_die self device_port host_port num_retry s :
  let sn := serial_number self in
  let call := adb_reverse (reverse_args device_port host_port) in
  let dt := Z.max 0 (adb_elapsed w (trace s) sn call) in
  tcp_reverse_or_die w self device_port host_port num_retry s =
    match adb_reply w (trace s) sn call with
    | AdbRaise => (Raised AdbError, after s [Adb sn call AdbRaise] dt)
    | AdbOut v =>
        if negb (truthy v) then
          (Returned (PyInt device_port),
           after s [Adb sn call (AdbOut v); Logging DEBUG (AlreadyReversed device_port)] dt)
        else if reverse_error w v then
          match num_retry with
          | S retries =>
              (reboot w self reboot_default_timeout_ms ;;
               tcp_reverse_or_die w self device_port host_port retries)
                (after s [Adb sn call (AdbOut v);
                          Logging WARNING (ReverseRetry (label (android_base self))
                                             device_port host_port (Z.of_nat retries))] dt)
          | O =>
              (Raised (TestFailure (UnableReverse device_port host_port)),
               after s [Adb sn call (AdbOut v)] dt)
          end
        else
          match v with
          | PyInt z => (Returned (PyInt z), after s [Adb sn call (AdbOut v)] dt)
          | PyBool b =>
              (Returned (PyInt (if b then 1 else 0)), after s [Adb sn call (AdbOut v)] dt)
          | PyStr text =>
              match int_of_str w text with
              | Some z => (Returned (PyInt z), after s [Adb sn call (AdbOut v)] dt)
              | None => (Raised ValueError, after s [Adb sn call (AdbOut v)] dt)
              end
          | PyNone => (Raised TypeError, after s [Adb sn call (AdbOut v)] dt)
          end
    end.
Proof.
  cbv zeta. unfold reverse_args.
  destruct num_retry as [|retries]; cbn [tcp_reverse_or_die].
  all: unfold bind at 1; rewrite run_adb; cbv zeta.
  all: destruct (adb_reply w (trace s) (serial_number self) _) as [v|]; [|reflexivity].
  all: destruct v as [|b|z|text]; cbn [truthy negb reverse_error].
  all: try (rewrite (run_bind_returned _ _ _ _ _ (run_logging _ _ _)); unfold ret;
            now rewrite after_after, Z.add_0_r).
  all: try (destruct b; cbn [negb];
            [reflexivity
            |rewrite (run_bind_returned _ _ _ _ _ (run_logging _ _ _)); unfold ret;
             now rewrite after_after, Z.add_0_r]).
  all: try (destruct (z =? 0); cbn [negb];
            [rewrite (run_bind_returned _ _ _ _ _ (run_logging _ _ _)); unfold ret;
             now rewrite after_after, Z.add_0_r
            |reflexivity]).
  all: destruct (text =? EmptyString)%string; cbn [negb andb];
    [rewrite (run_bind_returned _ _ _ _ _ (run_logging _ _ _)); unfold ret;
     now rewrite after_after, Z.add_0_r|].
  all: destruct (int_of_str w text) as [z|] eqn:Ei.
  all: try (erewrite run_try_returned;
            [reflexivity | unfold bind, py_int; rewrite Ei; reflexivity]).
  all: erewrite run_try_handled;
    [| unfold bind, py_int; rewrite Ei; reflexivity | reflexivity].
  - reflexivity.
  - rewrite (run_bind_returned _ _ _ _ _ (run_logging _ _ _)).
    now rewrite after_after, Z.add_0_r.
Qed.

(** The retries of [tcp_reverse_or_die] against its budget. *)
Lemma tcp_reverse_or_die_budget self device_port host_port num_retry s :
  let res := tcp_reverse_or_die w self device_port host_port num_retry s in
  let attempts := count (is_reverse_attempt (reverse_args device_port host_port)) in
  ends_in (fun e => reboot_error e || is_unable_reverse device_port host_port e) res /\
  exists new,
    trace (final res) = (trace s ++ new)%list /\
    forallb is_device_side new = true /\
    (attempts new <= num_retry + 1)%nat /\
    (count is_reboot new <= num_retry)%nat /\
    (attempts new <= count is_reboot new + 1)%nat /\
    (forall e, outcome res = Raised e ->
               is_unable_reverse device_port host_port e = true ->
               attempts new = (num_retry + 1)%nat /\ count is_reboot new = num_retry).
Proof.
  cbv zeta. revert s. induction num_retry as [|n IH]; intros s.
  all: rewrite run_tcp_reverse_or_die; cbv zeta.
  all: destruct (adb_reply w (trace s) (serial_number self) _) as [v|].
  all: try destruct (truthy v) eqn:Tv; cbn [negb]; try destruct (reverse_error w v) eqn:Rv.
  all: try (destruct v as [|b|z|text]; try discriminate;
            try (cbn in Rv; rewrite ?Tv in Rv; cbn in Rv;
                 cbn in Tv; rewrite ?Tv in Rv; cbn in Rv);
            try destruct (int_of_str w text); try discriminate).
  all: try (split; [first [exact I | unfold ends_in; cbn; now rewrite ?Z.eqb_refl]|];
            eexists; split; [reflexivity|]; split; [reflexivity|];
            rewrite !count_cons, is_reverse_attempt_refl; cbn;
            repeat split; try lia;
            match goal with
            | Ho : _ = Raised _ |- _ =>
                cbv [outcome fst] in Ho; try discriminate Ho; injection Ho as <-;
                try discriminate; lia
            end).
  set (s1 := after s _ _).
  pose proof (reboot_ends w self reboot_default_timeout_ms s1) as Re.
  destruct (reboot_trace w self reboot_default_timeout_ms s1) as (r & polls & Rt & Rp).
  unfold bind, ends_in, outcome, final in *.
  destruct (reboot w self reboot_default_timeout_ms s1) as [[[]|e|] s2];
    cbn [fst snd] in *; [| |contradiction].
  - destruct (IH s2) as (He & new & Ht & Hd & Ha & Hr & Har & Hex).
    split; [exact He|].
    rewrite Ht, Rt. unfold s1. cbn [after trace]. rewrite <- !app_assoc. cbn [app].
    eexists. split; [reflexivity|].
    rewrite !count_cons, !count_app, is_reverse_attempt_refl.
    rewrite (polls_count _ polls (poll_not_reverse _) Rp),
      (polls_count _ polls poll_not_reboot Rp).
    cbn [is_reverse_attempt is_reboot is_device_side forallb andb].
    rewrite forallb_app, Hd.
    rewrite (proj2 (forallb_forall _ _)
               (fun a Ha' => poll_is_device_side a
                               (proj1 (forallb_forall _ _) Rp a Ha'))).
    repeat split; try lia.
    all: match goal with
         | Ho : fst _ = Raised ?e', Hu : is_unable_reverse _ _ ?e' = true |- _ =>
             destruct (Hex e' Ho Hu); lia
         end.
  - split; [now rewrite Re|].
    rewrite Rt. unfold s1. cbn [after trace]. rewrite <- !app_assoc. cbn [app].
    eexists. split; [reflexivity|].
    rewrite !count_cons, is_reverse_attempt_refl.
    rewrite (polls_count _ polls (poll_not_reverse _) Rp),
      (polls_count _ polls poll_not_reboot Rp).
    cbn [is_reverse_attempt is_reboot is_device_side forallb andb].
    rewrite (proj2 (forallb_forall _ _)
               (fun a Ha' => poll_is_device_side a
                               (proj1 (forallb_forall _ _) Rp a Ha'))).
    repeat split; try lia.
    all: match goal with
         | Ho : Raised _ = Raised ?e', Hu : is_unable_reverse _ _ ?e' = true |- _ =>
             injection Ho as <-; rewrite (reboot_error_not_reverse _ _ _ Re) in Hu;
             discriminate
         end.
Qed.
End PortMapping.

(** ** Setup: which ports are checked, and what precedes the spawn *)

Lemma ports_checked_app a b :
  ports_checked (a ++ b) = (ports_checked a ++ ports_checked b)%list.
Proof.
  induction a as [|x a IH]; [reflexivity|].
  destruct x; cbn; rewrite ?IH, <- ?app_assoc; reflexivity.
Qed.

Lemma device_side_ports_checked l :
  forallb is_device_side l = true -> ports_checked l = [].
Proof.
  induction l as [|x l IH]; [reflexivity|]. cbn. intros H.
  apply andb_prop in H as [Hx Hl]. destruct x; try discriminate; cbn; auto.
Qed.


Lemma device_side_before_spawn l rest :
  forallb is_device_side l = true ->
  before is_spawn (l ++ rest) = (l ++ before is_spawn rest)%list /\
  existsb is_spawn (l ++ rest) = existsb is_spawn rest.
Proof.
  induction l as [|x l IH]; [now split|]. cbn. intros H.
  apply andb_prop in H as [Hx Hl]. destruct (IH Hl) as [IH1 IH2].
  destruct x; try discriminate; cbn; rewrite IH1; auto.
Qed.

Lemma device_side_checks_passed l rest :
  forallb is_device_side l = true ->
  checks_passed (l ++ rest) = checks_passed rest.
Proof.
  unfold checks_passed. induction l as [|x l IH]; [reflexivity|]. cbn. intros H.
  apply andb_prop in H as [Hx Hl]. destruct x; try discriminate; cbn; auto.
Qed.

(** The base class's setup: the signal port is the one port it checks;
    a spawn is preceded by that check, passed, and the bind; setup ends
    with one of four errors if it ends with one. *)
Lemma base_setup_gate w self s :
  let res := GdDeviceBase.setup w self s in
  exists new,
    trace (final res) = (trace s ++ new)%list /\
    ports_checked new = [signal_port self] /\
    (existsb is_spawn new = true ->
     before is_spawn new =
       [MakePortsAvailable [signal_port self] true;
        SocketBindListen (signal_port self) true]) /\
    forallb is_base_setup new = true /\
    (forall e, outcome res = Raised e -> base_setup_error e = true).
Proof.
  cbv zeta. destruct s as [h c]. unfold GdDeviceBase.setup. exec.
  destruct (ports_available w h [signal_port self]).
  2: { eexists. split; [reflexivity|]. cbn. repeat split; try discriminate.
       now intros e [= <-]. }
  destruct (port_in_range (signal_port self)).
  2: { eexists. rewrite <- ?app_assoc. split; [reflexivity|]. cbn.
       repeat split; try discriminate. now intros e [= <-]. }
  destruct (bind_ok w _).
  2: { eexists. rewrite <- ?app_assoc. split; [reflexivity|]. cbn.
       repeat split; try discriminate. now intros e [= <-]. }
  destruct (spawn_ok w _).
  2: { eexists. rewrite <- ?app_assoc. split; [reflexivity|]. cbn.
       repeat split; try discriminate. now intros e [= <-]. }
  destruct (subprocess_alive w _).
  2: { eexists. rewrite <- ?app_assoc. split; [reflexivity|]. cbn.
       repeat split; try discriminate. now intros e [= <-]. }
  destruct (connect_after w _) as [d|]; cbn [option_map wait_for].
  all: eexists; rewrite <- ?app_assoc; (split; [reflexivity|]); cbn;
    repeat split; discriminate.
Qed.

Section AndroidSetup.
Variable w : World.
Import GdAndroidDevice.

Lemma emits_ensure_verity_disabled self :
  emits is_device_side (ensure_verity_disabled w self).
Proof. unfold ensure_verity_disabled. emits_auto. apply emits_reboot. Qed.

Lemma emits_push_or_die self src dst t :
  emits is_device_side (push_or_die w self src dst t).
Proof. unfold push_or_die. emits_auto. apply emits_ensure_verity_disabled. Qed.

Lemma emits_ensure_no_output v : emits is_device_side (ensure_no_output v).
Proof. unfold ensure_no_output. emits_auto. Qed.

Lemma emits_tcp_forward_or_die self h d n :
  emits is_device_side (tcp_forward_or_die w self h d n).
Proof.
  intros s. destruct (tcp_forward_or_die_budget w self h d n s) as (_ & new & E & F & _).
  now exists new.
Qed.

Lemma emits_tcp_reverse_or_die self d h n :
  emits is_device_side (tcp_reverse_or_die w self d h n).
Proof.
  intros s. destruct (tcp_reverse_or_die_budget w self d h n s) as (_ & new & E & F & _).
  now exists new.
Qed.

Lemma emits_setup_on_device self : emits is_device_side (setup_on_device w self).
Proof.
  unfold setup_on_device. cbv zeta.
  repeat first
    [ apply emits_ensure_verity_disabled | apply emits_push_or_die
    | apply emits_ensure_no_output | apply emits_tcp_forward_or_die
    | apply emits_tcp_reverse_or_die | emits_step ].
Qed.

(** [GdAndroidDevice.setup]: what was done on the device, then the base
    class's setup if the device side returned. *)
Lemma android_setup_parts self s :
  let res := setup w self s in
  exists device_side,
    forallb is_device_side device_side = true /\
    ((trace (final res) = (trace s ++ device_side)%list /\
      returned (setup_on_device w self s) = false /\
      forall e, outcome res = Raised e -> outcome (setup_on_device w self s) = Raised e) \/
     (exists s1 base,
        setup_on_device w self s = (Returned tt, s1) /\
        trace s1 = (trace s ++ device_side)%list /\
        trace (final (GdDeviceBase.setup w (android_base self) s1)) = (trace s1 ++ base)%list /\
        trace (final res) = (trace s ++ device_side ++ base)%list /\
        (forall e, outcome res = Raised e ->
                   outcome (GdDeviceBase.setup w (android_base self) s1) = Raised e))).
Proof.
  cbv zeta. destruct (emits_setup_on_device self s) as (ds & E & F).
  exists ds. split; [exact F|]. unfold setup, bind, ret, final, outcome, returned in *.
  destruct (setup_on_device w self s) as [[[]|e|] s1]; cbn [fst snd] in *.
  { right. destruct (base_setup_gate w (android_base self) s1) as (base & Eb & _).
    exists s1, base. split; [reflexivity|]. split; [exact E|].
    unfold final in Eb. split; [exact Eb|].
    destruct (GdDeviceBase.setup w (android_base self) s1) as [[b|e|] s2]; cbn [fst snd] in *.
    all: rewrite Eb, E, <- app_assoc; split; [reflexivity|]; try discriminate.
    all: try (now intros e0 [= <-]). }
  { left. split; [exact E|]. split; [reflexivity|]. now intros e0 [= <-]. }
  { left. split; [exact E|]. split; [reflexivity|]. discriminate. }
Qed.
End AndroidSetup.

(** ** Which exceptions programs end with *)

Section Raises.
Variable E : Exn -> bool.










End Raises.




Section AndroidRaises.
Variable w : World.
Import GdAndroidDevice.




End AndroidRaises.


Section MappingFailure.
Variable w : World.
Import GdAndroidDevice.




End MappingFailure.

(** ** Setup: the ports gated before the spawn *)

(** C7.  Before it spawns the backing process, the host-only setup has
    checked the availability of the main and the root-server gRPC ports and
    of the signal port, and found all available; the setup of an Android
    device has checked the signal port alone, in one call of
    make_ports_available, and it checks no other port in any run. *)
Theorem ports_gated_before_spawn (w : World) :
  (forall (self : HostOnlyDevice) (s : Sys),
     let b := host_base self in
     let res := GdHostOnlyDevice.setup w self s in
     exists new,
       trace (final res) = (trace s ++ new)%list /\
       (ports_checked new = [grpc_port b; grpc_root_server_port b] \/
        ports_checked new = [grpc_port b; grpc_root_server_port b; signal_port b]) /\
       (existsb is_spawn new = true ->
        ports_checked (before is_spawn new) =
          [grpc_port b; grpc_root_server_port b; signal_port b] /\
        checks_passed (before is_spawn new) = true)) /\
  (forall (self : AndroidDevice) (s : Sys),
     let b := android_base self in
     let res := GdAndroidDevice.setup w self s in
     exists new,
       trace (final res) = (trace s ++ new)%list /\
       (ports_checked new = [] \/ ports_checked new = [signal_port b]) /\
       (existsb is_spawn new = true ->
        ports_checked (before is_spawn new) = [signal_port b] /\
        checks_passed (before is_spawn new) = true)).
Proof.
  split.
  - intros self s. cbv zeta. unfold GdHostOnlyDevice.setup.
    unfold bind at 1. unfold make_ports_available.
    unfold bind at 1. unfold history at 1.
    rewrite (run_bind_returned _ _ _ _ _ (run_do _ s)). cbn [ret].
    destruct (ports_available w (trace s) _).
    2: { eexists. cbn. split; [reflexivity|]. split; [now left|discriminate]. }
    unfold bind at 1. cbn [assert_true ret].
    set (s1 := after s _ 0).
    destruct (base_setup_gate w (host_base self) s1) as (base & Eb & Pb & Sb & _).
    unfold bind, final in *.
    destruct (GdDeviceBase.setup w (host_base self) s1) as [[b|e|] s2]; cbn [fst snd ret] in *.
    all: rewrite Eb; unfold s1; cbn [after trace]; rewrite <- app_assoc; cbn [app].
    all: eexists; split; [reflexivity|].
    all: cbn [ports_checked existsb is_spawn before orb app]; rewrite Pb.
    all: split; [now right|]; intros Hs; rewrite (Sb Hs); split; reflexivity.
  - intros self s. cbv zeta.
    destruct (android_setup_parts w self s)
      as (ds & Fd & [(Et & _ & _)|(s1 & base & _ & E1 & Eb & Et & _)]).
    + exists ds. split; [exact Et|]. split.
      * left. now apply device_side_ports_checked.
      * intros Hs. rewrite <- (app_nil_r ds) in Hs.
        rewrite (proj2 (device_side_before_spawn ds [] Fd)) in Hs. discriminate.
    + destruct (base_setup_gate w (android_base self) s1) as (base' & Eb' & Pb & Sb & _).
      rewrite Eb in Eb'. apply app_inv_head in Eb'. subst base'.
      exists (ds ++ base)%list. split; [exact Et|]. split.
      * right. now rewrite ports_checked_app, (device_side_ports_checked ds Fd), Pb.
      * intros Hs. destruct (device_side_before_spawn ds base Fd) as [Hb He].
        rewrite He in Hs. rewrite Hb, (Sb Hs).
        rewrite ports_checked_app, (device_side_ports_checked ds Fd).
        rewrite device_side_checks_passed by exact Fd. split; reflexivity.
Qed.

(** The ports gated on the sample devices in a calm environment. *)
Lemma ports_gated_before_spawn_witness :
  existsb is_spawn (trace (final (GdHostOnlyDevice.setup calm sample_host_only sys0))) = true /\
  ports_checked
    (before is_spawn (trace (final (GdHostOnlyDevice.setup calm sample_host_only sys0)))) =
    [8899; 8898; 8895] /\
  existsb is_spawn (trace (final (GdAndroidDevice.setup calm sample_android sys0))) = true /\
  ports_checked
    (before is_spawn (trace (final (GdAndroidDevice.setup calm sample_android sys0)))) =
    [8895].
Proof.
  destruct (ports_gated_before_spawn calm) as [Hh Ha].
  destruct (Hh sample_host_only sys0) as (nh & Eh & _ & Gh).
  destruct (Ha sample_android sys0) as (na & Ea & _ & Ga).
  cbn [sys0 trace app] in Eh, Ea. rewrite Eh, Ea.
  assert (Sh : existsb is_spawn nh = true) by (rewrite <- Eh; vm_compute; reflexivity).
  assert (Sa : existsb is_spawn na = true) by (rewrite <- Ea; vm_compute; reflexivity).
  split; [exact Sh|]. split; [exact (proj1 (Gh Sh))|].
  split; [exact Sa|]. exact (proj1 (Ga Sa)).
Defined.

(** ** Setup: port mappings, their retries and their budget *)



(** ** create: the checks of its argument *)

(** C9.  [create] raises "Configuration is empty" for an empty list, and
    an exception for every value that is not a list ("Configuration should
    be a list", or "Configuration is empty" when the value is falsy); in
    both cases nothing has been done, no device was constructed or set up.
    Only a non-empty list reaches get_instances_with_configs. *)
Theorem create_rejects_invalid (w : World) (s : Sys) :
  create w (ConfigList []) s = (Raised (Exception "Configuration is empty"), s) /\
  (forall v,
     create w (NotAList v) s =
       (Raised (Exception (if truthy v then "Configuration should be a list"
                           else "Configuration is empty")), s)) /\
  (forall config rest,
     create w (ConfigList (config :: rest)) s =
       get_instances_with_configs w (config :: rest) s).
Proof.
  split; [reflexivity|]. split; [|reflexivity].
  intros v. unfold create. cbn [configs_truthy isinstance_list negb].
  destruct (truthy v); reflexivity.
Qed.

(** ** The logging loop: what is in the log file, and when *)

Lemma append_assoc (a b c : string) : ((a ++ b) ++ c = a ++ (b ++ c))%string.
Proof. induction a as [|x a IH]; cbn; [reflexivity | now rewrite IH]. Qed.

Lemma append_nil_r (a : string) : (a ++ EmptyString = a)%string.
Proof. induction a as [|x a IH]; cbn; [reflexivity | now rewrite IH]. Qed.

Lemma take_drop n (a : string) : (take n a ++ drop n a = a)%string.
Proof.
  revert a. induction n as [|n IH]; intros [|x a]; cbn; try reflexivity. now rewrite IH.
Qed.

Lemma concat_cons (x : string) (l : list string) :
  String.concat EmptyString (x :: l) = (x ++ String.concat EmptyString l)%string.
Proof. destruct l; cbn; [now rewrite append_nil_r | reflexivity]. Qed.

Section LoggingLoopProperties.
Variable written_through : string -> nat.
Variable strip : string -> string.
Variable color_text : TerminalColor -> string.
Variable color_end : string.

(** What one round of the loop does to the log file. *)
Lemma logging_loop_body_file self st line :
  let st' := logging_loop_body written_through strip color_text color_end self st line in
  (on_disk (backing_process_log st') ++ pending (backing_process_log st') =
     (on_disk (backing_process_log st) ++ pending (backing_process_log st)) ++ line)%string /\
  (exists more,
     on_disk (backing_process_log st') = (on_disk (backing_process_log st) ++ more)%string) /\
  is_open (backing_process_log st') = is_open (backing_process_log st).
Proof.
  cbv zeta. unfold logging_loop_body. destruct (verbose_mode self); cbn.
  all: rewrite !append_assoc, take_drop; repeat split; eauto.
Qed.

(** What the rounds over [lines] do to the log file. *)
Lemma logging_loop_rounds self lines st :
  let st' :=
    fold_left (logging_loop_body written_through strip color_text color_end self) lines st in
  (on_disk (backing_process_log st') ++ pending (backing_process_log st') =
     (on_disk (backing_process_log st) ++ pending (backing_process_log st)) ++
     String.concat EmptyString lines)%string /\
  (exists more,
     on_disk (backing_process_log st') = (on_disk (backing_process_log st) ++ more)%string) /\
  is_open (backing_process_log st') = is_open (backing_process_log st).
Proof.
  cbv zeta. revert st. induction lines as [|line lines IH]; intros st.
  - cbn. rewrite append_nil_r. repeat split. exists EmptyString. now rewrite append_nil_r.
  - cbn [fold_left].
    destruct (logging_loop_body_file self st line) as (B1 & (m1 & B2) & B3).
    destruct (IH (logging_loop_body written_through strip color_text color_end self st line))
      as (I1 & (m2 & I2) & I3).
    rewrite I1, B1, concat_cons, I2, B2, I3, B3, !append_assoc.
    repeat split. now exists (m1 ++ m2)%string.
Qed.
End LoggingLoopProperties.

(** C2, amended.  The loop writes every line it reads to the log file
    object, in the order received, and does not flush: at any point of the
    loop the content of the file followed by the text still in the buffer
    is the concatenation of the lines read so far, and what is in the file
    stays there as more lines are read.  When the stream ends, the [with]
    block closes the file, and the file holds exactly the lines read, in
    order. *)
Theorem logging_loop_log_file (written_through : string -> nat) (strip : string -> string)
    (color_text : TerminalColor -> string) (color_end : string)
    (self : Device) (lines more_lines : list string) :
  let reading := logging_loop_reading written_through strip color_text color_end self in
  let ended := backing_process_logging_loop written_through strip color_text color_end self in
  (on_disk (backing_process_log (reading lines)) ++
   pending (backing_process_log (reading lines)) = String.concat EmptyString lines)%string /\
  is_open (backing_process_log (reading lines)) = true /\
  (exists more,
     on_disk (backing_process_log (reading (lines ++ more_lines)%list)) =
       (on_disk (backing_process_log (reading lines)) ++ more)%string) /\
  on_disk (backing_process_log (ended lines)) = String.concat EmptyString lines /\
  pending (backing_process_log (ended lines)) = EmptyString /\
  is_open (backing_process_log (ended lines)) = false.
Proof.
  cbv zeta. unfold backing_process_logging_loop, logging_loop_reading.
  destruct (logging_loop_rounds written_through strip color_text color_end self lines
              {| backing_process_log := open_w; terminal := [] |}) as (R1 & _ & R3).
  cbn in R1, R3. split; [exact R1|]. split; [exact R3|]. split.
  - rewrite fold_left_app.
    destruct (logging_loop_rounds written_through strip color_text color_end self more_lines
                (fold_left (logging_loop_body written_through strip color_text color_end self)
                   lines {| backing_process_log := open_w; terminal := [] |}))
      as (_ & Hm & _). exact Hm.
  - cbn. auto.
Qed.

(** C2, as the code behaves.  After the loop has read one line of a
    stream that has not ended, the line is in the buffer of the file object
    and the log file is still empty (a regular file is fully buffered). *)
Lemma logging_loop_keeps_line_in_buffer :
  let line := ("GD stack started" ++ newline)%string in
  let st := logging_loop_reading full_buffering (fun text => text) (fun _ => EmptyString)
              EmptyString sample_device [line] in
  on_disk (backing_process_log st) = EmptyString /\
  pending (backing_process_log st) = line /\
  on_disk (backing_process_log st) <> line.
Proof. vm_compute. repeat split. discriminate. Qed.

(** ** replace_vars: what is substituted, and what is left alone *)

Lemma contains_cons pat c s :
  contains pat (String c s) = false -> contains pat s = false.
Proof. cbn [contains]. intros H. now apply orb_false_elim in H as [_ H]. Qed.

Lemma prefix_nil s : String.prefix EmptyString s = true.
Proof. now destruct s. Qed.

Lemma prefix_cons a s1 b s2 :
  String.prefix (String a s1) (String b s2) =
    if ascii_dec a b then String.prefix s1 s2 else false.
Proof. reflexivity. Qed.

Lemma contains_dollar_head c s :
  contains "$" (String c s) = false -> c <> "$"%char.
Proof.
  cbn [contains]. intros H. apply orb_false_elim in H as [H _].
  rewrite prefix_cons in H. destruct (ascii_dec "$" c) as [e|n]; [|congruence].
  now rewrite prefix_nil in H.
Qed.

Lemma prefix_dollar_false old c s :
  c <> "$"%char -> String.prefix (String "$" old) (String c s) = false.
Proof. intros n. rewrite prefix_cons. destruct (ascii_dec "$" c); [congruence | reflexivity]. Qed.

Lemma contains_dollar_app a b :
  contains "$" a = false -> contains "$" b = false -> contains "$" (a ++ b) = false.
Proof.
  intros Ha Hb. induction a as [|c a IH]; [exact Hb|].
  assert (n := contains_dollar_head _ _ Ha). apply contains_cons in Ha.
  change (contains "$" (String c (a ++ b)) = false). cbn [contains].
  rewrite (IH Ha), orb_false_r. now apply prefix_dollar_false.
Qed.

(** A text without a dollar sign holds no variable: [replace] leaves it. *)
Lemma str_replace_absent old new s :
  contains "$" s = false -> str_replace s (String "$" old) new = s.
Proof.
  unfold str_replace. induction s as [|c s IH]; intros H; [reflexivity|].
  assert (n := contains_dollar_head _ _ H). apply contains_cons in H.
  cbn [replace_from]. rewrite (prefix_dollar_false old c s n). now rewrite (IH H).
Qed.

Lemma prefix_app a b : String.prefix a (a ++ b) = true.
Proof.
  induction a as [|c a IH]; [apply prefix_nil|].
  change (String c a ++ b)%string with (String c (a ++ b)).
  rewrite prefix_cons. destruct (ascii_dec c c); [exact IH | congruence].
Qed.

Lemma replace_from_skip x old new s :
  replace_from (String.length x) old new (x ++ s) = replace_from 0 old new s.
Proof. induction x as [|c x IH]; [reflexivity | exact IH]. Qed.

(** The occurrence of the variable in a text that has no other dollar sign
    is replaced by the value. *)
Lemma str_replace_here pre old new post :
  contains "$" pre = false -> contains "$" post = false ->
  str_replace (pre ++ String "$" old ++ post) (String "$" old) new = (pre ++ new ++ post)%string.
Proof.
  intros Hpre Hpost. unfold str_replace. induction pre as [|c pre IH].
  - change (replace_from 0 (String "$" old) new (String "$" (old ++ post)) = (new ++ post)%string).
    cbn [replace_from].
    change (String "$" (old ++ post)) with (String "$" old ++ post)%string.
    rewrite prefix_app. cbn [String.length Nat.sub]. rewrite Nat.sub_0_r, replace_from_skip.
    now rewrite (str_replace_absent old new post Hpost : replace_from 0 _ _ _ = _).
  - assert (n := contains_dollar_head _ _ Hpre). apply contains_cons in Hpre.
    change (replace_from 0 (String "$" old) new (String c (pre ++ String "$" old ++ post)) =
            String c (pre ++ new ++ post)).
    cbn [replace_from]. rewrite (prefix_dollar_false old c _ n). now rewrite (IH Hpre).
Qed.

(** Another variable does not match there. *)
Lemma str_replace_other pre var other new post :
  contains "$" pre = false -> contains "$" (var ++ post) = false ->
  String.prefix (String "$" other) (String "$" (var ++ post)) = false ->
  str_replace (pre ++ String "$" var ++ post) (String "$" other) new =
    (pre ++ String "$" var ++ post)%string.
Proof.
  intros Hpre Hrest Hp. unfold str_replace. induction pre as [|c pre IH].
  - change (replace_from 0 (String "$" other) new (String "$" (var ++ post)) =
            String "$" (var ++ post)).
    cbn [replace_from]. rewrite Hp.
    now rewrite (str_replace_absent other new _ Hrest : replace_from 0 _ _ _ = _).
  - assert (n := contains_dollar_head _ _ Hpre). apply contains_cons in Hpre.
    change (replace_from 0 (String "$" other) new (String c (pre ++ String "$" var ++ post)) =
            String c (pre ++ String "$" var ++ post)).
    cbn [replace_from]. rewrite (prefix_dollar_false other c _ n). now rewrite (IH Hpre).
Qed.

Lemma contains_dollar_cons c s :
  c <> "$"%char -> contains "$" (String c s) = contains "$" s.
Proof. intros n. cbn [contains]. now rewrite (prefix_dollar_false EmptyString c s n). Qed.

Ltac dollar_free :=
  cbn [append];
  repeat (rewrite contains_dollar_cons by discriminate);
  repeat apply contains_dollar_app; assumption.

Ltac prefix_false :=
  cbn [append];
  repeat (rewrite prefix_cons;
          let e := fresh "e" in
          destruct (ascii_dec _ _) as [e|e]; [try discriminate e | reflexivity]).

Ltac absent_rest :=
  match goal with
  | |- context [str_replace (?a ++ ?v ++ ?b) _ _] =>
      rewrite !(str_replace_absent _ _ (a ++ v ++ b)) by dollar_free
  end; reflexivity.

Lemma placeholder_serial_false config :
  placeholder_serial config = false ->
  let serial := match cfg_serial_number config with Some x => x | None => EmptyString end in
  (serial =? "DUT")%string || (serial =? "CERT")%string = false.
Proof. unfold placeholder_serial. now destruct (cfg_serial_number config). Qed.

(** X1.  In an argument that holds one variable and no other dollar sign,
    [replace_vars] puts the value of that variable in its place and changes
    nothing else, for each of the six variables; this needs a serial number
    that is not a placeholder, the three ports present, and values without
    a dollar sign (a value is scanned by the replacements that follow). *)
Theorem replace_vars_substitutes (w : World) (config : Config) (s : Sys)
    (var value pre post : string) :
  placeholder_serial config = false ->
  (forall x v, In (x, v) (variables w config) ->
               exists text, v = Some text /\ contains "$" text = false) ->
  In (var, Some value) (variables w config) ->
  contains "$" pre = false ->
  contains "$" post = false ->
  replace_vars w (pre ++ var ++ post) config s = (Returned (pre ++ value ++ post)%string, s).
Proof.
  intros Hph Hall Hin Hpre Hpost.
  assert (Hser := placeholder_serial_false config Hph). cbv zeta in Hser.
  unfold variables in Hall, Hin.
  destruct (Hall _ _ (or_introl eq_refl)) as (t0 & [= <-] & D0).
  destruct (Hall _ _ (or_intror (or_introl eq_refl))) as (t1 & E1 & D1).
  destruct (Hall _ _ (or_intror (or_intror (or_introl eq_refl)))) as (t2 & E2 & D2).
  destruct (Hall _ _ (or_intror (or_intror (or_intror (or_introl eq_refl)))))
    as (t3 & [= <-] & D3).
  destruct (Hall _ _ (or_intror (or_intror (or_intror (or_intror (or_introl eq_refl))))))
    as (t4 & E4 & D4).
  destruct (Hall _ _ (or_intror (or_intror (or_intror (or_intror
              (or_intror (or_introl eq_refl))))))) as (t5 & [= <-] & D5).
  unfold replace_vars. rewrite Hser, E1, E2, E4 in *. unfold replace_with, bind, ret.
  destruct Hin as [H|[H|[H|[H|[H|[H|[]]]]]]]; injection H as <- <-.
  - rewrite str_replace_here by assumption.
    absent_rest.
  - rewrite (str_replace_other pre _ "GD_ROOT") by first [dollar_free | prefix_false].
    rewrite str_replace_here by assumption.
    absent_rest.
  - rewrite (str_replace_other pre _ "GD_ROOT") by first [dollar_free | prefix_false].
    rewrite (str_replace_other pre _ "(grpc_port)") by first [dollar_free | prefix_false].
    rewrite str_replace_here by assumption.
    absent_rest.
  - rewrite (str_replace_other pre _ "GD_ROOT") by first [dollar_free | prefix_false].
    rewrite (str_replace_other pre _ "(grpc_port)") by first [dollar_free | prefix_false].
    rewrite (str_replace_other pre _ "(grpc_root_server_port)")
      by first [dollar_free | prefix_false].
    rewrite str_replace_here by assumption.
    absent_rest.
  - rewrite (str_replace_other pre _ "GD_ROOT") by first [dollar_free | prefix_false].
    rewrite (str_replace_other pre _ "(grpc_port)") by first [dollar_free | prefix_false].
    rewrite (str_replace_other pre _ "(grpc_root_server_port)")
      by first [dollar_free | prefix_false].
    rewrite (str_replace_other pre _ "(rootcanal_port)") by first [dollar_free | prefix_false].
    rewrite str_replace_here by assumption.
    absent_rest.
  - rewrite (str_replace_other pre _ "GD_ROOT") by first [dollar_free | prefix_false].
    rewrite (str_replace_other pre _ "(grpc_port)") by first [dollar_free | prefix_false].
    rewrite (str_replace_other pre _ "(grpc_root_server_port)")
      by first [dollar_free | prefix_false].
    rewrite (str_replace_other pre _ "(rootcanal_port)") by first [dollar_free | prefix_false].
    rewrite (str_replace_other pre _ "(signal_port)") by first [dollar_free | prefix_false].
    rewrite str_replace_here by assumption. reflexivity.
Qed.

(** The variable of the port, in the argument that hands it to the
    backing process. *)
Lemma replace_vars_substitutes_witness :
  placeholder_serial sample_config = false /\
  In ("$(grpc_port)", Some "8899") (variables calm sample_config) /\
  replace_vars calm "--grpc-port=$(grpc_port)" sample_config sys0 =
    (Returned "--grpc-port=8899", sys0).
Proof.
  split; [reflexivity|]. split; [simpl; auto|].
  apply (replace_vars_substitutes calm sample_config sys0 "$(grpc_port)" "8899"
           "--grpc-port=" EmptyString).
  - reflexivity.
  - intros x v H. simpl in H.
    repeat (destruct H as [H|H]; [injection H as <- <-; eexists; split; reflexivity|]).
    destruct H.
  - simpl. auto.
  - reflexivity.
  - reflexivity.
Defined.

(** X2.  The errors of [replace_vars], and the text it leaves alone.  A
    serial number "DUT" or "CERT" raises "Did you forget to configure the
    serial number?" before anything is looked at.  Otherwise an entry
    without "grpc_port", "grpc_root_server_port" or "signal_port" raises
    TypeError for every argument, also for one that names no variable; the
    serial number and the rootcanal port may be absent.  With the three
    ports present, an argument without a dollar sign comes back as it is. *)
Theorem replace_vars_errors (w : World) (config : Config) (s : Sys) (text : string) :
  (placeholder_serial config = true ->
   replace_vars w text config s =
     (Raised (Exception "Did you forget to configure the serial number?"), s)) /\
  (placeholder_serial config = false ->
   cfg_grpc_port config = None \/ cfg_grpc_root_server_port config = None \/
   cfg_signal_port config = None ->
   replace_vars w text config s = (Raised TypeError, s)) /\
  (placeholder_serial config = false ->
   cfg_grpc_port config <> None -> cfg_grpc_root_server_port config <> None ->
   cfg_signal_port config <> None ->
   contains "$" text = false ->
   replace_vars w text config s = (Returned text, s)).
Proof.
  split; [|split].
  - unfold placeholder_serial, replace_vars. destruct (cfg_serial_number config) as [x|].
    + now intros ->.
    + discriminate.
  - intros Hph Hmiss. unfold replace_vars.
    rewrite (placeholder_serial_false config Hph). unfold replace_with, bind, ret, raise.
    destruct (cfg_grpc_port config); [|reflexivity].
    destruct (cfg_grpc_root_server_port config); [|reflexivity].
    destruct (cfg_signal_port config); [|reflexivity].
    destruct Hmiss as [H|[H|H]]; discriminate H.
  - intros Hph H1 H2 H3 Htext. unfold replace_vars.
    rewrite (placeholder_serial_false config Hph). unfold replace_with, bind, ret.
    destruct (cfg_grpc_port config); [|congruence].
    destruct (cfg_grpc_root_server_port config); [|congruence].
    destruct (cfg_signal_port config); [|congruence].
    now rewrite !(str_replace_absent _ _ text Htext).
Qed.

(** An entry whose serial number is still the placeholder, an entry without
    its grpc port, and an argument that names no variable. *)
Lemma replace_vars_errors_witness :
  replace_vars calm "--grpc-port=$(grpc_port)"
    (with_serial_number sample_config (Some "DUT")) sys0 =
    (Raised (Exception "Did you forget to configure the serial number?"), sys0) /\
  replace_vars calm "-v" (without_grpc_port sample_config) sys0 = (Raised TypeError, sys0) /\
  replace_vars calm "-v" sample_config sys0 = (Returned "-v", sys0).
Proof.
  split; [|split].
  - apply (proj1 (replace_vars_errors calm (with_serial_number sample_config (Some "DUT"))
                    sys0 "--grpc-port=$(grpc_port)")). reflexivity.
  - apply (proj1 (proj2 (replace_vars_errors calm (without_grpc_port sample_config)
                           sys0 "-v"))); [reflexivity | left; reflexivity].
  - apply (proj2 (proj2 (replace_vars_errors calm sample_config sys0 "-v")));
      [reflexivity | discriminate | discriminate | discriminate | reflexivity].
Defined.

(** ** setup of the base class: every way it ends *)

(** What [setup] does, by what the environment answers. *)
Lemma run_setup w self s :
  GdDeviceBase.setup w self s =
    if negb (ports_available w (trace s) [signal_port self]) then
      (Raised (TestFailure SignalPortUnavailable),
       after s [MakePortsAvailable [signal_port self] false] 0)
    else if negb (port_in_range (signal_port self)) then
      (Raised OverflowError,
       after s (firstn 1 (start_actions self) ++
                [SocketBindListen (signal_port self) false; SocketClose]) 0)
    else if negb (bind_ok w (trace s ++ firstn 1 (start_actions self))) then
      (Raised OSError,
       after s (firstn 1 (start_actions self) ++
                [SocketBindListen (signal_port self) false; SocketClose]) 0)
    else if negb (spawn_ok w (trace s ++ firstn 2 (start_actions self))) then
      (Raised OSError,
       after s (firstn 2 (start_actions self) ++ [Spawn (cmd self) false; SocketClose]) 0)
    else if negb (subprocess_alive w (trace s ++ firstn 3 (start_actions self))) then
      (Raised (TestFailure StoppedImmediately),
       after s (firstn 3 (start_actions self) ++ [IsSubprocessAlive false; SocketClose]) 0)
    else
      match connect_after w (trace s ++ start_actions self) with
      | Some d => (Returned (started self),
                   after s (start_actions self ++ ready_actions self) d)
      | None => (Blocked, after s (start_actions self ++ [SocketAccept None false]) 0)
      end.
Proof.
  unfold start_actions, ready_actions, started. destruct s as [h c]. cbn [firstn trace].
  unfold GdDeviceBase.setup. exec.
  destruct (ports_available w h [signal_port self]); cbn [negb]; [|f_equal; f_equal; lia].
  destruct (port_in_range (signal_port self)); cbn [negb].
  2: { rewrite <- ?app_assoc. cbn [app]. f_equal. f_equal. lia. }
  destruct (bind_ok w _); cbn [negb].
  2: { rewrite <- ?app_assoc. cbn [app]. f_equal. f_equal. lia. }
  rewrite <- ?app_assoc. cbn [app].
  destruct (spawn_ok w _); cbn [negb].
  2: { rewrite <- ?app_assoc. cbn [app]. f_equal. f_equal. lia. }
  rewrite <- ?app_assoc. cbn [app].
  destruct (subprocess_alive w _); cbn [negb].
  2: { rewrite <- ?app_assoc. cbn [app]. f_equal. f_equal. lia. }
  rewrite <- ?app_assoc. cbn [app].
  destruct (connect_after w _) as [d|]; cbn [option_map wait_for].
  - rewrite <- ?app_assoc. cbn [app]. f_equal. f_equal. lia.
  - rewrite <- ?app_assoc. cbn [app]. f_equal. f_equal. lia.
Qed.

(** X3.  [setup] returns only after the whole start-up went through: the
    signal port was available and bound, the process was spawned with the
    command of the device and found alive, it connected to the signal port,
    the socket was closed, the logging task submitted and the two channels
    opened, in this order and with nothing else done.  The device it
    returns is running: it holds the process, with no exit seen, the
    logging future, and open channels to its root-server and grpc ports. *)
Theorem setup_returns_started (w : World) (self : Device) (s : Sys) (d : Device) :
  outcome (GdDeviceBase.setup w self s) = Returned d ->
  d = started self /\
  running d = true /\
  starts w self s = true /\
  exists delay,
    connect_after w (trace s ++ start_actions self) = Some delay /\
    final (GdDeviceBase.setup w self s) =
      after s (start_actions self ++ ready_actions self) delay.
Proof.
  rewrite run_setup. unfold starts.
  destruct (ports_available w _ _); cbn [negb andb]; [|discriminate].
  destruct (port_in_range _); cbn [negb andb]; [|discriminate].
  destruct (bind_ok w _); cbn [negb andb]; [|discriminate].
  destruct (spawn_ok w _); cbn [negb andb]; [|discriminate].
  destruct (subprocess_alive w _); cbn [negb andb]; [|discriminate].
  destruct (connect_after w _) as [delay|]; [|discriminate].
  cbn [outcome final fst snd]. intros [= <-].
  split; [reflexivity|]. split; [reflexivity|]. split; [reflexivity|].
  now exists delay.
Qed.

(** The start of the sample device on a healthy host. *)
Lemma setup_returns_started_witness :
  outcome (GdDeviceBase.setup calm sample_device sys0) = Returned sample_running /\
  sample_running = started sample_device /\
  running sample_running = true /\
  starts calm sample_device sys0 = true /\
  exists delay,
    connect_after calm (trace sys0 ++ start_actions sample_device) = Some delay /\
    final (GdDeviceBase.setup calm sample_device sys0) =
      after sys0 (start_actions sample_device ++ ready_actions sample_device) delay.
Proof.
  split; [reflexivity|].
  exact (setup_returns_started calm sample_device sys0 sample_running eq_refl).
Defined.


(** X5.  [setup] establishes what [teardown] needs.  On the device a
    returned setup gives, teardown finds every attribute it reads, so that
    it never ends with an AttributeError: it closes the two channels, calls
    [send_signal(SIGINT)] on the process and waits for it with the 10 s
    timeout, and joins the logging future; it does not block, raises
    nothing but an exception of the logging task, and the device it returns
    is still set up, with both channels closed, at the ports of the device,
    and with the other attributes of the device as they were. *)
Theorem teardown_after_setup (w : World) (self : Device) (s : Sys) (d : Device) :
  let up := GdDeviceBase.setup w self s in
  outcome up = Returned d ->
  let down := GdDeviceBase.teardown w d (final up) in
  (exists passed_on wait rest,
     trace (final down) =
       (trace (final up) ++ closes ++
        SendSignal SIGINT passed_on :: ProcWait (Some 10) wait :: rest)%list /\
     exists done, In (FutureResult (Some 10) done) rest) /\
  blocked down = false /\
  (forall e, outcome down = Raised e -> e = TaskError) /\
  (forall d', outcome down = Returned d' ->
     set_up d' = true /\
     grpc_channel d' = Some {| target_port := grpc_port self; closed := true |} /\
     grpc_root_server_channel d' =
       Some {| target_port := grpc_root_server_port self; closed := true |} /\
     with_runtime d' (runtime self) = self).
Proof.
  cbv zeta. intros Hup.
  destruct (setup_returns_started w self s d Hup) as (-> & Hrun & _).
  set (s1 := final (GdDeviceBase.setup w self s)). clearbody s1.
  destruct (teardown_shape w (started self) s1 {| returncode := None |}
              (Some LoggingFuture)
              {| target_port := grpc_root_server_port self; closed := false |}
              {| target_port := grpc_port self; closed := false |} eq_refl)
    as (b & wait & rest & dt & Hfin & Hb & _ & Hd & Hsome).
  destruct (Hsome ltac:(discriminate)) as [Hin He].
  split; [| split; [exact Hb | split; [exact He|]]].
  - exists b, wait, rest. rewrite Hfin. split; [reflexivity | exact Hin].
  - intros d' Hd'. destruct (Hd d' Hd') as (p' & -> & _).
    destruct self; now cbn.
Qed.

(** The sample device, started and then stopped on a healthy host. *)
Lemma teardown_after_setup_witness :
  let up := GdDeviceBase.setup calm sample_device sys0 in
  outcome up = Returned sample_running /\
  let down := GdDeviceBase.teardown calm sample_running (final up) in
  (exists passed_on wait rest,
     trace (final down) =
       (trace (final up) ++ closes ++
        SendSignal SIGINT passed_on :: ProcWait (Some 10) wait :: rest)%list /\
     exists done, In (FutureResult (Some 10) done) rest) /\
  blocked down = false /\
  (forall e, outcome down = Raised e -> e = TaskError) /\
  (forall d', outcome down = Returned d' ->
     set_up d' = true /\
     grpc_channel d' = Some {| target_port := grpc_port sample_device; closed := true |} /\
     grpc_root_server_channel d' =
       Some {| target_port := grpc_root_server_port sample_device; closed := true |} /\
     with_runtime d' (runtime sample_device) = sample_device).
Proof.
  split; [reflexivity|].
  exact (teardown_after_setup calm sample_device sys0 sample_running eq_refl).
Defined.

(** ** The constructors *)

Lemma contains_unfold pat s :
  contains pat s =
    String.prefix pat s ||
    match s with EmptyString => false | String _ rest => contains pat rest end.
Proof. now destruct s. Qed.

Lemma contains_prefix pat x : contains pat (pat ++ x) = true.
Proof. rewrite contains_unfold, prefix_app. reflexivity. Qed.

Lemma contains_app_r pat a b : contains pat b = true -> contains pat (a ++ b) = true.
Proof.
  intros H. induction a as [|c a IH]; [exact H|].
  change (contains pat (String c (a ++ b)) = true). cbn [contains].
  rewrite IH. apply orb_true_r.
Qed.

Lemma join_snoc sep l y : exists a, join sep (l ++ [y]) = (a ++ y)%string.
Proof.
  induction l as [|x l [a IH]]; [now exists EmptyString|].
  exists (x ++ sep ++ a)%string. cbn [app join].
  destruct (l ++ [y])%list as [|z t] eqn:E.
  - now destruct l.
  - rewrite IH. now rewrite !append_assoc.
Qed.

Lemma nonempty_app a b : nonempty a = true -> nonempty (a ++ b) = true.
Proof. now destruct a. Qed.

(** What the constructor of the base class gives when it returns. *)
Lemma GdDeviceBase_init_returns w gp rp sp cmd0 lb ti nm v s d :
  outcome (GdDeviceBase_init w gp rp sp cmd0 lb ti nm v s) = Returned d ->
  (nonempty gp && nonempty rp && nonempty sp && negb (Nat.eqb (List.length cmd0) 0) &&
   nonempty lb && nonempty ti && nonempty nm = true) /\
  forallb nonempty cmd0 = true /\
  int_of_str w rp = Some (grpc_root_server_port d) /\
  int_of_str w gp = Some (grpc_port d) /\
  int_of_str w sp = Some (signal_port d) /\
  d = {| verbose_mode := v;
         grpc_root_server_port := grpc_root_server_port d;
         grpc_port := grpc_port d;
         signal_port := signal_port d;
         name := nm;
         type_identifier := ti;
         label := lb;
         log_path_base := full_output_path w;
         test_runner_base_path := base_output_path w;
         backing_process_log_path :=
           path_join (full_output_path w) [(ti ++ "_" ++ lb ++ "_backing_logs.txt")%string];
         cmd := if negb (contains "--btsnoop=" (join " " cmd0))
                then (cmd0 ++ [("--btsnoop=" ++
                                path_join (full_output_path w)
                                  [(lb ++ "_btsnoop_hci.log")%string])%string])%list
                else cmd0;
         environment := os_environ w;
         terminal_color := if contains "cert" lb then BLUE else YELLOW;
         runtime := not_started |} /\
  final (GdDeviceBase_init w gp rp sp cmd0 lb ti nm v s) = s.
Proof.
  unfold GdDeviceBase_init, int_str, assert_true, bind, ret, raise, outcome, final.
  destruct (nonempty gp && _ && _ && _ && _ && _ && _); cbn [fst snd]; [|discriminate].
  destruct (forallb nonempty cmd0); cbn [fst snd]; [|discriminate].
  destruct (int_of_str w rp); cbn [fst snd]; [|discriminate].
  destruct (int_of_str w gp); cbn [fst snd]; [|discriminate].
  destruct (int_of_str w sp); cbn [fst snd]; [|discriminate].
  intros [= <-]. cbn. auto 10.
Qed.

(** X6.  The command of every device the base constructor returns carries
    a "--btsnoop=" argument.  A command that has one is kept as it was
    given; to one that has none the constructor appends a single argument,
    "--btsnoop=" followed by the path of "<label>_btsnoop_hci.log" in the
    log directory of the test run.  No component of the command is empty. *)
Theorem init_command_has_btsnoop (w : World)
    (grpc_port' grpc_root_server_port' signal_port' : string) (cmd' : list string)
    (label' type_identifier' name' : string) (verbose_mode' : bool) (s : Sys) (d : Device) :
  outcome (GdDeviceBase_init w grpc_port' grpc_root_server_port' signal_port' cmd' label'
             type_identifier' name' verbose_mode' s) = Returned d ->
  contains "--btsnoop=" (join " " (cmd d)) = true /\
  forallb nonempty (cmd d) = true /\
  (contains "--btsnoop=" (join " " cmd') = true -> cmd d = cmd') /\
  (contains "--btsnoop=" (join " " cmd') = false ->
   cmd d = (cmd' ++ [("--btsnoop=" ++ path_join (full_output_path w)
                        [(label' ++ "_btsnoop_hci.log")%string])%string])%list).
Proof.
  intros H. destruct (GdDeviceBase_init_returns _ _ _ _ _ _ _ _ _ _ _ H)
    as (_ & Hcmd & _ & _ & _ & -> & _). cbn [cmd].
  destruct (contains "--btsnoop=" (join " " cmd')) eqn:E; cbn [negb].
  - repeat split; auto; discriminate.
  - split; [|split; [|split; [discriminate | reflexivity]]].
    + destruct (join_snoc " " cmd'
                  ("--btsnoop=" ++ path_join (full_output_path w)
                     [(label' ++ "_btsnoop_hci.log")%string])%string) as [a ->].
      apply contains_app_r, contains_prefix.
    + rewrite forallb_app, Hcmd. reflexivity.
Qed.

(** The command of the sample configuration has no btsnoop argument. *)
Lemma init_command_has_btsnoop_witness :
  exists d,
    outcome (GdDeviceBase_init calm "8899" "8898" "8895"
               ["/gd/bluetooth_stack_with_facade"; "--grpc-port=8899"] "dut" "GdDevice"
               "dut" false sys0) = Returned d /\
    contains "--btsnoop=" (join " " (cmd d)) = true /\
    cmd d = ["/gd/bluetooth_stack_with_facade"; "--grpc-port=8899";
             "--btsnoop=/logs/run/dut_btsnoop_hci.log"].
Proof.
  eexists. split; [reflexivity|].
  split.
  - apply (init_command_has_btsnoop calm "8899" "8898" "8895"
             ["/gd/bluetooth_stack_with_facade"; "--grpc-port=8899"] "dut" "GdDevice"
             "dut" false sys0 _ eq_refl).
  - apply (init_command_has_btsnoop calm "8899" "8898" "8895"
             ["/gd/bluetooth_stack_with_facade"; "--grpc-port=8899"] "dut" "GdDevice"
             "dut" false sys0 _ eq_refl). reflexivity.
Defined.

(** X7.  The checks of the base constructor, in their order.  An empty
    port, label, type identifier or name, or an empty command, fails with
    "All arguments to GdDeviceBase must not be None nor empty", also when a
    port would not parse; otherwise an empty component of the command fails
    with "cmd list should not have None nor empty component"; otherwise a
    port that [int()] rejects raises ValueError.  The constructor returns
    exactly when none of these applies, the ports of the device are the
    parsed numbers, and it touches nothing outside the object: no action is
    recorded and no time passes, however it ends. *)
Theorem init_checks_arguments (w : World)
    (grpc_port' grpc_root_server_port' signal_port' : string) (cmd' : list string)
    (label' type_identifier' name' : string) (verbose_mode' : bool) (s : Sys) :
  let res := GdDeviceBase_init w grpc_port' grpc_root_server_port' signal_port' cmd' label'
               type_identifier' name' verbose_mode' s in
  let filled :=
    nonempty grpc_port' && nonempty grpc_root_server_port' && nonempty signal_port' &&
    negb (Nat.eqb (List.length cmd') 0) && nonempty label' && nonempty type_identifier' &&
    nonempty name' in
  final res = s /\
  match outcome res with
  | Returned d =>
      filled = true /\ forallb nonempty cmd' = true /\
      int_of_str w grpc_root_server_port' = Some (grpc_root_server_port d) /\
      int_of_str w grpc_port' = Some (grpc_port d) /\
      int_of_str w signal_port' = Some (signal_port d) /\
      runtime d = not_started
  | Raised e =>
      if negb filled then e = TestFailure ArgumentsEmpty
      else if negb (forallb nonempty cmd') then e = TestFailure CmdComponentEmpty
      else e = ValueError /\
           (int_of_str w grpc_root_server_port' = None \/ int_of_str w grpc_port' = None \/
            int_of_str w signal_port' = None)
  | Blocked => False
  end.
Proof.
  cbv zeta.
  unfold GdDeviceBase_init, int_str, assert_true, bind, ret, raise, outcome, final.
  destruct (nonempty grpc_port' && _ && _ && _ && _ && _ && _); cbn [fst snd negb]; [|auto].
  destruct (forallb nonempty cmd'); cbn [fst snd negb]; [|auto].
  destruct (int_of_str w grpc_root_server_port'); cbn [fst snd]; [|auto].
  destruct (int_of_str w grpc_port'); cbn [fst snd]; [|auto].
  destruct (int_of_str w signal_port'); cbn [fst snd]; [|auto 6].
  cbn. auto 10.
Qed.

Lemma dict_get_set_same d key value : dict_get (dict_set d key value) key = Some value.
Proof.
  induction d as [|[k x] d IH]; cbn.
  - now rewrite String.eqb_refl.
  - destruct (k =? key)%string eqn:E; cbn; now rewrite E.
Qed.

Lemma dict_get_set_other d key value other :
  other <> key -> dict_get (dict_set d key value) other = dict_get d other.
Proof.
  intros Hne. induction d as [|[k x] d IH]; cbn.
  - destruct (key =? other)%string eqn:E; [|reflexivity].
    apply String.eqb_eq in E. congruence.
  - destruct (k =? key)%string eqn:E; cbn.
    + apply String.eqb_eq in E. subst k.
      destruct (key =? other)%string eqn:E'; [|reflexivity].
      apply String.eqb_eq in E'. congruence.
    + now rewrite IH.
Qed.

(** What the constructor of the host-only device gives when it returns. *)
Lemma GdHostOnlyDevice_init_returns w gp rp sp cmd0 lb ti nm v s d :
  outcome (GdHostOnlyDevice_init w gp rp sp cmd0 lb ti nm v s) = Returned d ->
  exists b,
    outcome (GdDeviceBase_init w gp rp sp cmd0 lb ACTS_CONTROLLER_CONFIG_NAME nm v s) =
      Returned b /\
    d = {| host_base :=
             with_environment b
               (dict_set (environment b) "LLVM_PROFILE_FILE"
                  (Path_str
                     (joinpath (pathlib_Path (log_path_base b))
                        (type_identifier b ++ "_" ++ label b ++
                         "_backing_coverage.profraw")%string)));
           backing_process_profraw_path :=
             joinpath (pathlib_Path (log_path_base b))
               (type_identifier b ++ "_" ++ label b ++ "_backing_coverage.profraw")%string |}.
Proof.
  unfold GdHostOnlyDevice_init, bind, ret, outcome.
  destruct (GdDeviceBase_init w gp rp sp cmd0 lb ACTS_CONTROLLER_CONFIG_NAME nm v s)
    as [[b|e|] s1]; cbn [fst]; try discriminate.
  intros [= <-]. now exists b.
Qed.

(** What the constructor of the Android device gives when it returns. *)
Lemma GdAndroidDevice_init_returns w gp rp sp cmd0 lb ti nm sn v s d :
  outcome (GdAndroidDevice_init w gp rp sp cmd0 lb ti nm sn v s) = Returned d ->
  nonempty sn = true /\
  serial_number d = sn /\
  outcome (GdDeviceBase_init w gp rp sp cmd0 lb ti nm v s) = Returned (android_base d).
Proof.
  unfold GdAndroidDevice_init, bind, ret, assert_true, raise, outcome.
  destruct (GdDeviceBase_init w gp rp sp cmd0 lb ti nm v s) as [[b|e|] s1];
    cbn [fst]; try discriminate.
  destruct (nonempty sn); cbn [fst]; [|discriminate].
  now intros [= <-].
Qed.

Lemma teardown_not_started w d s :
  runtime d = not_started ->
  GdDeviceBase.teardown w d s = (Raised (AttributeError "grpc_channel"), s).
Proof. intros Hd. unfold GdDeviceBase.teardown, grpc_channel. rewrite Hd. reflexivity. Qed.

(** A text without a slash is one name. *)
Lemma split_slash_one s : contains "/" s = false -> split_slash s = [s].
Proof.
  induction s as [|c s IH]; [reflexivity|].
  cbn [contains]. intros H. apply orb_false_elim in H as [Hp Hs].
  rewrite prefix_cons, prefix_nil in Hp. cbn [split_slash].
  destruct (Ascii.eqb_spec c "/") as [->|_].
  - destruct (ascii_dec "/" "/"); [discriminate | congruence].
  - now rewrite (IH Hs).
Qed.

Lemma contains_slash_app a b :
  contains "/" a = false -> contains "/" b = false -> contains "/" (a ++ b) = false.
Proof.
  intros Ha Hb. induction a as [|c a IH]; [exact Hb|].
  change (String c a ++ b)%string with (String c (a ++ b)).
  cbn [contains] in *. apply orb_false_elim in Ha as [Hp Ha].
  rewrite prefix_cons, prefix_nil in *. rewrite Hp. now apply IH.
Qed.

(** Joining a name that has no slash and does not start with a dot adds
    that one name to the path. *)
Lemma joinpath_name path c name :
  c <> "/"%char -> c <> "."%char -> contains "/" name = false ->
  joinpath path (String c name) =
    {| path_root := path_root path;
       path_names := (path_names path ++ [String c name])%list |}.
Proof.
  intros Hslash Hdot Hname. unfold joinpath, pathlib_Path, splitroot, starts_with.
  rewrite prefix_cons. destruct (ascii_dec "/" c) as [E|_]; [congruence|].
  rewrite split_slash_one.
  - cbn [filter is_name String.eqb negb andb path_root path_names].
    destruct (Ascii.eqb_spec c "."); [congruence|]. reflexivity.
  - cbn [contains]. rewrite prefix_cons.
    destruct (ascii_dec "/" c) as [E|_]; [congruence | exact Hname].
Qed.

(** X8.  The constructor of the host-only device does not use its type
    identifier argument: the base class always gets "GdDevice", so any two
    values, an empty one too, give the same result.  The profraw path of
    the device it returns is a path object, the log directory of the test
    run joined with "GdDevice_<label>_backing_coverage.profraw"; for a
    label without a slash that is the root and the names of the log
    directory, as [pathlib] parses it, followed by this one name.  Its
    environment is that of the test runner with LLVM_PROFILE_FILE set to
    the text of this path and every other variable unchanged. *)
Theorem host_only_init_environment (w : World)
    (grpc_port' grpc_root_server_port' signal_port' : string) (cmd' : list string)
    (label' name' : string) (verbose_mode' : bool) (s : Sys) (t1 t2 : string) :
  let init := GdHostOnlyDevice_init w grpc_port' grpc_root_server_port' signal_port' cmd'
                label' in
  let file := ("GdDevice_" ++ label' ++ "_backing_coverage.profraw")%string in
  init t1 name' verbose_mode' s = init t2 name' verbose_mode' s /\
  forall d,
    outcome (init t1 name' verbose_mode' s) = Returned d ->
    type_identifier (host_base d) = "GdDevice" /\
    backing_process_profraw_path d = joinpath (pathlib_Path (full_output_path w)) file /\
    (contains "/" label' = false ->
     backing_process_profraw_path d =
       {| path_root := path_root (pathlib_Path (full_output_path w));
          path_names := (path_names (pathlib_Path (full_output_path w)) ++ [file])%list |}) /\
    dict_get (environment (host_base d)) "LLVM_PROFILE_FILE" =
      Some (Path_str (backing_process_profraw_path d)) /\
    (forall key, key <> "LLVM_PROFILE_FILE" ->
                 dict_get (environment (host_base d)) key = dict_get (os_environ w) key) /\
    runtime (host_base d) = not_started.
Proof.
  cbv zeta. split; [reflexivity|]. intros d H.
  destruct (GdHostOnlyDevice_init_returns _ _ _ _ _ _ _ _ _ _ _ H) as (b & Hb & ->).
  destruct (GdDeviceBase_init_returns _ _ _ _ _ _ _ _ _ _ _ Hb)
    as (_ & _ & _ & _ & _ & -> & _).
  cbn [host_base backing_process_profraw_path with_environment type_identifier label
       log_path_base environment runtime].
  split; [reflexivity|]. split; [reflexivity|]. split.
  { intros Hl. apply joinpath_name; try discriminate.
    repeat (apply contains_slash_app; [reflexivity|]).
    apply contains_slash_app; [exact Hl | reflexivity]. }
  split; [apply dict_get_set_same|]. split; [|reflexivity].
  intros key Hkey. now apply dict_get_set_other.
Qed.

(** The host-only device of the sample configuration, with a log
    directory given as "/logs//run/": the path is normalised. *)
Lemma host_only_init_environment_witness :
  exists d,
    outcome (GdHostOnlyDevice_init untidy_log_dir "8899" "8898" "8895"
               ["/gd/bluetooth_stack_with_facade"] "dut" "anything" "dut" false sys0) =
      Returned d /\
    type_identifier (host_base d) = "GdDevice" /\
    backing_process_profraw_path d =
      {| path_root := "/";
         path_names := ["logs"; "run"; "GdDevice_dut_backing_coverage.profraw"] |} /\
    dict_get (environment (host_base d)) "LLVM_PROFILE_FILE" =
      Some "/logs/run/GdDevice_dut_backing_coverage.profraw" /\
    dict_get (environment (host_base d)) "PATH" = Some "/usr/bin".
Proof.
  eexists. split; [reflexivity|].
  destruct (proj2 (host_only_init_environment untidy_log_dir "8899" "8898" "8895"
                     ["/gd/bluetooth_stack_with_facade"] "dut" "dut" false sys0
                     "anything" "anything") _ eq_refl) as (H1 & H2 & H3 & H4 & H5 & H6).
  split; [exact H1|]. split; [exact (H3 eq_refl)|]. split; [exact H4|]. reflexivity.
Defined.

(** X9.  A device that was constructed and not set up cannot be torn down:
    on what any of the three constructors returns, [teardown] raises
    AttributeError for the first attribute it reads, the main gRPC channel,
    and has done nothing by then. *)
Theorem teardown_before_setup (w : World)
    (grpc_port' grpc_root_server_port' signal_port' : string) (cmd' : list string)
    (label' type_identifier' name' serial_number' : string) (verbose_mode' : bool)
    (s s' : Sys) :
  (forall d,
     outcome (GdDeviceBase_init w grpc_port' grpc_root_server_port' signal_port' cmd' label'
                type_identifier' name' verbose_mode' s) = Returned d ->
     GdDeviceBase.teardown w d s' = (Raised (AttributeError "grpc_channel"), s')) /\
  (forall d,
     outcome (GdHostOnlyDevice_init w grpc_port' grpc_root_server_port' signal_port' cmd'
                label' type_identifier' name' verbose_mode' s) = Returned d ->
     GdDeviceBase.teardown w (host_base d) s' = (Raised (AttributeError "grpc_channel"), s')) /\
  (forall d,
     outcome (GdAndroidDevice_init w grpc_port' grpc_root_server_port' signal_port' cmd'
                label' type_identifier' name' serial_number' verbose_mode' s) = Returned d ->
     GdAndroidDevice.teardown w d s' = (Raised (AttributeError "grpc_channel"), s')).
Proof.
  assert (Hbase : forall ti d,
            outcome (GdDeviceBase_init w grpc_port' grpc_root_server_port' signal_port' cmd'
                       label' ti name' verbose_mode' s) = Returned d ->
            runtime d = not_started).
  { intros ti d H. destruct (GdDeviceBase_init_returns _ _ _ _ _ _ _ _ _ _ _ H)
      as (_ & _ & _ & _ & _ & -> & _). reflexivity. }
  split; [|split].
  - intros d H. apply teardown_not_started, (Hbase _ _ H).
  - intros d H. apply teardown_not_started.
    destruct (GdHostOnlyDevice_init_returns _ _ _ _ _ _ _ _ _ _ _ H) as (b & Hb & ->).
    cbn [host_base with_environment runtime]. apply (Hbase _ _ Hb).
  - intros d H.
    destruct (GdAndroidDevice_init_returns _ _ _ _ _ _ _ _ _ _ _ _ H) as (_ & _ & Hb).
    unfold GdAndroidDevice.teardown, bind.
    rewrite teardown_not_started; [reflexivity|]. apply (Hbase _ _ Hb).
Qed.

(** The sample device, fresh from the constructor of the base class. *)
Lemma teardown_before_setup_witness :
  outcome (GdDeviceBase_init calm "8899" "8898" "8895"
             ["/gd/bluetooth_stack_with_facade"; "--grpc-port=8899";
              "--root-server-port=8898"; "--signal-port=8895"] "dut" "GdDevice" "dut"
             false sys0) = Returned sample_device /\
  GdDeviceBase.teardown calm sample_device sys0 =
    (Raised (AttributeError "grpc_channel"), sys0).
Proof.
  split; [reflexivity|].
  exact (proj1 (teardown_before_setup calm "8899" "8898" "8895"
                  ["/gd/bluetooth_stack_with_facade"; "--grpc-port=8899";
                   "--root-server-port=8898"; "--signal-port=8895"] "dut" "GdDevice" "dut"
                  "HT7A1" false sys0 sys0) sample_device eq_refl).
Defined.

(** ** create: the devices it returns, and what it leaves behind *)

Lemma bind_returned {A B} (m : M A) (k : A -> M B) s b :
  outcome (bind m k s) = Returned b ->
  exists a s1, m s = (Returned a, s1) /\ outcome (k a s1) = Returned b.
Proof.
  unfold bind, outcome. destruct (m s) as [[a|e|] s1]; cbn [fst]; try discriminate.
  intros H. now exists a, s1.
Qed.

Lemma getitem_returned {A} (entry : option A) key s a s1 :
  getitem entry key s = (Returned a, s1) -> entry = Some a /\ s1 = s.
Proof. destruct entry; cbn; [now intros [= -> ->] | discriminate]. Qed.

Lemma android_setup_returns w self s d :
  outcome (GdAndroidDevice.setup w self s) = Returned d ->
  d = GdAndroidDevice.with_base self (started (android_base self)).
Proof.
  unfold GdAndroidDevice.setup. intros H.
  apply bind_returned in H as (u & s1 & _ & H).
  apply bind_returned in H as (b & s2 & Hb & H).
  assert (Hb' : outcome (GdDeviceBase.setup w (android_base self) s1) = Returned b)
    by now rewrite Hb.
  destruct (setup_returns_started w (android_base self) s1 b Hb') as (-> & _).
  cbn in H. now injection H as <-.
Qed.

Lemma host_only_setup_returns w self s d :
  outcome (GdHostOnlyDevice.setup w self s) = Returned d ->
  d = {| host_base := started (host_base self);
         backing_process_profraw_path := backing_process_profraw_path self |}.
Proof.
  unfold GdHostOnlyDevice.setup. intros H.
  apply bind_returned in H as (ok & s1 & _ & H).
  apply bind_returned in H as (u & s2 & _ & H).
  apply bind_returned in H as (b & s3 & Hb & H).
  assert (Hb' : outcome (GdDeviceBase.setup w (host_base self) s2) = Returned b)
    by now rewrite Hb.
  destruct (setup_returns_started w (host_base self) s2 b Hb') as (-> & _).
  cbn in H. now injection H as <-.
Qed.

Lemma instance_with_config_returns w config s d :
  outcome (instance_with_config w config s) = Returned d -> built_from w config d.
Proof.
  unfold instance_with_config. intros H.
  apply bind_returned in H as (args & s1 & _ & H).
  apply bind_returned in H as (resolved & s2 & _ & H).
  fold (wants_android config) in H.
  destruct (wants_android config) eqn:Hw.
  - apply bind_returned in H as (gp & s3 & Hgp & H). apply getitem_returned in Hgp as [Hgp ->].
    apply bind_returned in H as (rp & s3 & Hrp & H). apply getitem_returned in Hrp as [Hrp ->].
    apply bind_returned in H as (sp & s3 & Hsp & H). apply getitem_returned in Hsp as [Hsp ->].
    apply bind_returned in H as (lb & s3 & Hlb & H). apply getitem_returned in Hlb as [Hlb ->].
    apply bind_returned in H as (nm & s3 & Hnm & H). apply getitem_returned in Hnm as [Hnm ->].
    apply bind_returned in H as (sn & s3 & Hsn & H). apply getitem_returned in Hsn as [Hsn ->].
    apply bind_returned in H as (a & s3 & Ha & H).
    apply bind_returned in H as (a' & s4 & Ha' & H).
    cbn in H. injection H as <-.
    assert (Hi : outcome (GdAndroidDevice_init w gp rp sp resolved lb
                            ACTS_CONTROLLER_CONFIG_NAME nm sn
                            (truthy match cfg_verbose_mode config with
                                    | Some v => v | None => PyBool false end) s2) =
                 Returned a) by now rewrite Ha.
    destruct (GdAndroidDevice_init_returns _ _ _ _ _ _ _ _ _ _ _ _ Hi) as (_ & Hser & Hb).
    destruct (GdDeviceBase_init_returns _ _ _ _ _ _ _ _ _ _ _ Hb)
      as (_ & _ & Prp & Pgp & Psp & Hd & _).
    assert (Hs : outcome (GdAndroidDevice.setup w a s3) = Returned a') by now rewrite Ha'.
    apply android_setup_returns in Hs. subst a'.
    unfold built_from, port_from. cbn [base_of GdAndroidDevice.with_base android_base
      serial_number]. rewrite Hd in *. cbn. rewrite Hgp, Hrp, Hsp, Hlb, Hnm, Hsn, Hser.
    repeat split; eauto.
  - apply bind_returned in H as (gp & s3 & Hgp & H). apply getitem_returned in Hgp as [Hgp ->].
    apply bind_returned in H as (rp & s3 & Hrp & H). apply getitem_returned in Hrp as [Hrp ->].
    apply bind_returned in H as (sp & s3 & Hsp & H). apply getitem_returned in Hsp as [Hsp ->].
    apply bind_returned in H as (lb & s3 & Hlb & H). apply getitem_returned in Hlb as [Hlb ->].
    apply bind_returned in H as (nm & s3 & Hnm & H). apply getitem_returned in Hnm as [Hnm ->].
    apply bind_returned in H as (a & s3 & Ha & H).
    apply bind_returned in H as (a' & s4 & Ha' & H).
    cbn in H. injection H as <-.
    assert (Hi : outcome (GdHostOnlyDevice_init w gp rp sp resolved lb
                            ACTS_CONTROLLER_CONFIG_NAME nm
                            (truthy match cfg_verbose_mode config with
                                    | Some v => v | None => PyBool false end) s2) =
                 Returned a) by now rewrite Ha.
    destruct (GdHostOnlyDevice_init_returns _ _ _ _ _ _ _ _ _ _ _ Hi) as (b & Hb & ->).
    destruct (GdDeviceBase_init_returns _ _ _ _ _ _ _ _ _ _ _ Hb)
      as (_ & _ & Prp & Pgp & Psp & Hd & _).
    assert (Hs : outcome (GdHostOnlyDevice.setup w _ s3) = Returned a') by now rewrite Ha'.
    apply host_only_setup_returns in Hs. subst a'.
    unfold built_from, port_from. cbn [base_of host_base]. rewrite Hd in *. cbn.
    rewrite Hgp, Hrp, Hsp, Hlb, Hnm.
    repeat split; eauto.
Qed.

Lemma instances_loop_returns w configs devices0 s devices :
  outcome (instances_loop w configs devices0 s) = Returned devices ->
  exists built, devices = (devices0 ++ built)%list /\ Forall2 (built_from w) configs built.
Proof.
  revert devices0 s. induction configs as [|config rest IH]; intros devices0 s H.
  - cbn in H. injection H as <-. exists []. now rewrite app_nil_r.
  - cbn [instances_loop] in H. apply bind_returned in H as (d & s1 & Hd & H).
    apply IH in H as (built & -> & HF). exists (d :: built).
    rewrite <- app_assoc. split; [reflexivity|]. constructor; [|exact HF].
    apply (instance_with_config_returns w config s). now rewrite Hd.
Qed.

Lemma create_rejects_invalid_not_a_list w s v :
  exists e, create w (NotAList v) s = (Raised e, s).
Proof.
  unfold create. cbn [configs_truthy isinstance_list negb].
  destruct (truthy v); eexists; reflexivity.
Qed.

(** X10.  What [create] returns.  It returns only for a list of entries
    that is not empty, and then one device for each entry, in the order of
    the entries: an Android device with the serial number of the entry
    where that is present and not empty, a host-only device otherwise.
    Every device of the list has been set up and is running, has the label
    and the name of its entry, the type identifier "GdDevice", and as its
    three ports the numbers [int()] reads in the texts of the entry. *)
Theorem create_builds_devices (w : World) (configs : Configs) (s : Sys)
    (devices : list GdDevice) :
  outcome (create w configs s) = Returned devices ->
  exists entries,
    configs = ConfigList entries /\
    entries <> [] /\
    List.length devices = List.length entries /\
    Forall2 (built_from w) entries devices.
Proof.
  destruct configs as [entries|v].
  2: { destruct (create_rejects_invalid_not_a_list w s v) as [e ->]. discriminate. }
  destruct entries as [|config rest]; [discriminate|].
  unfold create. cbn [configs_truthy isinstance_list List.length Nat.eqb negb].
  unfold get_instances_with_configs. intros H.
  apply bind_returned in H as (u & s1 & _ & H).
  apply instances_loop_returns in H as (built & -> & HF).
  exists (config :: rest). split; [reflexivity|]. split; [discriminate|].
  split; [|exact HF]. symmetry. apply (Forall2_length HF).
Qed.

(** A host-only entry and an entry for the device HT7A1, on a healthy
    host. *)
Lemma create_builds_devices_witness :
  exists devices,
    outcome (create calm
               (ConfigList [sample_config; with_serial_number sample_config (Some "HT7A1")])
               sys0) = Returned devices /\
    List.length devices = 2%nat /\
    Forall2 (built_from calm)
      [sample_config; with_serial_number sample_config (Some "HT7A1")] devices.
Proof.
  eexists. split; [vm_compute; reflexivity|].
  match goal with
  | |- _ /\ Forall2 _ _ ?d =>
      assert (H : outcome (create calm
                             (ConfigList [sample_config;
                                          with_serial_number sample_config (Some "HT7A1")])
                             sys0) = Returned d) by (vm_compute; reflexivity);
      destruct (create_builds_devices calm _ sys0 d H) as (entries & E & _ & Hlen & HF)
  end.
  injection E as <-. split; [exact Hlen | exact HF].
Defined.

Lemma start_up_not_teardown a : is_start_up a = true -> is_teardown_action a = false.
Proof. now destruct a. Qed.

Lemma base_setup_is_start_up a : is_base_setup a = true -> is_start_up a = true.
Proof. unfold is_start_up. now intros ->. Qed.

Lemma device_side_is_start_up a : is_device_side a = true -> is_start_up a = true.
Proof. unfold is_start_up. intros ->. now rewrite orb_true_r. Qed.

Section CreateEmits.
Variable w : World.

Lemma emits_base_setup self : emits is_start_up (GdDeviceBase.setup w self).
Proof.
  intros s. destruct (base_setup_gate w self s) as (new & E & _ & _ & F & _).
  exists new. split; [exact E|].
  rewrite forallb_forall in *. intros a Ha. apply base_setup_is_start_up, F, Ha.
Qed.

Lemma emits_android_setup self : emits is_start_up (GdAndroidDevice.setup w self).
Proof.
  unfold GdAndroidDevice.setup. apply emits_bind.
  - apply (emits_weaken is_device_side); [apply device_side_is_start_up|].
    apply emits_setup_on_device.
  - intros _. apply emits_bind; [apply emits_base_setup | intros; apply emits_ret].
Qed.

Lemma emits_host_only_setup self : emits is_start_up (GdHostOnlyDevice.setup w self).
Proof.
  unfold GdHostOnlyDevice.setup, make_ports_available.
  repeat first [ apply emits_base_setup | emits_step ].
Qed.

Lemma emits_GdDeviceBase_init gp rp sp cmd0 lb ti nm v :
  emits is_start_up (GdDeviceBase_init w gp rp sp cmd0 lb ti nm v).
Proof. unfold GdDeviceBase_init, int_str. emits_auto. Qed.

Lemma emits_replace_vars text config : emits is_start_up (replace_vars w text config).
Proof. unfold replace_vars, replace_with. emits_auto. Qed.

Lemma emits_resolve_cmd args config : emits is_start_up (resolve_cmd w args config).
Proof.
  induction args as [|arg rest IH]; cbn [resolve_cmd].
  - apply emits_ret.
  - repeat first [ apply emits_replace_vars | apply IH | emits_step ].
Qed.

Lemma emits_instance_with_config config :
  emits is_start_up (instance_with_config w config).
Proof.
  unfold instance_with_config, GdAndroidDevice_init, GdHostOnlyDevice_init, getitem.
  repeat first [ apply emits_resolve_cmd | apply emits_GdDeviceBase_init
               | apply emits_android_setup | apply emits_host_only_setup | emits_step ].
Qed.

Lemma emits_instances_loop configs devices :
  emits is_start_up (instances_loop w configs devices).
Proof.
  revert devices. induction configs as [|config rest IH]; intros devices; cbn [instances_loop].
  - apply emits_ret.
  - apply emits_bind; [apply emits_instance_with_config | intros; apply IH].
Qed.

Lemma emits_create configs : emits is_start_up (create w configs).
Proof.
  unfold create, get_instances_with_configs.
  repeat first [ apply emits_instances_loop | emits_step ].
Qed.
End CreateEmits.

(** X11.  [create] has no clean-up.  On every path, also when the
    construction or the set-up of a later device raises and the devices set
    up before it are lost to the caller, create tears nothing down: it
    sends no signal, waits for no process, closes no channel and joins no
    logging task; all it does is print the configuration, log, talk to adb,
    sleep, and start devices. *)
Theorem create_never_tears_down (w : World) (configs : Configs) (s : Sys) :
  exists new,
    trace (final (create w configs s)) = (trace s ++ new)%list /\
    forallb is_start_up new = true /\
    existsb is_teardown_action new = false /\
    existsb is_signal new = false.
Proof.
  destruct (emits_create w configs s) as (new & E & F). exists new.
  split; [exact E|]. split; [exact F|].
  rewrite forallb_forall in F. split.
  - apply not_true_is_false. intros H. apply existsb_exists in H as (a & Ha & Ht).
    rewrite (start_up_not_teardown a (F a Ha)) in Ht. discriminate.
  - apply not_true_is_false. intros H. apply existsb_exists in H as (a & Ha & Ht).
    specialize (F a Ha). destruct a; discriminate.
Qed.

(** ** reboot and the wait for the boot *)

Section RebootRuns.
Variable w : World.
Import GdAndroidDevice.

(** While the device answers every probe of its state, the first loop of
    [reboot] runs until the time is over. *)
Lemma reboot_loop_waits_out fuel sn deadline s :
  (forall h, adb_reply w h sn adb_get_state <> AdbRaise) ->
  deadline - clock s <= 100 * Z.of_nat fuel ->
  exists s' polls,
    reboot_loop w fuel sn deadline s = (Returned tt, s') /\
    deadline <= clock s' /\ clock s <= clock s' /\
    trace s' = (trace s ++ polls)%list /\
    existsb reads_boot_completed polls = false.
Proof.
  intros Hstate. revert s. induction fuel as [|fuel IH]; intros s Hf; cbn [reboot_loop].
  - unfold bind, time_time. destruct (Z.ltb_spec (clock s) deadline); [lia|].
    exists s, []. rewrite app_nil_r. repeat split; try lia.
  - unfold bind at 1. unfold time_time.
    destruct (Z.ltb_spec (clock s) deadline).
    2: { exists s, []. rewrite app_nil_r. repeat split; try lia. }
    unfold bind at 1, try_except, bind at 1. rewrite run_adb. cbv zeta.
    destruct (adb_reply w (trace s) sn adb_get_state) as [v|] eqn:E;
      [|now apply Hstate in E].
    cbn -[Z.mul Z.of_nat].
    match goal with |- context [reboot_loop w fuel sn deadline ?s1] =>
      destruct (IH s1) as (s' & polls & R & D & C & T & P) end.
    { cbn -[Z.mul Z.of_nat]. lia. }
    cbn [trace clock] in *. rewrite <- !app_assoc in T.
    exists s'. eexists. split; [exact R|]. split; [exact D|]. split; [lia|].
    split; [exact T|]. cbn. exact P.
Qed.
(** A reboot of a device that is never seen gone. *)
Lemma reboot_device_present self timeout_ms s :
  (forall h, adb_reply w h (serial_number self) adb_get_state <> AdbRaise) ->
  exists e s' new,
    reboot w self timeout_ms s = (Raised e, s') /\
    (e = TestFailure BootTimedOut \/ e = AdbError) /\
    (e = TestFailure BootTimedOut -> clock s + timeout_ms <= clock s') /\
    trace s' = (trace s ++ new)%list /\
    existsb reads_boot_completed new = false.
Proof.
  intros Hstate. unfold reboot.
  rewrite (run_bind_returned _ _ _ _ _ (run_logging _ _ s)).
  unfold bind at 1. rewrite run_adb. cbv zeta. cbn [after trace].
  destruct (adb_reply w _ (serial_number self) adb_reboot) as [v|].
  2: { eexists _, _, _. split; [reflexivity|]. split; [now right|]. split; [discriminate|].
       cbn [trace after]. rewrite <- ?app_assoc. split; reflexivity. }
  unfold bind at 1. unfold time_time at 1.
  set (s1 := after (after s _ 0) _ _).
  destruct (reboot_loop_waits_out (Z.to_nat (timeout_ms / 100 + 1)) (serial_number self)
              (clock s1 + timeout_ms) s1 Hstate) as (s2 & polls & R & D & C & T & P).
  { pose proof (Z.mul_succ_div_gt timeout_ms 100 ltac:(lia)). lia. }
  unfold bind at 1. rewrite R.
  unfold bind at 1. unfold time_time at 1.
  unfold wait_for_boot_completion.
  unfold bind at 1. unfold time_time at 1. unfold bind at 1. rewrite run_adb. cbv zeta.
  assert (C1 : clock s <= clock s1).
  { subst s1. cbn [after clock]. lia. }
  assert (T1 : trace s1 = (trace s ++ [Logging DEBUG (Rebooting (serial_number self));
                                         Adb (serial_number self) adb_reboot (AdbOut v)])%list).
  { subst s1. cbn [after trace]. now rewrite <- app_assoc. }
  destruct (adb_reply w (trace s2) (serial_number self) _) as [v'|].
  2: { eexists _, _, _. split; [reflexivity|]. split; [now right|]. split; [discriminate|].
       cbn [trace after]. rewrite T, T1, <- !app_assoc.
       split; [reflexivity|]. cbn [app existsb reads_boot_completed orb].
       rewrite existsb_app, P. reflexivity. }
  unfold bind at 1. unfold time_time at 1. cbn [clock after].
  unfold bind at 1.
  match goal with |- context [boot_completion_loop w ?fuel ?sn ?dl ?s3] =>
    assert (L : boot_completion_loop w fuel sn dl s3 = (Returned false, s3)) end.
  { match goal with |- boot_completion_loop w ?fuel _ _ _ = _ => destruct fuel end;
      cbn [boot_completion_loop]; unfold bind, time_time; cbn [clock after].
    all: match goal with |- context [?a <? ?b] => destruct (Z.ltb_spec a b) end;
      [lia | reflexivity]. }
  rewrite L. unfold asserts_fail, raise.
  eexists _, _, _. split; [reflexivity|]. split; [now left|].
  cbn [trace clock after]. split; [lia|].
  rewrite T, T1, <- !app_assoc. split; [reflexivity|].
  cbn [app existsb reads_boot_completed orb]. rewrite existsb_app, P. reflexivity.
Qed.
End RebootRuns.

(** X12.  [reboot] takes the device as rebooting only once it has seen it
    gone.  While [get_state] answers at every probe, the first loop polls
    until the whole timeout is used up, no time is left for the wait for
    the boot, and the call cannot return: it fails with "booting process
    timed out", or with the AdbError of [adb reboot] or [wait_for_device],
    without having read sys.boot_completed once. *)
Theorem reboot_needs_device_gone (w : World) (self : AndroidDevice) (timeout_ms : Z)
    (s : Sys) :
  (forall h, adb_reply w h (serial_number self) adb_get_state <> AdbRaise) ->
  let res := GdAndroidDevice.reboot w self timeout_ms s in
  (outcome res = Raised (TestFailure BootTimedOut) \/ outcome res = Raised AdbError) /\
  (outcome res = Raised (TestFailure BootTimedOut) ->
   clock s + timeout_ms <= clock (final res)) /\
  exists new,
    trace (final res) = (trace s ++ new)%list /\
    existsb reads_boot_completed new = false.
Proof.
  intros Hstate. cbv zeta.
  destruct (reboot_device_present w self timeout_ms s Hstate)
    as (e & s' & new & -> & He & Hc & T & P).
  cbn [outcome final fst snd]. split; [|split].
  - destruct He as [-> | ->]; auto.
  - intros [= ->]. now apply Hc.
  - now exists new.
Qed.

(** A device that stays visible through the whole reboot. *)
Lemma reboot_needs_device_gone_witness :
  (forall h, adb_reply always_present h (serial_number sample_android) adb_get_state <>
             AdbRaise) /\
  let res := GdAndroidDevice.reboot always_present sample_android 1000 sys0 in
  (outcome res = Raised (TestFailure BootTimedOut) \/ outcome res = Raised AdbError) /\
  (outcome res = Raised (TestFailure BootTimedOut) -> clock sys0 + 1000 <= clock (final res)) /\
  exists new,
    trace (final res) = (trace sys0 ++ new)%list /\
    existsb reads_boot_completed new = false.
Proof.
  split; [discriminate|].
  apply (reboot_needs_device_gone always_present sample_android 1000 sys0). discriminate.
Defined.

Section BootCompletion.
Variable w : World.
Import GdAndroidDevice.

Lemma py_eq_str_true v text : py_eq_str v text = true -> v = PyStr text.
Proof.
  destruct v; cbn; try discriminate. intros H. apply String.eqb_eq in H. now subst.
Qed.

(** The loop of [wait_for_boot_completion] leaves through its [return]
    only right after the property was read as "1", and within the time. *)
Lemma boot_completion_loop_true fuel sn deadline s s' :
  boot_completion_loop w fuel sn deadline s = (Returned true, s') ->
  clock s < deadline /\
  exists pre,
    trace s' =
      (trace s ++ pre ++
       [Adb sn (adb_getprop "sys.boot_completed") (AdbOut (PyStr "1"))])%list /\
    forallb is_poll pre = true /\
    (count reads_boot_completed pre < fuel)%nat.
Proof.
  revert s. induction fuel as [|fuel IH]; intros s; cbn [boot_completion_loop].
  - unfold bind, time_time, block. destruct (Z.ltb_spec (clock s) deadline); discriminate.
  - unfold bind at 1. unfold time_time.
    destruct (Z.ltb_spec (clock s) deadline) as [Hlt|]; [|discriminate].
    unfold bind at 1, try_except, bind at 1. rewrite run_adb. cbv zeta.
    destruct (adb_reply w (trace s) sn (adb_getprop "sys.boot_completed")) as [v|];
      cbn -[Z.mul Z.of_nat].
    + destruct (py_eq_str v "1") eqn:Ev.
      * apply py_eq_str_true in Ev. subst v. intros [= <-]. split; [exact Hlt|].
        exists []. cbn. repeat split. lia.
      * intros H. destruct (IH _ H) as (_ & pre & T & P & C). split; [exact Hlt|].
        cbn [trace after] in T. rewrite <- !app_assoc in T. cbn [app] in T.
        eexists (_ :: _ :: pre). split; [exact T|]. split; [exact P|].
        rewrite !count_cons. cbn [reads_boot_completed]. cbn. lia.
    + intros H. destruct (IH _ H) as (_ & pre & T & P & C). split; [exact Hlt|].
      cbn [trace after] in T. rewrite <- !app_assoc in T. cbn [app] in T.
      eexists (_ :: _ :: pre). split; [exact T|]. split; [exact P|].
      rewrite !count_cons. cbn. lia.
Qed.

(** [wait_for_boot_completion], after [wait_for_device] has answered. *)
Lemma run_wait_for_boot_completion self timeout_ms s :
  let sn := serial_number self in
  let call := adb_wait_for_device 180 in
  let dt := Z.max 0 (adb_elapsed w (trace s) sn call) in
  wait_for_boot_completion w self timeout_ms s =
    match adb_reply w (trace s) sn call with
    | AdbRaise => (Raised AdbError, after s [Adb sn call AdbRaise] dt)
    | AdbOut v =>
        let s1 := after s [Adb sn call (AdbOut v)] dt in
        match boot_completion_loop w (Z.to_nat ((timeout_ms - dt) / 5000 + 1)) sn
                (clock s + timeout_ms) s1 with
        | (Returned true, s2) => (Returned tt, s2)
        | (Returned false, s2) => (Raised (TestFailure BootTimedOut), s2)
        | (Raised e, s2) => (Raised e, s2)
        | (Blocked, s2) => (Blocked, s2)
        end
    end.
Proof.
  cbv zeta. unfold wait_for_boot_completion.
  unfold bind at 1. unfold time_time at 1. unfold bind at 1. rewrite run_adb. cbv zeta.
  change WAIT_FOR_DEVICE_TIMEOUT_SECONDS with 180.
  destruct (adb_reply w (trace s) (serial_number self) (adb_wait_for_device 180)) as [v|];
    [|reflexivity].
  unfold bind at 1. unfold time_time at 1. cbn [clock after].
  replace (clock s + timeout_ms -
           (clock s + Z.max 0 (adb_elapsed w (trace s) (serial_number self)
                                 (adb_wait_for_device 180))))
    with (timeout_ms - Z.max 0 (adb_elapsed w (trace s) (serial_number self)
                                  (adb_wait_for_device 180))) by lia.
  unfold bind.
  destruct (boot_completion_loop w _ _ _ _) as [[[|]|e|] s2]; reflexivity.
Qed.
End BootCompletion.

(** X13.  [wait_for_boot_completion] returns only when the device has said
    that it booted: the last thing it did is a read of sys.boot_completed
    that gave "1", after [wait_for_device] and nothing but polls; the
    timeout was positive, and the property was read at most once for every
    5 s of it, plus one.  With a timeout that is not positive, the property
    is never read: the call fails as timed out right after
    [wait_for_device], or with its AdbError. *)
Theorem wait_for_boot_completion_returns (w : World) (self : AndroidDevice)
    (timeout_ms : Z) (s : Sys) :
  let sn := serial_number self in
  let res := GdAndroidDevice.wait_for_boot_completion w self timeout_ms s in
  (outcome res = Returned tt ->
   0 < timeout_ms /\
   exists r polls,
     trace (final res) =
       (trace s ++ Adb sn (adb_wait_for_device 180) r :: polls ++
        [Adb sn (adb_getprop "sys.boot_completed") (AdbOut (PyStr "1"))])%list /\
     forallb is_poll polls = true /\
     Z.of_nat (count reads_boot_completed polls) <= timeout_ms / 5000) /\
  (timeout_ms <= 0 ->
   exists r,
     trace (final res) = (trace s ++ [Adb sn (adb_wait_for_device 180) r])%list /\
     (outcome res = Raised (TestFailure BootTimedOut) \/ outcome res = Raised AdbError)).
Proof.
  cbv zeta. rewrite run_wait_for_boot_completion. cbv zeta.
  destruct (adb_reply w (trace s) (serial_number self) (adb_wait_for_device 180)) as [v|].
  2: { split; [discriminate|]. intros _. eexists. split; [reflexivity | now right]. }
  set (dt := Z.max 0 (adb_elapsed w (trace s) (serial_number self) (adb_wait_for_device 180))).
  assert (Hdt : 0 <= dt) by (subst dt; lia).
  set (s1 := after s [Adb (serial_number self) (adb_wait_for_device 180) (AdbOut v)] dt).
  set (fuel := Z.to_nat ((timeout_ms - dt) / 5000 + 1)).
  split.
  - destruct (GdAndroidDevice.boot_completion_loop w fuel (serial_number self)
                (clock s + timeout_ms) s1) as [[[|]|e|] s2] eqn:E;
      cbn [outcome fst]; try discriminate.
    intros _.
    destruct (boot_completion_loop_true w fuel (serial_number self) (clock s + timeout_ms)
                s1 s2 E) as (Hlt & pre & T & P & C).
    cbn [final snd] in *. subst s1. cbn [after trace clock] in *.
    split; [lia|]. exists (AdbOut v), pre. rewrite T, <- app_assoc.
    split; [reflexivity|]. split; [exact P|].
    assert (Hq : 0 <= (timeout_ms - dt) / 5000) by (apply Z.div_pos; lia).
    assert (Hm : (timeout_ms - dt) / 5000 <= timeout_ms / 5000)
      by (apply Z.div_le_mono; lia).
    subst fuel. lia.
  - intros Hneg. exists (AdbOut v).
    assert (L : GdAndroidDevice.boot_completion_loop w fuel (serial_number self)
                  (clock s + timeout_ms) s1 = (Returned false, s1)).
    { destruct fuel; cbn [GdAndroidDevice.boot_completion_loop]; unfold bind, time_time;
        subst s1; cbn [clock after].
      all: match goal with |- context [?a <? ?b] => destruct (Z.ltb_spec a b) end;
        [lia | reflexivity]. }
    rewrite L. cbn. split; [reflexivity | now left].
Qed.

(** The sample device has booted when its property is read; and a wait
    that is given no time. *)
Lemma wait_for_boot_completion_returns_witness :
  outcome (GdAndroidDevice.wait_for_boot_completion calm sample_android 60000 sys0) =
    Returned tt /\
  (exists r polls,
     trace (final (GdAndroidDevice.wait_for_boot_completion calm sample_android 60000 sys0)) =
       (trace sys0 ++ Adb "HT7A1" (adb_wait_for_device 180) r :: polls ++
        [Adb "HT7A1" (adb_getprop "sys.boot_completed") (AdbOut (PyStr "1"))])%list /\
     forallb is_poll polls = true /\
     Z.of_nat (count reads_boot_completed polls) <= 60000 / 5000) /\
  exists r,
    trace (final (GdAndroidDevice.wait_for_boot_completion calm sample_android 0 sys0)) =
      (trace sys0 ++ [Adb "HT7A1" (adb_wait_for_device 180) r])%list /\
    (outcome (GdAndroidDevice.wait_for_boot_completion calm sample_android 0 sys0) =
       Raised (TestFailure BootTimedOut) \/
     outcome (GdAndroidDevice.wait_for_boot_completion calm sample_android 0 sys0) =
       Raised AdbError).
Proof.
  split; [reflexivity|]. split.
  - exact (proj2 (proj1 (wait_for_boot_completion_returns calm sample_android 60000 sys0)
                    eq_refl)).
  - apply (proj2 (wait_for_boot_completion_returns calm sample_android 0 sys0)). lia.
Defined.

(** ** The teardown of the Android device *)

(** The teardown of the base class changes no attribute the constructor
    set. *)
Lemma teardown_returns_torn_down w self s b s1 :
  GdDeviceBase.teardown w self s = (Returned b, s1) ->
  exists m r p, b = torn_down self m r p.
Proof.
  destruct self as [vm rp gp sp nm ti lb lp tp bl cm en tc [[p|] f [r|] [m|]]];
    try (cbn; discriminate).
  match goal with |- GdDeviceBase.teardown w ?d s = _ -> _ =>
    destruct (teardown_shape w d s p f r m eq_refl) as (_ & _ & _ & _ & _ & _ & _ & Hd & _);
    intros H; rewrite H in Hd; destruct (Hd b eq_refl) as (p' & -> & _)
  end.
  now exists m, r, p'.
Qed.

(** The clean-up on adb, from the state the teardown of the base class
    left. *)
Lemma android_cleanup_run w (self : AndroidDevice) (b : Device) s1 :
  let sn := serial_number self in
  exists o s2 cleanup,
    (adb w sn (adb_remove_tcp_forward (grpc_port b)) ;;
     adb w sn (adb_remove_tcp_forward (grpc_root_server_port b)) ;;
     adb w sn (adb_reverse ("--remove tcp:" ++ fmt_d (signal_port b))%string) ;;
     adb w sn (adb_shell "logcat -d -f /data/misc/bluetooth/logs/system_log") ;;
     adb w sn (adb_pull ("/data/misc/bluetooth/logs/btsnoop_hci.log " ++
                         path_join (log_path_base b)
                           [(label b ++ "_btsnoop_hci.log")%string])%string) ;;
     adb w sn (adb_pull ("/data/misc/bluetooth/logs/system_log " ++
                         path_join (log_path_base b)
                           [(label b ++ "_system_log")%string])%string) ;;
     ret (GdAndroidDevice.with_base self b)) s1 = (o, s2) /\
    trace s2 = (trace s1 ++ cleanup)%list /\
    forallb is_adb cleanup = true /\
    let calls := adb_calls sn cleanup in
    match o with
    | Returned d =>
        map fst calls = cleanup_calls b /\
        existsb adb_raised calls = false /\
        d = GdAndroidDevice.with_base self b
    | Raised e =>
        e = AdbError /\
        exists made,
          (made < 6)%nat /\
          map fst calls = firstn (S made) (cleanup_calls b) /\
          existsb adb_raised (firstn made calls) = false /\
          existsb adb_raised (skipn made calls) = true
    | Blocked => False
    end.
Proof.
  cbv zeta. unfold cleanup_calls.
  repeat (unfold bind at 1; rewrite run_adb; cbv zeta;
          match goal with
          | |- context [adb_reply w ?h ?sn ?c] => destruct (adb_reply w h sn c) as [?v|]
          end).
  all: rewrite ?after_after; unfold ret.
  all: eexists _, _, _; (split; [reflexivity|]); cbn [after trace];
    (split; [reflexivity|]); (split; [reflexivity|]).
  all: cbn [adb_calls app]; rewrite ?String.eqb_refl; cbn [adb_calls map fst].
  1: { split; [reflexivity|]. split; reflexivity. }
  6: { split; [reflexivity|]. exists 0%nat. cbn. repeat split. lia. }
  5: { split; [reflexivity|]. exists 1%nat. cbn. repeat split. lia. }
  4: { split; [reflexivity|]. exists 2%nat. cbn. repeat split. lia. }
  3: { split; [reflexivity|]. exists 3%nat. cbn. repeat split. lia. }
  2: { split; [reflexivity|]. exists 4%nat. cbn. repeat split. lia. }
  1: { split; [reflexivity|]. exists 5%nat. cbn. repeat split. lia. }
Qed.

Lemma run_android_teardown w self s :
  GdAndroidDevice.teardown w self s =
    match GdDeviceBase.teardown w (android_base self) s with
    | (Returned b, s1) =>
        (let sn := serial_number self in
         adb w sn (adb_remove_tcp_forward (grpc_port b)) ;;
         adb w sn (adb_remove_tcp_forward (grpc_root_server_port b)) ;;
         adb w sn (adb_reverse ("--remove tcp:" ++ fmt_d (signal_port b))%string) ;;
         adb w sn (adb_shell "logcat -d -f /data/misc/bluetooth/logs/system_log") ;;
         adb w sn (adb_pull ("/data/misc/bluetooth/logs/btsnoop_hci.log " ++
                             path_join (log_path_base b)
                               [(label b ++ "_btsnoop_hci.log")%string])%string) ;;
         adb w sn (adb_pull ("/data/misc/bluetooth/logs/system_log " ++
                             path_join (log_path_base b)
                               [(label b ++ "_system_log")%string])%string) ;;
         ret (GdAndroidDevice.with_base self b)) s1
    | (Raised e, s1) => (Raised e, s1)
    | (Blocked, s1) => (Blocked, s1)
    end.
Proof. reflexivity. Qed.

(** X14.  The teardown of the Android device is the teardown of the base
    class followed by the clean-up on adb.  When the teardown of the base
    class raises (or would not come back), nothing is asked of adb: the
    port forwardings stay and no log is pulled.  When it returns, the six
    adb calls follow in their order: the two forwardings and the reverse
    mapping are removed, the system log is dumped, the btsnoop log and the
    system log are pulled into the log directory under the label of the
    device; the first call that raises AdbError ends the teardown with
    that error, and the calls after it are not made. *)
Theorem android_teardown_cleans_up (w : World) (self : AndroidDevice) (s : Sys) :
  let base := GdDeviceBase.teardown w (android_base self) s in
  let res := GdAndroidDevice.teardown w self s in
  match outcome base with
  | Returned b =>
      exists cleanup,
        trace (final res) = (trace (final base) ++ cleanup)%list /\
        forallb is_adb cleanup = true /\
        let calls := adb_calls (serial_number self) cleanup in
        match outcome res with
        | Returned d =>
            map fst calls = cleanup_calls (android_base self) /\
            existsb adb_raised calls = false /\
            d = GdAndroidDevice.with_base self b
        | Raised e =>
            e = AdbError /\
            exists made,
              (made < 6)%nat /\
              map fst calls = firstn (S made) (cleanup_calls (android_base self)) /\
              existsb adb_raised (firstn made calls) = false /\
              existsb adb_raised (skipn made calls) = true
        | Blocked => False
        end
  | Raised e => res = (Raised e, final base)
  | Blocked => res = (Blocked, final base)
  end.
Proof.
  cbv zeta. rewrite run_android_teardown.
  destruct (GdDeviceBase.teardown w (android_base self) s) as [[b|e|] s1] eqn:E;
    cbn [outcome final fst snd]; try reflexivity.
  destruct (teardown_returns_torn_down w _ s b s1 E) as (m & r & p & Hb).
  cbv zeta.
  destruct (android_cleanup_run w self b s1) as (o & s2 & cleanup & -> & T & F & C).
  cbn [outcome final fst snd]. exists cleanup. split; [exact T|]. split; [exact F|].
  cbv zeta in C.
  replace (cleanup_calls (android_base self)) with (cleanup_calls b); [exact C|].
  rewrite Hb. reflexivity.
Qed.

(** ** ensure_verity_disabled and push_or_die *)

Lemma poll_not_verity_change a : is_poll a = true -> is_verity_change a = false.
Proof. destruct a as [| | | | | | | | | | | | | | | |sn [] r]; cbn; congruence. Qed.

Lemma polls_no_verity_change polls :
  forallb is_poll polls = true -> existsb is_verity_change polls = false.
Proof.
  intros H. apply not_true_is_false. intros E. apply existsb_exists in E as (a & Ha & E).
  rewrite forallb_forall in H. rewrite (poll_not_verity_change a (H a Ha)) in E. discriminate.
Qed.

Section VerityRuns.
Variable w : World.
Import GdAndroidDevice.

Lemma run_reboot_shape self timeout_ms s :
  exists o s' r polls,
    reboot w self timeout_ms s = (o, s') /\
    trace s' = (trace s ++ Logging DEBUG (Rebooting (serial_number self)) ::
                Adb (serial_number self) adb_reboot r :: polls)%list /\
    forallb is_poll polls = true /\
    match o with
    | Returned _ => True
    | Raised e => reboot_error e = true
    | Blocked => False
    end.
Proof.
  destruct (reboot_trace w self timeout_ms s) as (r & polls & T & P).
  assert (E := reboot_ends w self timeout_ms s). unfold ends_in, outcome, final in *.
  destruct (reboot w self timeout_ms s) as [o s']. cbn [fst snd] in *.
  now exists o, s', r, polls.
Qed.

Lemma run_ensure_verity_disabled self s :
  exists o s' new,
    ensure_verity_disabled w self s = (o, s') /\
    trace s' = (trace s ++ new)%list /\
    (existsb is_verity_change new = true -> existsb found_verified new = true) /\
    match o with
    | Returned _ =>
        exists pre r1 r2,
          new = (pre ++ [Adb (serial_number self) adb_remount (AdbOut r1);
                         Adb (serial_number self) (adb_wait_for_device 180) (AdbOut r2)])%list
    | Raised e => verity_error e = true
    | Blocked => False
    end.
Proof.
  unfold ensure_verity_disabled.
  rewrite (run_bind_returned _ _ _ _ _ (run_logging _ _ s)).
  unfold bind at 1. rewrite run_adb. cbv zeta.
  destruct (adb_reply w _ (serial_number self) adb_ensure_root) as [root|].
  2: { eexists _, _, _. split; [reflexivity|]. rewrite ?after_after. cbn [after trace].
       split; [reflexivity|]. split; [discriminate | reflexivity]. }
  unfold bind at 1. unfold assert_true. destruct (truthy root).
  2: { eexists _, _, _. split; [reflexivity|]. rewrite ?after_after. cbn [after trace].
       split; [reflexivity|]. split; [discriminate | reflexivity]. }
  unfold ret at 1.
  unfold bind at 1. rewrite run_adb. cbv zeta.
  destruct (adb_reply w _ (serial_number self) (adb_getprop "partition.system.verified"))
    as [sv|].
  2: { eexists _, _, _. split; [reflexivity|]. rewrite ?after_after. cbn [after trace].
       split; [reflexivity|]. split; [discriminate | reflexivity]. }
  unfold bind at 1. rewrite run_adb. cbv zeta.
  destruct (adb_reply w _ (serial_number self) (adb_getprop "partition.vendor.verified"))
    as [vv|].
  2: { eexists _, _, _. split; [reflexivity|]. rewrite ?after_after. cbn [after trace].
       split; [reflexivity|]. split; [discriminate | reflexivity]. }
  rewrite ?after_after.
  change WAIT_FOR_DEVICE_TIMEOUT_SECONDS with 180.
  destruct (truthy sv || truthy vv) eqn:Ev.
  - assert (Hfound : forall l,
      existsb found_verified
        ([Logging DEBUG (DisablingVerity (serial_number self))] ++
         [Adb (serial_number self) adb_ensure_root (AdbOut root)] ++
         [Adb (serial_number self) (adb_getprop "partition.system.verified") (AdbOut sv)] ++
         [Adb (serial_number self) (adb_getprop "partition.vendor.verified") (AdbOut vv)] ++
         l) = true).
    { intros l. cbn. apply orb_true_iff in Ev as [-> | ->]; cbn; now rewrite ?orb_true_r. }
    unfold bind at 1. unfold bind at 1. rewrite run_adb. cbv zeta.
    destruct (adb_reply w _ (serial_number self) adb_disable_verity) as [dv|].
    2: { eexists _, _, _. split; [reflexivity|]. rewrite ?after_after. cbn [after trace].
         rewrite <- !app_assoc. split; [reflexivity|]. split; [|reflexivity].
         intros _. apply Hfound. }
    rewrite ?after_after.
    match goal with |- context [reboot w self ?t ?s3] =>
      destruct (run_reboot_shape self t s3) as (o & s4 & r & polls & -> & T & P & O) end.
    cbn [after trace] in T.
    destruct o as [[]|e|]; [| |destruct O].
    2: { eexists _, _, _. split; [reflexivity|]. rewrite T, <- !app_assoc.
         split; [reflexivity|]. split; [intros _; apply Hfound|].
         destruct e as [| [] | | | | | | | | | | |]; try discriminate O; reflexivity. }
    unfold bind at 1. rewrite run_adb. cbv zeta.
    destruct (adb_reply w _ (serial_number self) adb_remount) as [r1|].
    2: { eexists _, _, _. split; [reflexivity|]. cbn [after trace]. rewrite T, <- !app_assoc.
         split; [reflexivity|]. split; [intros _; apply Hfound | reflexivity]. }
    unfold bind at 1. rewrite run_adb. cbv zeta.
    destruct (adb_reply w _ (serial_number self) (adb_wait_for_device 180)) as [r2|].
    2: { eexists _, _, _. split; [reflexivity|]. cbn [after trace]. rewrite T, <- !app_assoc.
         split; [reflexivity|]. split; [intros _; apply Hfound | reflexivity]. }
    eexists _, _, _. split; [reflexivity|]. cbn [after trace]. rewrite T, <- !app_assoc.
    split; [reflexivity|]. split; [intros _; apply Hfound|].
    eexists _, r1, r2. cbn [app]. rewrite !app_comm_cons.
    change (?l ++ [?a] ++ [?b])%list with (l ++ [a; b])%list.
    reflexivity.
  - unfold bind at 1. unfold ret at 1.
    unfold bind at 1. rewrite run_adb. cbv zeta.
    destruct (adb_reply w _ (serial_number self) adb_remount) as [r1|].
    2: { eexists _, _, _. split; [reflexivity|]. rewrite ?after_after. cbn [after trace].
         split; [reflexivity|]. split; [discriminate | reflexivity]. }
    unfold bind at 1. rewrite run_adb. cbv zeta.
    destruct (adb_reply w _ (serial_number self) (adb_wait_for_device 180)) as [r2|].
    2: { eexists _, _, _. split; [reflexivity|]. rewrite ?after_after. cbn [after trace].
         split; [reflexivity|]. split; [discriminate | reflexivity]. }
    eexists _, _, _. split; [reflexivity|]. rewrite ?after_after. cbn [after trace].
    split; [reflexivity|]. split; [discriminate|].
    exists [Logging DEBUG (DisablingVerity (serial_number self));
            Adb (serial_number self) adb_ensure_root (AdbOut root);
            Adb (serial_number self) (adb_getprop "partition.system.verified") (AdbOut sv);
            Adb (serial_number self) (adb_getprop "partition.vendor.verified") (AdbOut vv)],
      r1, r2. reflexivity.
Qed.
End VerityRuns.

(** X15.  [ensure_verity_disabled] changes the device only when it found
    verity on: [disable_verity] and the reboot are asked of adb only after
    one of partition.system.verified and partition.vendor.verified was read
    with a truthy value.  When the call returns, the last two things it did
    are the remount and [wait_for_device] with the 180 s timeout, both
    answered; when it raises, the device cannot run as root, or adb raised,
    or the boot timed out; it always comes back. *)
Theorem verity_change_only_when_verified (w : World) (self : AndroidDevice) (s : Sys) :
  let sn := serial_number self in
  let res := GdAndroidDevice.ensure_verity_disabled w self s in
  exists new,
    trace (final res) = (trace s ++ new)%list /\
    (existsb is_verity_change new = true -> existsb found_verified new = true) /\
    match outcome res with
    | Returned _ =>
        exists pre r1 r2,
          new = (pre ++ [Adb sn adb_remount (AdbOut r1);
                         Adb sn (adb_wait_for_device 180) (AdbOut r2)])%list
    | Raised e => verity_error e = true
    | Blocked => False
    end.
Proof.
  cbv zeta. destruct (run_ensure_verity_disabled w self s) as (o & s' & new & -> & T & V & O).
  now exists new.
Qed.

(** A device with verity on: it is rebooted. *)
Lemma verity_change_only_when_verified_witness :
  exists new,
    trace (final (GdAndroidDevice.ensure_verity_disabled verified sample_android sys0)) =
      (trace sys0 ++ new)%list /\
    existsb is_verity_change new = true /\
    existsb found_verified new = true.
Proof.
  destruct (verity_change_only_when_verified verified sample_android sys0)
    as (new & T & V & _).
  exists new. split; [exact T|].
  assert (H : existsb is_verity_change new = true).
  { cbn [trace sys0 app] in T. rewrite <- T. vm_compute. reflexivity. }
  split; [exact H | exact (V H)].
Defined.

Lemma run_push_or_die w self src dst push_timeout s :
  exists o s',
    GdAndroidDevice.push_or_die w self src dst push_timeout s = (o, s') /\
    match o with
    | Returned _ =>
        exists pre out,
          trace s' =
            (trace s ++ pre ++
             [Adb (serial_number self) (adb_push (src ++ " " ++ dst) push_timeout)
                (AdbOut (PyStr out))])%list /\
          contains "error" out = false
    | Raised e => e = TestSignalError
    | Blocked => False
    end.
Proof.
  unfold GdAndroidDevice.push_or_die, try_except.
  unfold bind at 1. rewrite run_adb. cbv zeta.
  destruct (adb_reply w _ (serial_number self) adb_ensure_root) as [root|].
  2: { eexists _, _. split; reflexivity. }
  unfold bind at 1.
  match goal with |- context [GdAndroidDevice.ensure_verity_disabled w self ?s1] =>
    destruct (run_ensure_verity_disabled w self s1) as (o & s2 & new & -> & T & _ & O) end.
  destruct o as [[]|e|]; [| |destruct O].
  2: { eexists _, _. split; reflexivity. }
  unfold bind at 1. rewrite run_adb. cbv zeta.
  destruct (adb_reply w _ (serial_number self) (adb_push _ _)) as [[| | |out]|].
  1-3, 5: eexists _, _; split; reflexivity.
  destruct (contains "error" out) eqn:Ec.
  { eexists _, _. split; reflexivity. }
  eexists _, _. split; [reflexivity|].
  cbn [after trace]. rewrite T. cbn [after trace]. rewrite <- !app_assoc.
  eexists (_ :: new), out. split; [reflexivity | exact Ec].
Qed.

(** X16.  [push_or_die] ends in one of two ways.  It returns only when the
    push itself was the last thing done and adb answered it with a text
    that does not contain "error".  Every failure before or in the push, an
    AdbError, a device that cannot run as root, a boot that timed out, an
    answer that is no text, and its own failure for an answer with "error"
    in it, is caught by its handler, which hands the caught exception to
    [asserts.fail] as [extras]: the call ends with TestSignalError, so in
    no run with the test failure "Unable to push file".  It always comes
    back. *)
Theorem push_or_die_fails_with_signal_error (w : World) (self : AndroidDevice)
    (src dst : string) (push_timeout : Z) (s : Sys) :
  let sn := serial_number self in
  let res := GdAndroidDevice.push_or_die w self src dst push_timeout s in
  match outcome res with
  | Returned _ =>
      exists pre out,
        trace (final res) =
          (trace s ++ pre ++
           [Adb sn (adb_push (src ++ " " ++ dst) push_timeout) (AdbOut (PyStr out))])%list /\
        contains "error" out = false
  | Raised e => e = TestSignalError /\ forall why, e <> TestFailure why
  | Blocked => False
  end.
Proof.
  cbv zeta. destruct (run_push_or_die w self src dst push_timeout s) as (o & s' & -> & O).
  destruct o as [[]|e|]; cbn [outcome final fst snd] in *; try exact O.
  subst e. split; [reflexivity | discriminate].
Qed.

(** ** The port a mapping returns *)

Lemma bind_returned_state {A B} (m : M A) (k : A -> M B) s b s' :
  bind m k s = (Returned b, s') ->
  exists a s1, m s = (Returned a, s1) /\ k a s1 = (Returned b, s').
Proof.
  unfold bind. destruct (m s) as [[a|e|] s1]; try discriminate.
  intros H. now exists a, s1.
Qed.

Section MappingResult.
Variable w : World.
Import GdAndroidDevice.

Lemma reverse_error_falsy x : truthy x = false -> reverse_error w x = false.
Proof. destruct x as [| | |t]; cbn; try reflexivity. now intros ->%negb_false_iff. Qed.

(** A forward that returns: the answer of the last attempt decides what
    it returns. *)
Lemma tcp_forward_or_die_returned self h d n s v s1 :
  tcp_forward_or_die w self h d n s = (Returned v, s1) ->
  exists pre x post,
    trace s1 = (trace s ++ pre ++ Adb (serial_number self) (adb_tcp_forward h d) (AdbOut x)
                :: post)%list /\
    forward_error x = false /\
    existsb is_adb post = false /\
    ((truthy x = false /\ v = PyInt h) \/
     (truthy x = true /\ isinstance_int x = true /\ v = x)).
Proof.
  revert s. induction n as [|n IH]; intros s; rewrite run_tcp_forward_or_die; cbv zeta.
  - destruct (adb_reply w _ _ _) as [x|]; [|discriminate].
    destruct (truthy x) eqn:Ex; cbn [negb].
    + destruct (forward_error x) eqn:Ef; [discriminate|]. intros [= <- <-].
      exists [], x, []. split; [reflexivity|]. split; [exact Ef|]. split; [reflexivity|].
      right. unfold forward_error in Ef. rewrite Ex in Ef. cbn [andb] in Ef.
      apply negb_false_iff in Ef. auto.
    + intros [= <- <-]. exists [], x, [Logging DEBUG (AlreadyForwarded h)].
      split; [reflexivity|]. unfold forward_error. rewrite Ex. auto.
  - destruct (adb_reply w _ _ _) as [x|]; [|discriminate].
    destruct (truthy x) eqn:Ex; cbn [negb].
    + destruct (forward_error x) eqn:Ef.
      * intros H. apply bind_returned_state in H as (u & s2 & Hr & H).
        apply IH in H as (pre & y & post & T & Fy).
        destruct (emits_reboot w self reboot_default_timeout_ms
                    (after s [Adb (serial_number self) (adb_tcp_forward h d) (AdbOut x);
                              Logging WARNING (ForwardRetry (label (android_base self)) h d
                                                 (Z.of_nat n))]
                       (Z.max 0 (adb_elapsed w (trace s) (serial_number self)
                                   (adb_tcp_forward h d))))) as (polls & Tp & _).
        rewrite Hr in Tp. cbn [final snd after trace] in Tp.
        exists (Adb (serial_number self) (adb_tcp_forward h d) (AdbOut x) ::
                Logging WARNING (ForwardRetry (label (android_base self)) h d (Z.of_nat n)) ::
                polls ++ pre)%list, y, post.
        split; [|exact Fy]. rewrite T, Tp, <- !app_assoc. cbn [app].
        now rewrite <- app_assoc.
      * intros [= <- <-]. exists [], x, [].
        split; [reflexivity|]. split; [exact Ef|]. split; [reflexivity|].
        right. unfold forward_error in Ef. rewrite Ex in Ef. cbn [andb] in Ef.
        apply negb_false_iff in Ef. auto.
    + intros [= <- <-]. exists [], x, [Logging DEBUG (AlreadyForwarded h)].
      split; [reflexivity|]. unfold forward_error. rewrite Ex. auto.
Qed.

(** A reverse that returns, in the same way. *)
Lemma tcp_reverse_or_die_returned self d h n s v s1 :
  tcp_reverse_or_die w self d h n s = (Returned v, s1) ->
  exists pre x post,
    trace s1 = (trace s ++ pre ++
                Adb (serial_number self) (adb_reverse (reverse_args d h)) (AdbOut x)
                :: post)%list /\
    reverse_error w x = false /\
    existsb is_adb post = false /\
    ((truthy x = false /\ v = PyInt d) \/
     (truthy x = true /\ exists z, int_value w x = Some z /\ v = PyInt z)).
Proof.
  revert s. induction n as [|n IH]; intros s; rewrite run_tcp_reverse_or_die; cbv zeta.
  - destruct (adb_reply w _ _ _) as [x|]; [|discriminate].
    destruct (truthy x) eqn:Ex; cbn [negb].
    + destruct (reverse_error w x) eqn:Ef; [discriminate|].
      intros H. exists [], x, []. rewrite Ef.
      destruct x as [| b | z | t]; try discriminate H; cbn [int_value].
      * injection H as <- <-. eauto 10.
      * injection H as <- <-. eauto 10.
      * destruct (int_of_str w t); [|discriminate H]. injection H as <- <-. eauto 10.
    + intros [= <- <-]. exists [], x, [Logging DEBUG (AlreadyReversed d)].
      split; [reflexivity|]. split; [now apply reverse_error_falsy|]. auto.
  - destruct (adb_reply w _ _ _) as [x|]; [|discriminate].
    destruct (truthy x) eqn:Ex; cbn [negb].
    + destruct (reverse_error w x) eqn:Ef.
      * intros H. apply bind_returned_state in H as (u & s2 & Hr & H).
        apply IH in H as (pre & y & post & T & Fy).
        destruct (emits_reboot w self reboot_default_timeout_ms
                    (after s [Adb (serial_number self) (adb_reverse (reverse_args d h))
                                (AdbOut x);
                              Logging WARNING (ReverseRetry (label (android_base self)) d h
                                                 (Z.of_nat n))]
                       (Z.max 0 (adb_elapsed w (trace s) (serial_number self)
                                   (adb_reverse (reverse_args d h)))))) as (polls & Tp & _).
        rewrite Hr in Tp. cbn [final snd after trace] in Tp.
        exists (Adb (serial_number self) (adb_reverse (reverse_args d h)) (AdbOut x) ::
                Logging WARNING (ReverseRetry (label (android_base self)) d h (Z.of_nat n)) ::
                polls ++ pre)%list, y, post.
        split; [|exact Fy]. rewrite T, Tp, <- !app_assoc. cbn [app].
        now rewrite <- app_assoc.
      * intros H. exists [], x, []. rewrite Ef.
        destruct x as [| b | z | t]; try discriminate H; cbn [int_value].
        -- injection H as <- <-. eauto 10.
        -- injection H as <- <-. eauto 10.
        -- destruct (int_of_str w t); [|discriminate H]. injection H as <- <-. eauto 10.
    + intros [= <- <-]. exists [], x, [Logging DEBUG (AlreadyReversed d)].
      split; [reflexivity|]. split; [now apply reverse_error_falsy|]. auto.
Qed.

Lemma tcp_reverse_or_die_ends self d h n s :
  match outcome (tcp_reverse_or_die w self d h n s) with
  | Returned v => True
  | Raised e => e <> ValueError /\ e <> TypeError
  | Blocked => False
  end.
Proof.
  destruct (tcp_reverse_or_die_budget w self d h n s) as (E & _).
  unfold ends_in in E. revert s E.
  induction n as [|n IH]; intros s E; rewrite run_tcp_reverse_or_die in *; cbv zeta in *.
  - destruct (adb_reply w _ _ _) as [x|]; [|cbn; split; discriminate].
    destruct (truthy x) eqn:Ex; cbn [negb] in *; [|cbn; eauto].
    destruct (reverse_error w x) eqn:Er; [cbn; split; discriminate|].
    destruct x as [| b | z | text]; cbn [outcome fst] in *; eauto; try discriminate.
    destruct (int_of_str w text); cbn [outcome fst] in *; eauto. discriminate.
  - destruct (adb_reply w _ _ _) as [x|]; [|cbn; split; discriminate].
    destruct (truthy x) eqn:Ex; cbn [negb] in *; [|cbn; eauto].
    destruct (reverse_error w x) eqn:Er.
    + unfold bind at 1 in E. unfold bind at 1.
      match goal with |- context [reboot w self ?t ?s1] =>
        destruct (run_reboot_shape w self t s1) as (o & s2 & r & polls & R & _ & _ & O) end.
      rewrite R in *. destruct o as [[]|e|]; [| |destruct O].
      * apply IH. exact E.
      * cbn. destruct e as [| [] | | | | | | | | | | |]; try discriminate O; split; discriminate.
    + destruct x as [| b | z | text]; cbn [outcome fst] in *; eauto; try discriminate.
      destruct (int_of_str w text); cbn [outcome fst] in *; eauto. discriminate.
Qed.
End MappingResult.

(** X17.  What the port mappings give back.  A call that returns has
    made a last attempt that adb answered, followed by no other call on
    adb, and that answer decides the result.  [tcp_forward_or_die]
    returns the host port it was asked for when the answer is falsy (None,
    an empty text, 0: "already forwarded"), and otherwise the answer
    itself, a truthy int; so it returns an int in every case.
    [tcp_reverse_or_die] returns the device port it was asked for when the
    answer is falsy, and otherwise the int that [int()] makes of the
    answer; the ValueError of [int()] never leaves it, nor does a
    TypeError, and it always comes back. *)
Theorem port_mapping_result (w : World) (self : AndroidDevice) (num_retry : nat)
    (s : Sys) :
  let sn := serial_number self in
  (forall host_port device_port v,
     let res := GdAndroidDevice.tcp_forward_or_die w self host_port device_port num_retry s in
     outcome res = Returned v ->
     isinstance_int v = true /\
     exists pre answer post,
       trace (final res) =
         (trace s ++ pre ++
          Adb sn (adb_tcp_forward host_port device_port) (AdbOut answer) :: post)%list /\
       existsb is_adb post = false /\
       ((truthy answer = false /\ v = PyInt host_port) \/
        (truthy answer = true /\ v = answer))) /\
  (forall device_port host_port,
     let res := GdAndroidDevice.tcp_reverse_or_die w self device_port host_port num_retry s in
     match outcome res with
     | Returned v =>
         exists pre answer post,
           trace (final res) =
             (trace s ++ pre ++
              Adb sn (adb_reverse (reverse_args device_port host_port)) (AdbOut answer)
              :: post)%list /\
           existsb is_adb post = false /\
           ((truthy answer = false /\ v = PyInt device_port) \/
            (truthy answer = true /\
             exists port, int_value w answer = Some port /\ v = PyInt port))
     | Raised e => e <> ValueError /\ e <> TypeError
     | Blocked => False
     end).
Proof.
  cbv zeta. split.
  - intros h d v H.
    destruct (GdAndroidDevice.tcp_forward_or_die w self h d num_retry s) as [o s1] eqn:R.
    cbn [outcome final fst snd] in *. subst o.
    destruct (tcp_forward_or_die_returned w self h d num_retry s v s1 R)
      as (pre & x & post & T & _ & P & [[Hx ->]|(Hx & Hi & ->)]).
    + split; [reflexivity|]. exists pre, x, post. auto.
    + split; [exact Hi|]. exists pre, x, post. auto.
  - intros d h. assert (E := tcp_reverse_or_die_ends w self d h num_retry s).
    destruct (GdAndroidDevice.tcp_reverse_or_die w self d h num_retry s) as [o s1] eqn:R.
    cbn [outcome final fst snd] in *. destruct o as [v|e|]; [|exact E|exact E].
    destruct (tcp_reverse_or_die_returned w self d h num_retry s v s1 R)
      as (pre & x & post & T & _ & P & V).
    exists pre, x, post. auto.
Qed.

(** A forwarding that adb answers with the port, and a reverse that adb
    reports as already there. *)
Lemma port_mapping_result_witness :
  outcome (GdAndroidDevice.tcp_forward_or_die calm sample_android 8899 8899 1 sys0) =
    Returned (PyInt 8899) /\
  (exists pre answer post,
     trace (final (GdAndroidDevice.tcp_forward_or_die calm sample_android 8899 8899 1 sys0)) =
       (trace sys0 ++ pre ++
        Adb "HT7A1" (adb_tcp_forward 8899 8899) (AdbOut answer) :: post)%list /\
     existsb is_adb post = false /\
     ((truthy answer = false /\ PyInt 8899 = PyInt 8899) \/
      (truthy answer = true /\ PyInt 8899 = answer))) /\
  outcome (GdAndroidDevice.tcp_reverse_or_die calm sample_android 8895 8895 1 sys0) =
    Returned (PyInt 8895).
Proof.
  split; [reflexivity|]. split; [|reflexivity].
  exact (proj2 (proj1 (port_mapping_result calm sample_android 1 sys0) 8899 8899 (PyInt 8899)
                  eq_refl)).
Defined.

(** ** What a teardown leaves in the device *)

(** X18.  What [teardown] leaves when it returns.  It returns only on a
    device that was set up; the device it gives back is still set up and
    has the attributes of the constructor unchanged, both channels closed
    and still aimed at their ports, and the process object with what the
    teardown learned: the exit code a wait answered, which is then in the
    trace, or still none after the "Failed to kill backing process" that
    the trace then holds. *)
Theorem teardown_records_exit (w : World) (self : Device) (s : Sys) (d : Device) :
  let res := GdDeviceBase.teardown w self s in
  outcome res = Returned d ->
  set_up self = true /\ set_up d = true /\
  with_runtime d (runtime self) = self /\
  option_map closed (grpc_channel d) = Some true /\
  option_map closed (grpc_root_server_channel d) = Some true /\
  option_map target_port (grpc_channel d) = option_map target_port (grpc_channel self) /\
  option_map target_port (grpc_root_server_channel d) =
    option_map target_port (grpc_root_server_channel self) /\
  exists p new,
    backing_process d = Some p /\
    trace (final res) = (trace s ++ new)%list /\
    match returncode p with
    | Some rc => In (ProcWait (Some 10) (Some rc)) new
    | None => In (Logging ERROR KillFailed) new
    end.
Proof.
  cbv zeta. destruct self as [vm rp gp sp nm ti lb lp tp bl cm en tc [[p|] f [r|] [m|]]];
    try (cbn; discriminate).
  match goal with |- outcome (GdDeviceBase.teardown w ?d0 s) = _ -> _ => set (self := d0) end.
  destruct f as [f|].
  2: { destruct (teardown_shape w self s p None r m eq_refl)
         as (_ & _ & _ & _ & _ & _ & _ & Hd & _).
       intros H. destruct (Hd d H) as (_ & _ & Hf). now destruct Hf. }
  assert (Hs : set_up self = true) by reflexivity.
  assert (Hb : backing_process self = Some p) by reflexivity.
  teardown_cases w self s p Hs Hb.
  all: try discriminate.
  all: intros Hd.
  all: unfold self in Hr; cbn [runtime] in Hr; injection Hr; intros; subst r0 m0.
  all: cbn [outcome fst] in Hd; injection Hd as <-.
  all: split; [reflexivity|]; split; [reflexivity|]; split; [reflexivity|].
  all: split; [reflexivity|]; split; [reflexivity|]; split; [reflexivity|].
  all: split; [reflexivity|].
  all: unfold exit_warning; destruct (accepted_exit _ _); try destruct (truthy _).
  all: eexists _, _; (split; [reflexivity|]); (split; [reflexivity|]).
  all: try (rewrite Hp).
  all: cbn [returncode]; unfold closes, graceful, forceful; cbn; auto 20.
Qed.

(** The sample device, stopped by SIGINT on a healthy host. *)
Lemma teardown_records_exit_witness :
  outcome (GdDeviceBase.teardown calm sample_running sys0) = Returned sample_stopped /\
  set_up sample_stopped = true /\
  backing_process sample_stopped = Some {| returncode := Some (-2) |} /\
  In (ProcWait (Some 10) (Some (-2)))
     (trace (final (GdDeviceBase.teardown calm sample_running sys0))).
Proof.
  split; [reflexivity|].
  destruct (teardown_records_exit calm sample_running sys0 sample_stopped eq_refl)
    as (_ & Hup & _ & _ & _ & _ & _ & p & new & Hp & T & Hrc).
  split; [exact Hup|]. split; [reflexivity|].
  injection Hp as <-. rewrite T. apply in_or_app. right. exact Hrc.
Defined.

(** ** The logging loop: what is printed *)

Section LoggingLoopTerminal.
Variable written_through : string -> nat.
Variable strip : string -> string.
Variable color_text : TerminalColor -> string.
Variable color_end : string.

Lemma logging_loop_rounds_terminal self lines st :
  let st' :=
    fold_left (logging_loop_body written_through strip color_text color_end self) lines st in
  terminal st' =
    (terminal st ++
     if verbose_mode self
     then map (fun line =>
                 ("[" ++ color_text (terminal_color self) ++ label self ++ color_end ++ "] " ++
                  strip line)%string) lines
     else [])%list.
Proof.
  cbv zeta. revert st. induction lines as [|line lines IH]; intros st.
  - cbn. destruct (verbose_mode self); now rewrite app_nil_r.
  - cbn [fold_left]. rewrite IH. unfold logging_loop_body.
    destruct (verbose_mode self); cbn [terminal map]; [|reflexivity].
    now rewrite <- app_assoc.
Qed.

Lemma logging_loop_rounds_same_file self other lines st st' :
  backing_process_log st = backing_process_log st' ->
  backing_process_log
    (fold_left (logging_loop_body written_through strip color_text color_end self) lines st) =
  backing_process_log
    (fold_left (logging_loop_body written_through strip color_text color_end other) lines st').
Proof.
  revert st st'. induction lines as [|line lines IH]; intros st st' H; [exact H|].
  cbn [fold_left]. apply IH. unfold logging_loop_body. rewrite H.
  destruct (verbose_mode self), (verbose_mode other); reflexivity.
Qed.
End LoggingLoopTerminal.

(** X19.  What the logging loop prints.  Without verbose mode it prints
    nothing.  With verbose mode it prints one line for every line it
    reads, in the order read: the label of the device in brackets, in the
    colour of the device, before the line stripped of the white space
    around it.  The log file does not depend on any of this: two devices
    that read the same lines write the same file, whatever their verbose
    mode, label and colour. *)
Theorem logging_loop_terminal (written_through : string -> nat) (strip : string -> string)
    (color_text : TerminalColor -> string) (color_end : string)
    (self other : Device) (lines : list string) :
  let loop := backing_process_logging_loop written_through strip color_text color_end in
  terminal (loop self lines) =
    (if verbose_mode self
     then map (fun line =>
                 ("[" ++ color_text (terminal_color self) ++ label self ++ color_end ++ "] " ++
                  strip line)%string) lines
     else []) /\
  List.length (terminal (loop self lines)) =
    (if verbose_mode self then List.length lines else 0%nat) /\
  backing_process_log (loop self lines) = backing_process_log (loop other lines).
Proof.
  cbv zeta. unfold backing_process_logging_loop, logging_loop_reading. cbn [terminal].
  rewrite logging_loop_rounds_terminal. cbn [terminal app].
  split; [reflexivity|]. split.
  - destruct (verbose_mode self); [apply length_map | reflexivity].
  - cbn [backing_process_log]. f_equal.
    now apply logging_loop_rounds_same_file.
Qed.

(** ** The coverage report of the host-only device *)

Ltac host_exec :=
  cbv [Host.bind Host.ret Host.raise Host.hang Host.try_except Host.finally Host.emit Host.do
       Host.history Path_is_file Path_stat_st_size subprocess_run Path_unlink shutil_move
       with_open_w getitem0 host_getattr is_host_OSError events host_clock
       host_outcome host_final host_after fst snd negb].

(** Case analysis over every answer of the host the program asks for. *)
Ltac host_cases :=
  repeat match goal with
         | |- context [match is_file ?hw ?h ?p with _ => _ end] =>
             destruct (is_file hw h p) eqn:?
         | |- context [match st_size ?hw ?h ?p with _ => _ end] =>
             destruct (st_size hw h p) as [?size|] eqn:?
         | |- context [match run_end ?hw ?h ?a with _ => _ end] =>
             destruct (run_end hw h a) as [?rc| |] eqn:?
         | |- context [match unlink_ok ?hw ?h ?p with _ => _ end] =>
             destruct (unlink_ok hw h p) eqn:?
         | |- context [match move_ok ?hw ?h ?a ?b with _ => _ end] =>
             destruct (move_ok hw h a b) eqn:?
         | |- context [match open_ok ?hw ?h ?p with _ => _ end] =>
             destruct (open_ok hw h p) eqn:?
         | |- context [match (?a <=? ?b) with _ => _ end] =>
             destruct (Z.leb_spec a b)
         | |- context [match (?a =? ?b) with _ => _ end] =>
             destruct (Z.eqb_spec a b)
         | |- context [match cmd ?b with _ => _ end] =>
             destruct (cmd b) as [|?binary ?args] eqn:?
         end.


Lemma app_eq_inv {A} (h new new' : list A) :
  (h ++ new)%list = (h ++ new')%list -> new = new'.
Proof. apply app_inv_head. Qed.

(** Where in a known list of actions a given action can be. *)
Ltac walk H :=
  lazymatch type of H with
  | _ = (?pre ++ _ :: _)%list =>
      let x := fresh "x" in
      let pre' := fresh "pre" in
      destruct pre as [|x pre']; cbn [app] in H;
      [ try discriminate H
      | first [ discriminate H
              | let Hx := fresh "Hx" in
                injection H as Hx H; try subst x; walk H ] ]
  end.

(** X21.  The order of the coverage report.  A tool whose output goes to
    a file (llvm-cov: the export into the JSON file, the report into the
    summary file) is run only after llvm-profdata has merged the profile
    with exit code 0 (with the profile merged before as one more input
    when that file existed) and the merged profile was moved from its
    temporary file to its place; the file was opened right before the
    tool is run and is closed right after it, also when the tool could not
    be started; and the summary is made only after the export has exited
    with 0. *)
Theorem coverage_report_order (w : World) (hw : HostWorld) (self : HostOnlyDevice)
    (hs : HostSys) (pre post : list HostAction) (args : list string) (out : string)
    (ended : RunEnd) :
  let res := GdHostOnlyDevice_generate_coverage_report w hw self hs in
  events (host_final res) = (events hs ++ pre ++ Run args (Some out) ended :: post)%list ->
  In (Move (Path_str (profdata_path_tmp self)) (Path_str (profdata_path self)) true) pre /\
  (exists merged_before, In (Run (merge_command w self merged_before) None (Exited 0)) pre) /\
  (exists before, pre = (before ++ [OpenWrite out true])%list) /\
  (ended <> NeverExits -> exists rest, post = CloseFile out :: rest) /\
  hd_error args = Some (Path_str (llvm_cov w)) /\
  (nth_error args 1 = Some "report" ->
   exists export_args json,
     In (Run export_args (Some json) (Exited 0)) pre /\
     nth_error export_args 1 = Some "export").
Proof.
  cbv zeta. unfold GdHostOnlyDevice_generate_coverage_report, merge_command.
  destruct hs as [ev ck]. host_exec. host_cases.
  all: rewrite <- ?app_assoc; cbn [app]; intros Hev; apply app_eq_inv in Hev.
  all: walk Hev.
  all: injection Hev; intros; subst.
  all: split; [cbn; tauto|].
  all: split; [first [exists true; cbn; tauto | exists false; cbn; tauto]|].
  all: split; [match goal with |- exists before, ?l = _ => exists (removelast l); reflexivity end|].
  all: split; [intros; try congruence; eexists; reflexivity|].
  all: split; [reflexivity|].
  all: cbn [nth_error]; intros Hr; try discriminate Hr.
  all: eexists _, _; split; [cbn; eauto 20 | reflexivity].
Qed.

(** A host on which everything is in place: the report is made, and the
    summary comes after the export. *)
Lemma coverage_report_order_witness :
  exists pre post args out,
    events (host_final (GdHostOnlyDevice_generate_coverage_report calm tidy
                          sample_host_only_running host0)) =
      (events host0 ++ pre ++ Run args (Some out) (Exited 0) :: post)%list /\
    nth_error args 1 = Some "report" /\
    In (Move "/logs/GdDevice_dut_backing_process_coverage_tmp.profdata"
             "/logs/GdDevice_dut_backing_process_coverage.profdata" true) pre /\
    exists export_args json,
      In (Run export_args (Some json) (Exited 0)) pre /\
      nth_error export_args 1 = Some "export".
Proof.
  pose (l := events (host_final (GdHostOnlyDevice_generate_coverage_report calm tidy
                                   sample_host_only_running host0))).
  exists (firstn 12 l), (skipn 13 l).
  exists ["/gd/llvm_binutils/bin/llvm-cov"; "report"; "--instr-profile";
          "/logs/GdDevice_dut_backing_process_coverage.profdata";
          "/gd/bluetooth_stack_with_facade"],
    "/logs/GdDevice_dut_backing_process_coverage_summary.txt".
  assert (H : events (host_final (GdHostOnlyDevice_generate_coverage_report calm tidy
                                    sample_host_only_running host0)) =
              (events host0 ++ firstn 12 l ++
               Run ["/gd/llvm_binutils/bin/llvm-cov"; "report"; "--instr-profile";
                    "/logs/GdDevice_dut_backing_process_coverage.profdata";
                    "/gd/bluetooth_stack_with_facade"]
                 (Some "/logs/GdDevice_dut_backing_process_coverage_summary.txt")
                 (Exited 0) :: skipn 13 l)%list) by (vm_compute; reflexivity).
  split; [exact H|]. split; [reflexivity|].
  destruct (coverage_report_order calm tidy sample_host_only_running host0 _ _ _ _ _ H)
    as (Hm & _ & _ & _ & _ & Hr).
  split; [exact Hm|]. apply Hr. reflexivity.
Defined.

(** X22.  What the coverage report does when a tool fails.  A tool that
    exits with a code other than 0 is the last tool run.  After a failed
    merge the call logs "Failed to index profdata" and deletes the merged
    profile of the runs before, not the temporary file; after a failed
    export or report it closes the output file, logs the failure and
    deletes that output file.  The call then returns, unless the deletion
    itself raised OSError. *)
Theorem coverage_report_failures (w : World) (hw : HostWorld) (self : HostOnlyDevice)
    (hs : HostSys) (pre post : list HostAction) (args : list string) (out : option string)
    (rc : Z) :
  let res := GdHostOnlyDevice_generate_coverage_report w hw self hs in
  let warning := LogCoverage WARNING (label (host_base self)) in
  events (host_final res) = (events hs ++ pre ++ Run args out (Exited rc) :: post)%list ->
  rc <> 0 ->
  existsb is_run post = false /\
  exists ok,
    match out with
    | None => post = [warning FailedIndex; Unlink (Path_str (profdata_path self)) ok]
    | Some path =>
        exists note,
          post = [CloseFile path; warning note; Unlink path ok] /\
          (note = FailedReport \/ note = FailedSummary)
    end /\
    host_outcome res = if ok then Done tt else Failed (Lifecycle OSError).
Proof.
  cbv zeta. unfold GdHostOnlyDevice_generate_coverage_report.
  destruct hs as [ev ck]. host_exec. host_cases.
  all: rewrite <- ?app_assoc; cbn [app]; intros Hev Hrc; apply app_eq_inv in Hev.
  all: walk Hev.
  all: injection Hev; intros; subst; try congruence.
  all: split; [reflexivity|].
  all: first [ exists true; split; [first [reflexivity | eexists; split; [reflexivity|tauto]]
                                   | reflexivity]
             | exists false; split; [first [reflexivity | eexists; split; [reflexivity|tauto]]
                                    | reflexivity] ].
Qed.

(** A merge that fails: the merged profile is deleted. *)
Lemma coverage_report_failures_witness :
  exists pre args post,
    events (host_final (GdHostOnlyDevice_generate_coverage_report calm failing_merge
                          sample_host_only_running host0)) =
      (events host0 ++ pre ++ Run args None (Exited 1) :: post)%list /\
    post = [LogCoverage WARNING "dut" FailedIndex;
            Unlink "/logs/GdDevice_dut_backing_process_coverage.profdata" true] /\
    host_outcome (GdHostOnlyDevice_generate_coverage_report calm failing_merge
                    sample_host_only_running host0) = Done tt.
Proof.
  pose (l := events (host_final (GdHostOnlyDevice_generate_coverage_report calm failing_merge
                                   sample_host_only_running host0))).
  exists (firstn 6 l),
    ["/gd/llvm_binutils/bin/llvm-profdata"; "merge"; "-sparse";
     "/logs/run/GdDevice_dut_backing_coverage.profraw";
     "/logs/GdDevice_dut_backing_process_coverage.profdata"; "-o";
     "/logs/GdDevice_dut_backing_process_coverage_tmp.profdata"],
    (skipn 7 l).
  assert (H : events (host_final (GdHostOnlyDevice_generate_coverage_report calm
                                    failing_merge sample_host_only_running host0)) =
              (events host0 ++ firstn 6 l ++
               Run ["/gd/llvm_binutils/bin/llvm-profdata"; "merge"; "-sparse";
                    "/logs/run/GdDevice_dut_backing_coverage.profraw";
                    "/logs/GdDevice_dut_backing_process_coverage.profdata"; "-o";
                    "/logs/GdDevice_dut_backing_process_coverage_tmp.profdata"]
                 None (Exited 1) :: skipn 7 l)%list) by (vm_compute; reflexivity).
  split; [exact H|].
  destruct (coverage_report_failures calm failing_merge sample_host_only_running host0
              _ _ _ _ _ H ltac:(discriminate)) as (_ & ok & Hpost & Hout).
  assert (Hok : ok = true).
  { cbv zeta in Hpost. rewrite Hpost in H. vm_compute in H.
    injection H as H. now destruct ok. }
  subst ok. split; [exact Hpost | exact Hout].
Defined.



(** ** Programs of the lifecycle on the host *)

Lemma lifecycle_of_app a b :
  lifecycle_of (a ++ b) = (lifecycle_of a ++ lifecycle_of b)%list.
Proof.
  induction a as [|x a IH]; [reflexivity|]. destruct x; cbn; rewrite ?IH; reflexivity.
Qed.

Lemma lifecycle_of_map l : lifecycle_of (map OfLifecycle l) = l.
Proof. induction l as [|x l IH]; cbn; [reflexivity | now rewrite IH]. Qed.

Lemma skipn_length_app {A} (a b : list A) : skipn (List.length a) (a ++ b) = b.
Proof. induction a as [|x a IH]; [reflexivity | exact IH]. Qed.

(** A program of the lifecycle that adds [new] to its trace adds the same
    actions to the history of the host. *)
Lemma run_lift {A} (m : M A) hs new :
  trace (final (m (lifecycle_state hs))) = (trace (lifecycle_state hs) ++ new)%list ->
  lift m hs =
    (lifted (outcome (m (lifecycle_state hs))),
     {| events := (events hs ++ map OfLifecycle new)%list;
        host_clock := clock (final (m (lifecycle_state hs))) |}).
Proof.
  unfold lift, lifted, outcome, final. fold (lifecycle_state hs). cbv zeta.
  intros ->. now rewrite skipn_length_app.
Qed.

(** Every action of a teardown, or of a part of it, satisfies a predicate
    that holds of the actions a teardown is made of. *)
Ltac emits_teardown_steps Ht Hl :=
  repeat first
    [ apply emits_ret | apply emits_raise | apply emits_block | apply emits_history
    | apply emits_emit; first [apply Ht; reflexivity | apply Hl]
    | apply emits_bind; [|intros]
    | apply emits_try_except; [|intros]
    | match goal with
      | |- emits _ (do _) => apply emits_emit; first [apply Ht; reflexivity | apply Hl]
      | |- emits _ (if ?c then _ else _) => destruct c
      | |- emits _ (match ?c with _ => _ end) => destruct c
      end ].

Section TeardownEmits.
Variable w : World.

Lemma emits_teardown P self :
  (forall a, is_teardown_action a = true -> P a = true) ->
  (forall lvl m, P (Logging lvl m) = true) ->
  emits P (GdDeviceBase.teardown w self).
Proof.
  intros Ht Hl.
  unfold GdDeviceBase.teardown, GdDeviceBase.teardown_stop, GdDeviceBase.teardown_join,
    Popen_kill, Popen_send_signal, Popen_wait, Future_result, Channel_close, getattr, logging.
  emits_teardown_steps Ht Hl.
Qed.

Lemma teardown_comes_back self s : blocked (GdDeviceBase.teardown w self s) = false.
Proof.
  destruct self as [vm rp gp sp nm ti lb lp tp bl cm en tc [[p|] f [r|] [m|]]];
    try reflexivity.
  match goal with |- blocked (GdDeviceBase.teardown w ?d s) = _ =>
    destruct (teardown_shape w d s p f r m eq_refl) as (_ & _ & _ & _ & _ & Hb & _) end.
  exact Hb.
Qed.

(** A teardown closes the main channel once, if the device has one; it
    does nothing at all if it has none. *)
Lemma teardown_main_close_count self s :
  exists new,
    trace (final (GdDeviceBase.teardown w self s)) = (trace s ++ new)%list /\
    count (is_channel_close grpc_channel_id) new =
      match grpc_channel self with Some _ => 1%nat | None => 0%nat end /\
    (grpc_channel self = None -> new = [] /\ raised (GdDeviceBase.teardown w self s) = true).
Proof.
  unfold GdDeviceBase.teardown. destruct (grpc_channel self) as [m|]; cbn [getattr].
  2: { exists []. rewrite app_nil_r. repeat split. }
  rewrite (run_bind_returned _ _ s m s eq_refl).
  rewrite (run_bind_returned _ _ s {| target_port := target_port m; closed := true |}
             (after s [ChannelClose grpc_channel_id] 0) eq_refl).
  match goal with |- context [trace (final (?k ?s1))] =>
    assert (K : emits (fun a => negb (is_channel_close grpc_channel_id a)) k) end.
  { unfold GdDeviceBase.teardown_stop, GdDeviceBase.teardown_join,
      Popen_kill, Popen_send_signal, Popen_wait, Future_result, Channel_close, getattr, logging.
    repeat first
      [ apply emits_ret | apply emits_raise | apply emits_block | apply emits_history
      | apply emits_emit; reflexivity
      | apply emits_bind; [|intros]
      | apply emits_try_except; [|intros]
      | match goal with
        | |- emits _ (do _) => apply emits_emit; reflexivity
        | |- emits _ (if ?c then _ else _) => destruct c
        | |- emits _ (match ?c with _ => _ end) => destruct c
        end ]. }
  destruct (K (after s [ChannelClose grpc_channel_id] 0)) as (new & T & F).
  exists (ChannelClose grpc_channel_id :: new). rewrite T. cbn [after trace].
  rewrite <- app_assoc. split; [reflexivity|]. split; [|discriminate].
  rewrite count_cons. cbn [is_channel_close]. rewrite count_none; [reflexivity|].
  intros a Ha. rewrite forallb_forall in F. apply F in Ha. now destruct (is_channel_close _ a).
Qed.
End TeardownEmits.

Lemma count_events_app f a b :
  count_events f (a ++ b) = (count_events f a + count_events f b)%nat.
Proof. unfold count_events. now rewrite filter_app, length_app. Qed.

Lemma count_events_lifecycle l :
  count_events is_main_close (map OfLifecycle l) =
    count (is_channel_close grpc_channel_id) l /\
  count_events is_log_exception (map OfLifecycle l) = 0%nat.
Proof.
  unfold count_events, count. induction l as [|a l [IH1 IH2]]; [split; reflexivity|].
  cbn [map filter is_main_close is_log_exception]. split; [|exact IH2].
  destruct a; cbn [is_channel_close]; try exact IH1.
  match goal with c : ChannelId |- _ => destruct c end; cbn [List.length]; now rewrite ?IH1.
Qed.

Lemma adb_no_main_close l :
  forallb is_adb l = true -> count (is_channel_close grpc_channel_id) l = 0%nat.
Proof.
  intros H. apply count_none. intros a Ha. rewrite forallb_forall in H.
  apply H in Ha. now destruct a.
Qed.

Section HostRuns.
Variable w : World.
Variable hw : HostWorld.

(** The coverage report, as a step of a larger run. *)
Lemma run_coverage_report self hs :
  exists o hs' new,
    GdHostOnlyDevice_generate_coverage_report w hw self hs = (o, hs') /\
    events hs' = (events hs ++ new)%list /\
    lifecycle_of new = [] /\
    count_events is_main_close new = 0%nat /\
    count_events is_log_exception new = 0%nat /\
    match o with
    | Done _ => True
    | Failed e => coverage_error e = true
    | Hung => exists before args out, new = (before ++ [Run args out NeverExits])%list
    end.
Proof.
  unfold GdHostOnlyDevice_generate_coverage_report.
  destruct hs as [ev ck]. host_exec. host_cases.
  all: rewrite <- ?app_assoc; cbn [app].
  all: eexists _, _, _; (split; [reflexivity|]); (split; [reflexivity|]).
  all: (split; [reflexivity|]); (split; [reflexivity|]); (split; [reflexivity|]).
  all: try exact I; try reflexivity.
  all: match goal with
       | |- exists before args out, ?l = _ =>
           exists (removelast l); eexists _, _; cbn [removelast app]; reflexivity
       end.
Qed.

(** The teardown of the base class, run on the host. *)
Lemma run_lift_teardown self hs :
  exists stop,
    trace (final (GdDeviceBase.teardown w self (lifecycle_state hs))) =
      (trace (lifecycle_state hs) ++ stop)%list /\
    lift (GdDeviceBase.teardown w self) hs =
      (lifted (outcome (GdDeviceBase.teardown w self (lifecycle_state hs))),
       {| events := (events hs ++ map OfLifecycle stop)%list;
          host_clock := clock (final (GdDeviceBase.teardown w self (lifecycle_state hs))) |}) /\
    count (is_channel_close grpc_channel_id) stop =
      match grpc_channel self with Some _ => 1%nat | None => 0%nat end /\
    (grpc_channel self = None ->
     raised (GdDeviceBase.teardown w self (lifecycle_state hs)) = true).
Proof.
  destruct (teardown_main_close_count w self (lifecycle_state hs)) as (stop & T & C & N).
  exists stop. split; [exact T|]. split; [now apply run_lift|]. split; [exact C|].
  intros H. now apply N.
Qed.

(** What the teardown of a host-only device is made of. *)
Lemma run_host_only_teardown self hs :
  let base := GdDeviceBase.teardown w (host_base self) (lifecycle_state hs) in
  exists o hs' stop report,
    GdHostOnlyDevice_teardown w hw self hs = (o, hs') /\
    trace (final base) = (trace (lifecycle_state hs) ++ stop)%list /\
    events hs' = (events hs ++ map OfLifecycle stop ++ report)%list /\
    lifecycle_of report = [] /\
    count (is_channel_close grpc_channel_id) stop =
      match grpc_channel (host_base self) with Some _ => 1%nat | None => 0%nat end /\
    count_events is_main_close report = 0%nat /\
    count_events is_log_exception report = 0%nat /\
    (grpc_channel (host_base self) = None -> exists e, o = Failed e) /\
    match outcome base with
    | Returned b =>
        match o with
        | Done d =>
            d = {| host_base := b;
                   backing_process_profraw_path := backing_process_profraw_path self |}
        | Failed e => coverage_error e = true
        | Hung => exists before args out, report = (before ++ [Run args out NeverExits])%list
        end
    | Raised e => report = [] /\ o = Failed (Lifecycle e)
    | Blocked => False
    end.
Proof.
  cbv zeta. destruct (run_lift_teardown (host_base self) hs) as (stop & T & L & C & N).
  assert (B := teardown_comes_back w (host_base self) (lifecycle_state hs)).
  unfold GdHostOnlyDevice_teardown. unfold Host.bind at 1. rewrite L.
  unfold blocked, raised, outcome in *.
  destruct (fst (GdDeviceBase.teardown w (host_base self) (lifecycle_state hs)))
    as [b|e|] eqn:E; cbn [lifted]; [| |discriminate B].
  - unfold Host.bind at 1.
    match goal with |- context [GdHostOnlyDevice_generate_coverage_report w hw ?d ?h1] =>
      destruct (run_coverage_report d h1) as (o & hs2 & report & R & Ev & Lr & Cm & Cl & O) end.
    rewrite R. cbn [events] in Ev.
    exists (match o with
            | Done _ =>
                Done {| host_base := b;
                        backing_process_profraw_path := backing_process_profraw_path self |}
            | Failed e => Failed e
            | Hung => Hung
            end), hs2, stop, report.
    split; [now destruct o|]. split; [exact T|].
    split; [now rewrite Ev, <- app_assoc|]. split; [exact Lr|]. split; [exact C|].
    split; [exact Cm|]. split; [exact Cl|]. split.
    + intros Hn. apply N in Hn. discriminate Hn.
    + destruct o; auto.
  - eexists _, _, stop, []. split; [reflexivity|]. split; [exact T|].
    cbn [events]. rewrite app_nil_r. split; [reflexivity|]. split; [reflexivity|].
    split; [exact C|]. split; [reflexivity|]. split; [reflexivity|].
    split; [intros _; eauto | split; reflexivity].
Qed.

(** The teardown of an Android device, run on the host. *)
Lemma run_lift_android_teardown (self : AndroidDevice) hs :
  exists o hs' new,
    lift (GdAndroidDevice.teardown w self) hs = (o, hs') /\
    events hs' = (events hs ++ new)%list /\
    count_events is_main_close new =
      match grpc_channel (android_base self) with Some _ => 1%nat | None => 0%nat end /\
    count_events is_log_exception new = 0%nat /\
    (grpc_channel (android_base self) = None -> exists e, o = Failed e) /\
    o <> Hung.
Proof.
  destruct (teardown_main_close_count w (android_base self) (lifecycle_state hs))
    as (stop & T & C & N).
  assert (B := teardown_comes_back w (android_base self) (lifecycle_state hs)).
  assert (K : exists cleanup,
            trace (final (GdAndroidDevice.teardown w self (lifecycle_state hs))) =
              (trace (lifecycle_state hs) ++ stop ++ cleanup)%list /\
            forallb is_adb cleanup = true /\
            outcome (GdAndroidDevice.teardown w self (lifecycle_state hs)) <> Blocked /\
            (grpc_channel (android_base self) = None ->
             exists e, outcome (GdAndroidDevice.teardown w self (lifecycle_state hs)) =
                       Raised e)).
  { rewrite run_android_teardown. unfold blocked, raised, outcome, final in *.
    destruct (GdDeviceBase.teardown w (android_base self) (lifecycle_state hs))
      as [[b|e|] s1]; cbn [fst snd] in *; [| |discriminate B].
    - cbv zeta.
      destruct (android_cleanup_run w self b s1) as (o & s2 & cleanup & -> & Tc & F & O).
      cbn [fst snd]. exists cleanup. rewrite Tc, T, <- app_assoc.
      split; [reflexivity|]. split; [exact F|]. split.
      + intros ->. exact O.
      + intros Hn. destruct (N Hn) as [_ Hr]. discriminate Hr.
    - exists []. rewrite app_nil_r. split; [exact T|]. split; [reflexivity|].
      split; [discriminate | eauto]. }
  destruct K as (cleanup & Tk & F & Nb & Nn).
  rewrite (run_lift _ hs (stop ++ cleanup) Tk).
  eexists _, _, _. split; [reflexivity|]. cbn [events]. split; [reflexivity|].
  destruct (count_events_lifecycle (stop ++ cleanup)) as [-> ->].
  rewrite count_app, C, (adb_no_main_close cleanup F), Nat.add_0_r.
  split; [reflexivity|]. split; [reflexivity|]. split.
  - intros Hn. destruct (Nn Hn) as [e ->]. cbn. eauto.
  - destruct (outcome (GdAndroidDevice.teardown w self (lifecycle_state hs)));
      cbn; congruence.
Qed.

(** The teardown of a device of either class. *)
Lemma run_GdDevice_teardown device hs :
  exists o hs' new,
    GdDevice_teardown w hw device hs = (o, hs') /\
    events hs' = (events hs ++ new)%list /\
    count_events is_main_close new = (if has_main_channel device then 1 else 0)%nat /\
    count_events is_log_exception new = 0%nat /\
    (has_main_channel device = false -> exists e, o = Failed e) /\
    (o = Hung -> exists before args out, new = (before ++ [Run args out NeverExits])%list).
Proof.
  unfold GdDevice_teardown, has_main_channel. destruct device as [d|d]; cbn [base_of].
  - destruct (run_host_only_teardown d hs)
      as (o & hs' & stop & report & R & T & Ev & Lr & C & Cm & Cl & N & O).
    unfold Host.bind. rewrite R.
    exists (match o with Done d' => Done (HostOnly d') | Failed e => Failed e | Hung => Hung end),
      hs', (map OfLifecycle stop ++ report)%list.
    split; [now destruct o|]. split; [exact Ev|].
    rewrite !count_events_app, Cm, Cl.
    destruct (count_events_lifecycle stop) as [-> ->]. rewrite C, !Nat.add_0_r.
    split; [now destruct (grpc_channel (host_base d))|]. split; [reflexivity|]. split.
    + intros Hn. destruct (grpc_channel (host_base d)); [discriminate|].
      destruct (N eq_refl) as [e ->]. eauto.
    + intros Ho. destruct o; try discriminate Ho.
      unfold outcome in O.
      destruct (fst (GdDeviceBase.teardown w (host_base d) (lifecycle_state hs)));
        [|destruct O as [_ O]; discriminate O | destruct O].
      destruct O as (before & args & out & ->).
      exists (map OfLifecycle stop ++ before)%list, args, out. now rewrite app_assoc.
  - destruct (run_lift_android_teardown d hs) as (o & hs' & new & R & Ev & Cm & Cl & N & Nh).
    unfold Host.bind. rewrite R.
    exists (match o with Done d' => Done (Android d') | Failed e => Failed e | Hung => Hung end),
      hs', new.
    split; [now destruct o|]. split; [exact Ev|].
    split; [rewrite Cm; now destruct (grpc_channel (android_base d))|].
    split; [exact Cl|]. split.
    + intros Hn. destruct (grpc_channel (android_base d)); [discriminate|].
      destruct (N eq_refl) as [e ->]. eauto.
    + intros Ho. destruct o; try discriminate Ho. now destruct Nh.
Qed.
End HostRuns.

(** ** The teardown of the host-only device, and destroy *)

(** X24.  The teardown of the host-only device is the teardown of the base
    class followed by the coverage report.  What it does to the backing
    process, its channels and the logging task is exactly what the
    teardown of the base class does, and the report adds nothing to that.
    When the teardown of the base class raises, the same exception leaves
    the call and no step of the report is made, not even the look for the
    profraw file.  When it returns, the report follows; the call then
    returns the device the base class returned, or ends with the OSError
    or IndexError of the report, or hangs in a tool that never exits. *)
Theorem host_only_teardown_reports_after_stop (w : World) (hw : HostWorld)
    (self : HostOnlyDevice) (hs : HostSys) :
  let base := GdDeviceBase.teardown w (host_base self) (lifecycle_state hs) in
  let res := GdHostOnlyDevice_teardown w hw self hs in
  exists stop report,
    trace (final base) = (trace (lifecycle_state hs) ++ stop)%list /\
    events (host_final res) = (events hs ++ map OfLifecycle stop ++ report)%list /\
    lifecycle_of report = [] /\
    lifecycle_of (events (host_final res)) = trace (final base) /\
    match outcome base with
    | Returned b =>
        match host_outcome res with
        | Done d =>
            d = {| host_base := b;
                   backing_process_profraw_path := backing_process_profraw_path self |}
        | Failed e => coverage_error e = true
        | Hung => exists before args out, report = (before ++ [Run args out NeverExits])%list
        end
    | Raised e => report = [] /\ host_outcome res = Failed (Lifecycle e)
    | Blocked => False
    end.
Proof.
  cbv zeta. destruct (run_host_only_teardown w hw self hs)
    as (o & hs' & stop & report & -> & T & Ev & Lr & _ & _ & _ & _ & O).
  cbn [host_final host_outcome fst snd]. exists stop, report.
  split; [exact T|]. split; [exact Ev|]. split; [exact Lr|]. split; [|exact O].
  rewrite Ev, T, !lifecycle_of_app, lifecycle_of_map, Lr, app_nil_r. reflexivity.
Qed.

Section DestroyRuns.
Variable w : World.
Variable hw : HostWorld.

Lemma destroy_cons device rest hs :
  destroy w hw (device :: rest) hs =
    match GdDevice_teardown w hw device hs with
    | (Done _, hs1) => destroy w hw rest hs1
    | (Failed _, hs1) =>
        destroy w hw rest (host_after hs1 [LogException (label (base_of device))] 0)
    | (Hung, hs1) => (Hung, hs1)
    end.
Proof.
  cbn [destroy]. unfold Host.bind, Host.try_except, Host.ret, Host.do, Host.emit, host_after.
  destruct (GdDevice_teardown w hw device hs) as [[d|e|] hs1]; reflexivity.
Qed.

(** One round of the loop of [destroy]. *)
Lemma run_destroy_cons device rest hs :
  exists hs1 new,
    events hs1 = (events hs ++ new)%list /\
    count_events is_main_close new = (if has_main_channel device then 1 else 0)%nat /\
    (count_events is_log_exception new <= 1)%nat /\
    (has_main_channel device = false -> count_events is_log_exception new = 1%nat) /\
    (destroy w hw (device :: rest) hs = destroy w hw rest hs1 \/
     (destroy w hw (device :: rest) hs = (Hung, hs1) /\
      exists before args out, new = (before ++ [Run args out NeverExits])%list)).
Proof.
  destruct (run_GdDevice_teardown w hw device hs) as (o & hs' & new & R & Ev & Cm & Cl & N & H).
  rewrite destroy_cons, R. destruct o as [d|e|].
  - exists hs', new. split; [exact Ev|]. split; [exact Cm|]. split; [lia|]. split.
    + intros Hn. destruct (N Hn) as [e He]. discriminate He.
    + left. reflexivity.
  - exists (host_after hs' [LogException (label (base_of device))] 0),
      (new ++ [LogException (label (base_of device))])%list.
    cbn [host_after events]. rewrite Ev, <- app_assoc. split; [reflexivity|].
    rewrite !count_events_app, Cm, Cl. cbn. split; [lia|]. split; [lia|].
    split; [reflexivity|]. left. reflexivity.
  - exists hs', new. split; [exact Ev|]. split; [exact Cm|]. split; [lia|]. split.
    + intros Hn. destruct (N Hn) as [e He]. discriminate He.
    + right. split; [reflexivity|]. now apply H.
Qed.

Lemma run_destroy devices hs :
  exists o hs' new,
    destroy w hw devices hs = (o, hs') /\
    events hs' = (events hs ++ new)%list /\
    match o with
    | Done _ =>
        count_events is_main_close new = List.length (filter has_main_channel devices) /\
        (List.length (filter (fun d => negb (has_main_channel d)) devices) <=
         count_events is_log_exception new <= List.length devices)%nat
    | Failed _ => False
    | Hung => exists before args out, new = (before ++ [Run args out NeverExits])%list
    end.
Proof.
  revert hs. induction devices as [|device rest IH]; intros hs.
  - exists (Done tt), hs, []. rewrite app_nil_r. cbn. repeat split; lia.
  - destruct (run_destroy_cons device rest hs) as (hs1 & new & Ev & Cm & Cl & Cn & [R|[R H]]).
    + destruct (IH hs1) as (o & hs' & new' & R' & Ev' & O).
      exists o, hs', (new ++ new')%list. rewrite R, R'. split; [reflexivity|].
      rewrite Ev', Ev, <- app_assoc. split; [reflexivity|].
      destruct o as [[]| |]; [|exact O|].
      * destruct O as (Om & Ol). rewrite !count_events_app, Cm. cbn [filter List.length].
        destruct (has_main_channel device); cbn [negb List.length];
          [|specialize (Cn eq_refl)]; split; lia.
      * destruct O as (before & args & out & ->).
        exists (new ++ before)%list, args, out. now rewrite app_assoc.
    + exists Hung, hs1, new. split; [exact R|]. split; [exact Ev | exact H].
Qed.
End DestroyRuns.

(** X25.  [destroy] never raises, and goes through the whole list.  An
    exception of a teardown, also the AttributeError of a device that was
    never set up, is logged under the label of the device and the loop
    goes on with the next device.  When destroy returns, the main channel
    of every device that has one was closed, once for each such device,
    and a clean-up failure was logged at least for every device without
    one.  Destroy fails to return only when the coverage report of a
    host-only device runs a tool that never exits. *)
Theorem destroy_goes_through_every_device (w : World) (hw : HostWorld)
    (devices : list GdDevice) (hs : HostSys) :
  let res := destroy w hw devices hs in
  exists new,
    events (host_final res) = (events hs ++ new)%list /\
    match host_outcome res with
    | Done _ =>
        count_events is_main_close new = List.length (filter has_main_channel devices) /\
        (List.length (filter (fun d => negb (has_main_channel d)) devices) <=
         count_events is_log_exception new <= List.length devices)%nat
    | Failed _ => False
    | Hung => exists before args out, new = (before ++ [Run args out NeverExits])%list
    end.
Proof.
  cbv zeta. destruct (run_destroy w hw devices hs) as (o & hs' & new & -> & Ev & O).
  now exists new.
Qed.

(** ** wait_channel_ready *)

(** X26.  [wait_channel_ready] waits for the main channel with a timeout
    of 10 seconds: on a device that was set up it returns when the channel
    becomes ready within 10 seconds, having waited just that long, and
    otherwise fails the test with "wait channel ready timeout" under the
    label of the device after exactly 10 seconds; it never hangs.  On a
    device that was not set up it raises AttributeError at once. *)
Theorem wait_channel_ready_within_ten_seconds (w : World) (hw : HostWorld) (self : Device)
    (hs : HostSys) :
  let res := GdDeviceBase_wait_channel_ready hw self hs in
  (grpc_channel self = None ->
   res = (Failed (Lifecycle (AttributeError "grpc_channel")), hs)) /\
  (grpc_channel self <> None ->
   match channel_ready_after hw (events hs) with
   | Some delay =>
       if delay <=? 10000
       then res = (Done tt, host_after hs [ChannelReady 10 true] delay)
       else res = (Failed (HostTestFailure (ChannelReadyTimeout (label self))),
                   host_after hs [ChannelReady 10 false] 10000)
   | None =>
       res = (Failed (HostTestFailure (ChannelReadyTimeout (label self))),
              host_after hs [ChannelReady 10 false] 10000)
   end) /\
  host_outcome res <> Hung /\
  host_clock (host_final res) <= host_clock hs + 10000.
Proof.
  cbv zeta. unfold GdDeviceBase_wait_channel_ready, host_getattr.
  change GdDeviceBase.WAIT_CHANNEL_READY_TIMEOUT_SECONDS with 10.
  destruct hs as [ev ck]. destruct (grpc_channel self) as [m|].
  2: { split; [reflexivity|]. split; [congruence|]. cbn. split; [discriminate | lia]. }
  split; [discriminate|].
  unfold Host.bind, Host.ret, Host.history, Host.emit, Host.raise, host_after, wait_for.
  cbn [events host_clock option_map].
  destruct (channel_ready_after hw ev) as [delay|]; cbn [option_map].
  - change (1000 * 10) with 10000.
    destruct (Z.leb_spec delay 10000); cbn [host_outcome host_final fst snd host_clock].
    + split; [reflexivity|]. split; [discriminate | lia].
    + split; [reflexivity|]. split; [discriminate | lia].
  - change (1000 * 10) with 10000. cbn [host_outcome host_final fst snd host_clock].
    split; [reflexivity|]. split; [discriminate | lia].
Qed.

(** A channel that is ready after 200 ms, and one that never is. *)
Lemma wait_channel_ready_within_ten_seconds_witness :
  GdDeviceBase_wait_channel_ready tidy sample_running host0 =
    (Done tt, host_after host0 [ChannelReady 10 true] 200) /\
  GdDeviceBase_wait_channel_ready no_tools sample_running host0 =
    (Failed (HostTestFailure (ChannelReadyTimeout "dut")),
     host_after host0 [ChannelReady 10 false] 10000) /\
  GdDeviceBase_wait_channel_ready tidy sample_device host0 =
    (Failed (Lifecycle (AttributeError "grpc_channel")), host0).
Proof.
  split; [|split].
  - exact (proj1 (proj2 (wait_channel_ready_within_ten_seconds calm tidy sample_running
                           host0)) ltac:(discriminate)).
  - exact (proj1 (proj2 (wait_channel_ready_within_ten_seconds calm no_tools sample_running
                           host0)) ltac:(discriminate)).
  - exact (proj1 (wait_channel_ready_within_ten_seconds calm tidy sample_device host0)
             eq_refl).
Defined.

(** ** The set-up of the Android device: what precedes the spawn *)

Lemma in_order_app_skip ms l h : in_order ms h -> in_order ms (l ++ h).
Proof. intros H. induction l as [|a l IH]; [exact H | now apply in_order_skip]. Qed.

Lemma in_order_app ms1 ms2 h1 h2 :
  in_order ms1 h1 -> in_order ms2 h2 -> in_order (ms1 ++ ms2) (h1 ++ h2).
Proof.
  intros H1 H2. induction H1 as [h|ms a h H IH|m ms a h Hm H IH]; cbn [app].
  - now apply in_order_app_skip.
  - now apply in_order_skip.
  - now apply in_order_take.
Qed.

Lemma in_order_one (m : Action -> Prop) pre a post :
  m a -> in_order [m] (pre ++ a :: post).
Proof. intros H. apply in_order_app_skip. apply in_order_take; [exact H | constructor]. Qed.

Section SetupOrder.
Variable w : World.
Import GdAndroidDevice.

Lemma adb_returned sn call s v s1 :
  adb w sn call s = (Returned v, s1) ->
  trace s1 = (trace s ++ [Adb sn call (AdbOut v)])%list.
Proof.
  rewrite run_adb. cbv zeta. destruct (adb_reply w (trace s) sn call); [|discriminate].
  now intros [= <- <-].
Qed.

Lemma push_or_die_returned self src dst t s s1 :
  push_or_die w self src dst t s = (Returned tt, s1) ->
  exists pre out,
    trace s1 = (trace s ++ pre ++
                [Adb (serial_number self) (adb_push (src ++ " " ++ dst) t)
                   (AdbOut (PyStr out))])%list /\
    contains "error" out = false.
Proof.
  intros H. destruct (run_push_or_die w self src dst t s) as (o & s' & R & O).
  rewrite H in R. injection R as <- <-. exact O.
Qed.

Lemma ensure_verity_disabled_returned self s s1 :
  ensure_verity_disabled w self s = (Returned tt, s1) ->
  exists pre r1 r2,
    trace s1 = (trace s ++ pre ++
                [Adb (serial_number self) adb_remount (AdbOut r1);
                 Adb (serial_number self) (adb_wait_for_device 180) (AdbOut r2)])%list.
Proof.
  intros H. destruct (run_ensure_verity_disabled w self s) as (o & s' & new & R & T & _ & O).
  rewrite H in R. injection R as <- <-. destruct O as (pre & r1 & r2 & ->).
  now exists pre, r1, r2.
Qed.

Lemma ensure_no_output_returned v s s1 :
  ensure_no_output v s = (Returned tt, s1) -> no_output v /\ s1 = s.
Proof.
  unfold ensure_no_output, no_output, assert_true, ret, raise.
  destruct v as [| | |t]; try discriminate.
  - intros [= <-]. auto.
  - destruct t; cbn; [intros [= <-]; auto | discriminate].
Qed.

(** What [setup_on_device] has done when it returns. *)
Lemma setup_on_device_returned self s s1 :
  setup_on_device w self s = (Returned tt, s1) ->
  exists prep,
    trace s1 = (trace s ++ prep)%list /\ in_order (preparation w self) prep.
Proof.
  unfold setup_on_device. cbv zeta. intros H.
  apply bind_returned_state in H as ([] & a0 & H0 & H).
  apply ensure_verity_disabled_returned in H0 as (p0 & r1 & r2 & T0).
  apply bind_returned_state in H as (root & a1 & H1 & H). apply adb_returned in H1.
  apply bind_returned_state in H as (u2 & a2 & H2 & H).
  unfold assert_true in H2. destruct (truthy root) eqn:Hroot; [|discriminate H2].
  injection H2 as _ <-.
  apply bind_returned_state in H as (hist & a3 & H3 & H). injection H3 as _ <-.
  apply bind_returned_state in H as (v4 & a4 & H4 & H). apply adb_returned in H4.
  apply bind_returned_state in H as (v5 & a5 & H5 & H). apply adb_returned in H5.
  apply bind_returned_state in H as (v6 & a6 & H6 & H). apply adb_returned in H6.
  apply bind_returned_state in H as (v7 & a7 & H7 & H). apply adb_returned in H7.
  apply bind_returned_state in H as (v8 & a8 & H8 & H).
  apply tcp_forward_or_die_returned in H8 as (p8 & x8 & q8 & T8 & F8 & _).
  apply bind_returned_state in H as (v9 & a9 & H9 & H).
  apply tcp_forward_or_die_returned in H9 as (p9 & x9 & q9 & T9 & F9 & _).
  apply bind_returned_state in H as (v10 & a10 & H10 & H).
  apply tcp_reverse_or_die_returned in H10 as (p10 & x10 & q10 & T10 & F10 & _).
  apply bind_returned_state in H as ([] & a11 & H11 & H).
  apply push_or_die_returned in H11 as (p11 & o11 & T11 & F11).
  apply bind_returned_state in H as ([] & a12 & H12 & H).
  apply push_or_die_returned in H12 as (p12 & o12 & T12 & F12).
  apply bind_returned_state in H as ([] & a13 & H13 & H).
  apply push_or_die_returned in H13 as (p13 & o13 & T13 & F13).
  apply bind_returned_state in H as (v14 & a14 & H14 & H). apply adb_returned in H14.
  apply bind_returned_state in H as ([] & a15 & H15 & H).
  apply ensure_no_output_returned in H15 as (N15 & ->).
  apply bind_returned_state in H as (v16 & a16 & H16 & H). apply adb_returned in H16.
  apply bind_returned_state in H as (v17 & a17 & H17 & H). apply adb_returned in H17.
  apply ensure_no_output_returned in H as (N17 & ->).
  eexists. split.
  { rewrite H17, H16, H14, T13, T12, T11, T10, T9, T8, H7, H6, H5, H4, H1, T0.
    rewrite <- !app_assoc. reflexivity. }
  unfold preparation. cbv zeta.
  repeat first
    [ apply in_order_nil
    | progress cbn [app]
    | match goal with |- in_order _ (_ ++ _) => apply in_order_app_skip end
    | apply in_order_take;
      [ first [ eexists; split; [reflexivity | first [exact I | assumption | eexists; eauto]]
              | eexists _, _; reflexivity ]
      | ]
    | apply in_order_skip ].
Qed.
End SetupOrder.

(** X27.  The set-up of an Android device spawns the backing process only
    on a prepared device.  In every run that reaches the spawn, what
    precedes it is: actions on the device and log lines only, among them,
    in this order, the remount and the wait that end
    [ensure_verity_disabled]; root access obtained; the date set; the two
    forwards and the reverse of the device's ports removed; the two gRPC
    ports forwarded and the signal port reversed, each answered without an
    error; the three files pushed, each with an output free of "error";
    logcat cleared without output; the btsnoop log removed; Bluetooth
    disabled without output; and then nothing but the check of the signal
    port, passed, and its bind. *)
Theorem android_setup_prepares_before_spawn (w : World) (self : AndroidDevice) (s : Sys) :
  exists new,
    trace (final (GdAndroidDevice.setup w self s)) = (trace s ++ new)%list /\
    (existsb is_spawn new = true ->
     exists prep,
       before is_spawn new =
         (prep ++ [MakePortsAvailable [signal_port (android_base self)] true;
                   SocketBindListen (signal_port (android_base self)) true])%list /\
       forallb is_device_side prep = true /\
       in_order (preparation w self) prep).
Proof.
  destruct (android_setup_parts w self s)
    as (ds & Fd & [(Et & _ & _)|(s1 & base & R & E1 & Eb & Et & _)]).
  - exists ds. split; [exact Et|]. intros Hs. rewrite <- (app_nil_r ds) in Hs.
    rewrite (proj2 (device_side_before_spawn ds [] Fd)) in Hs. discriminate.
  - destruct (base_setup_gate w (android_base self) s1) as (base' & Eb' & _ & Sb & _).
    rewrite Eb in Eb'. apply app_inv_head in Eb'. subst base'.
    exists (ds ++ base)%list. split; [exact Et|]. intros Hs.
    destruct (device_side_before_spawn ds base Fd) as [Hb He].
    rewrite He in Hs. exists ds. rewrite Hb, (Sb Hs). split; [reflexivity|].
    split; [exact Fd|].
    destruct (setup_on_device_returned w self s s1 R) as (prep & Ep & O).
    rewrite E1 in Ep. apply app_inv_head in Ep. now subst prep.
Qed.

(** The sample Android device in a calm environment: the spawn is reached,
    on a prepared device. *)
Lemma android_setup_prepares_before_spawn_witness :
  existsb is_spawn (trace (final (GdAndroidDevice.setup calm sample_android sys0))) = true /\
  exists prep,
    before is_spawn (trace (final (GdAndroidDevice.setup calm sample_android sys0))) =
      (prep ++ [MakePortsAvailable [8895] true; SocketBindListen 8895 true])%list /\
    in_order (preparation calm sample_android) prep.
Proof.
  destruct (android_setup_prepares_before_spawn calm sample_android sys0) as (new & E & G).
  cbn [sys0 trace app] in E. rewrite E.
  assert (S : existsb is_spawn new = true) by (rewrite <- E; vm_compute; reflexivity).
  split; [exact S|]. destruct (G S) as (prep & B & _ & O).
  exists prep. split; [exact B | exact O].
Defined.
